(** * ITS compiler (its-compiler-js): a shallow embedding and its properties

    The development follows the classes of the TypeScript sources:
    - [SecurityValidator]    and the error classes and configurations
                             of [types.ts] (module [Security]),
    - [ConditionalEvaluator] the jsep based evaluator (module [Evaluator]),
    - [VariableProcessor]    (module [Variables]),
    - [SchemaLoader]         and its cache (module [Loader]),
    - [ITSCompiler]          the pipeline (module [Compiler]).

    JavaScript strings are modelled by [string] (code units below 256),
    numbers by [Z] (the integer valued ones), exceptions by the [Throw]
    branch of [result]. What the sources take from their host (the URL
    parser, [JSON], jsep, the comparison of arbitrary values, the clock
    and the network) is a variable of the section that uses it. *)

From Stdlib Require Import String Ascii ZArith List Bool Lia DecimalString.
From Stdlib Require DecimalPos.
From stdpp Require Import base option list gmap strings.

Open Scope string_scope.
Open Scope list_scope.
Open Scope stdpp_scope.

Set Default Proof Using "Type".
Set Warnings "-register-all".

(* ================================================================== *)
(** * Exceptions *)
(* ================================================================== *)

(** The error classes of [types.ts]; [JsError] stands for the errors
    of the language itself, with their [name]: [Error], [TypeError],
    [SyntaxError], [RangeError]. *)
Inductive error : Type :=
| ITSSecurityError (message securityRule threatType : string)
                   (blockedContent : option string)
| ITSVariableError (message : string) (variablePath : option string)
                   (availableVariables : option (list string))
| ITSValidationError (message : string) (validationErrors securityIssues : list string)
| ITSCompilationError (message : string) (elementId elementType : option string)
                      (compilationStage : string)
| JsError (name message : string).

Inductive result (A : Type) : Type :=
| Ok (a : A)
| Throw (e : error).
Arguments Ok {A} a.
Arguments Throw {A} e.

#[global] Instance result_ret : MRet result := fun A a => Ok a.
#[global] Instance result_bind : MBind result := fun A B f m =>
  match m with
  | Ok a => f a
  | Throw e => Throw e
  end.

(** [try { m } catch (error) { throw h(error) }] *)
Definition rethrow {A} (m : result A) (h : error -> error) : result A :=
  match m with
  | Ok a => Ok a
  | Throw e => Throw (h e)
  end.

(** [new Error(message)] *)
Definition plainError (message : string) : error := JsError "Error" message.
(** The [TypeError]s of the runtime. *)
Definition typeError (message : string) : error := JsError "TypeError" message.

Definition is_ok {A} (m : result A) : bool :=
  match m with Ok _ => true | Throw _ => false end.

Definition isSecurityError (e : error) : bool :=
  match e with ITSSecurityError _ _ _ _ => true | _ => false end.

Definition isVariableError (e : error) : bool :=
  match e with ITSVariableError _ _ _ => true | _ => false end.

(** [error.message] *)
Definition errorMessage (e : error) : string :=
  match e with
  | ITSSecurityError m _ _ _ => m
  | ITSVariableError m _ _ => m
  | ITSValidationError m _ _ => m
  | ITSCompilationError m _ _ _ => m
  | JsError _ m => m
  end.

(** [this.name = this.constructor.name] *)
Definition errorName (e : error) : string :=
  match e with
  | ITSSecurityError _ _ _ _ => "ITSSecurityError"
  | ITSVariableError _ _ _ => "ITSVariableError"
  | ITSValidationError _ _ _ => "ITSValidationError"
  | ITSCompilationError _ _ _ _ => "ITSCompilationError"
  | JsError name _ => name
  end.

(** [`${error}`]: [Error.prototype.toString] gives [name: message]. *)
Definition errorToString (e : error) : string :=
  errorName e +:+ ": " +:+ errorMessage e.

Section Loops.
Context {A B : Type}.

(** [for (const x of xs) f(x)] for a body that may throw. *)
Definition forEach (f : A -> result unit) : list A -> result unit :=
  fix loop (xs : list A) : result unit :=
    match xs with
    | [] => Ok tt
    | x :: rest => f x ;; loop rest
    end.

(** [xs.map(f)] for a callback that may throw. *)
Definition mapE (f : A -> result B) : list A -> result (list B) :=
  fix loop (xs : list A) : result (list B) :=
    match xs with
    | [] => Ok []
    | x :: rest => y ← f x; ys ← loop rest; Ok (y :: ys)
    end.

(** [for (const x of xs) result.push(...f(x))] *)
Definition flatMapE (f : A -> result (list B)) : list A -> result (list B) :=
  fix loop (xs : list A) : result (list B) :=
    match xs with
    | [] => Ok []
    | x :: rest => ys ← f x; zs ← loop rest; Ok (ys ++ zs)
    end.

End Loops.

(* ================================================================== *)
(** * Strings *)
(* ================================================================== *)

Module Str.

Definition code (c : ascii) : nat := nat_of_ascii c.

Definition between (lo hi c : ascii) : bool :=
  (code lo <=? code c)%nat && (code c <=? code hi)%nat.

Definition isUpper (c : ascii) : bool := between "A" "Z" c.
Definition isLower (c : ascii) : bool := between "a" "z" c.
Definition isDigit (c : ascii) : bool := between "0" "9" c.

Definition lowerChar (c : ascii) : ascii :=
  if isUpper c then ascii_of_nat (code c + 32) else c.
Definition upperChar (c : ascii) : ascii :=
  if isLower c then ascii_of_nat (code c - 32) else c.

(** [\w] *)
Definition isWordChar (c : ascii) : bool :=
  isUpper c || isLower c || isDigit c || Ascii.eqb c "_".

(** Line terminators below 256: LF and CR. *)
Definition isLineTerminator (c : ascii) : bool :=
  (code c =? 10)%nat || (code c =? 13)%nat.

(** White space below 256, as [\s] and [trim] see it: TAB, LF, VT, FF,
    CR, SP and NBSP. *)
Definition isSpace (c : ascii) : bool :=
  existsb (Nat.eqb (code c)) [9; 10; 11; 12; 13; 32; 160]%nat.

(** [s.toLowerCase()]: A-Z and the capital letters of Latin-1. *)
Definition toLowerChar (c : ascii) : ascii :=
  if isUpper c || ((192 <=? code c)%nat && (code c <=? 222)%nat && negb (code c =? 215)%nat)
  then ascii_of_nat (code c + 32) else c.

Fixpoint toLowerCase (s : string) : string :=
  match s with
  | EmptyString => EmptyString
  | String c rest => String (toLowerChar c) (toLowerCase rest)
  end.

(** [s.startsWith(p)] *)
Fixpoint startsWith (p s : string) : bool :=
  match p, s with
  | EmptyString, _ => true
  | String a p', String b s' => Ascii.eqb a b && startsWith p' s'
  | String _ _, EmptyString => false
  end.

(** [s.includes(p)] *)
Fixpoint includes (p s : string) : bool :=
  startsWith p s ||
  match s with
  | EmptyString => false
  | String _ s' => includes p s'
  end.

Fixpoint rev (s : string) : string :=
  match s with
  | EmptyString => EmptyString
  | String c rest => rev rest +:+ String c EmptyString
  end.

(** [s.endsWith(p)] *)
Definition endsWith (p s : string) : bool := startsWith (rev p) (rev s).

Fixpoint trimStart (s : string) : string :=
  match s with
  | String c rest => if isSpace c then trimStart rest else s
  | EmptyString => EmptyString
  end.

(** [s.trim()] *)
Definition trim (s : string) : string := rev (trimStart (rev (trimStart s))).

(** [s.substring(0, n)] *)
Definition take (n : nat) (s : string) : string := substring 0 n s.

(** [String(z)] for an integer valued number. *)
Definition ofZ (z : Z) : string := NilZero.string_of_int (Z.to_int z).

Definition ofNat (n : nat) : string := ofZ (Z.of_nat n).

(** [xs.join(sep)] *)
Fixpoint join (sep : string) (xs : list string) : string :=
  match xs with
  | [] => ""
  | [x] => x
  | x :: rest => x +:+ sep +:+ join sep rest
  end.

End Str.

(* ================================================================== *)
(** * Regular expressions *)
(* ================================================================== *)

(** The patterns of the sources are written in a small abstract syntax
    and run by [Regex.test], which follows [RegExp.prototype.test] on a
    pattern whose [lastIndex] is 0: is there a match starting anywhere.
    A set of positions of the subject is a vector of booleans, one per
    position, the end of input included. *)
Module Regex.

Inductive atom : Type :=
| Lit (c : ascii)            (* the character itself *)
| Range (lo hi : ascii)      (* lo-hi inside a class *)
| Word                       (* \w *)
| Digit                      (* \d *)
| Space.                     (* \s *)

Inductive regex : Type :=
| Eps
| Chr (a : atom)
| Any                                      (* . *)
| Class (negated : bool) (items : list atom)  (* [...] and [^...] *)
| Seq (r1 r2 : regex)
| Alt (r1 r2 : regex)
| Star (r : regex)
| Bol                                      (* ^ *)
| Eol                                      (* $ *)
| WordBoundary.                            (* \b *)

(** Derived forms. *)
Definition Plus (r : regex) : regex := Seq r (Star r).

Fixpoint Times (n : nat) (r : regex) : regex :=
  match n with
  | O => Eps
  | S n' => Seq r (Times n' r)
  end.

(** A run of literal characters. *)
Fixpoint lits (s : string) : regex :=
  match s with
  | EmptyString => Eps
  | String c rest => Seq (Chr (Lit c)) (lits rest)
  end.

Fixpoint cat (rs : list regex) : regex :=
  match rs with
  | [] => Eps
  | r :: rest => Seq r (cat rest)
  end.

Fixpoint oneOf (rs : list regex) : regex :=
  match rs with
  | [] => Class false []
  | [r] => r
  | r :: rest => Alt r (oneOf rest)
  end.

(** One character against one atom; [ci] is the [i] flag. Under [i] a
    character matches when its upper or lower case form does. *)
Definition atomTest (a : atom) (c : ascii) : bool :=
  match a with
  | Lit x => Ascii.eqb x c
  | Range lo hi => Str.between lo hi c
  | Word => Str.isWordChar c
  | Digit => Str.isDigit c
  | Space => Str.isSpace c
  end.

Definition atomMatches (ci : bool) (a : atom) (c : ascii) : bool :=
  atomTest a c ||
  (ci && (atomTest a (Str.upperChar c) || atomTest a (Str.lowerChar c))).

Definition classMatches (ci negated : bool) (items : list atom) (c : ascii) : bool :=
  xorb negated (existsb (fun a => atomMatches ci a c) items).

Definition vor (v w : list bool) : list bool := zip_with orb v w.
Definition vand (v w : list bool) : list bool := zip_with andb v w.

(** Advance every position of [v] over one character accepted by [p]. *)
Definition advance (p : ascii -> bool) (s : list ascii) (v : list bool) : list bool :=
  false :: zip_with (fun b c => b && p c) v s.

(** The positions at which an assertion holds. *)
Definition bolFlags (s : list ascii) : list bool :=
  true :: map (fun _ => false) s.

Fixpoint eolFlags (s : list ascii) : list bool :=
  match s with
  | [] => [true]
  | _ :: rest => false :: eolFlags rest
  end.

Fixpoint boundaryFlags (prev : bool) (s : list ascii) : list bool :=
  match s with
  | [] => [xorb prev false]
  | c :: rest => xorb prev (Str.isWordChar c) :: boundaryFlags (Str.isWordChar c) rest
  end.

(** [ends ci s r v]: the positions where a match of [r] can end when it
    starts at a position of [v]. *)
Fixpoint ends (ci : bool) (s : list ascii) (r : regex) (v : list bool) : list bool :=
  match r with
  | Eps => v
  | Chr a => advance (atomMatches ci a) s v
  | Any => advance (fun c => negb (Str.isLineTerminator c)) s v
  | Class negated items => advance (classMatches ci negated items) s v
  | Seq r1 r2 => ends ci s r2 (ends ci s r1 v)
  | Alt r1 r2 => vor (ends ci s r1 v) (ends ci s r2 v)
  | Star r1 => Nat.iter (length s) (fun x => vor x (ends ci s r1 x)) v
  | Bol => vand v (bolFlags s)
  | Eol => vand v (eolFlags s)
  | WordBoundary => vand v (boundaryFlags false s)
  end.

Definition everywhere (s : list ascii) : list bool :=
  true :: map (fun _ => true) s.

(** [pattern.test(text)] *)
Definition test (ci : bool) (r : regex) (text : string) : bool :=
  let s := list_ascii_of_string text in
  existsb (fun b => b) (ends ci s r (everywhere s)).

End Regex.

(* ================================================================== *)
(** * JavaScript values *)
(* ================================================================== *)

Module Js.

(** The values the compiler handles: JSON data, [undefined], and what
    the prototype chain of a JSON object makes reachable, namely
    [Object.prototype] itself and the built-in functions it holds.
    An object is its prototype and its own properties, each with its
    [enumerable] flag, in the order [Object.getOwnPropertyNames] lists
    them; objects have no identity except [Object.prototype]. *)
Inductive value : Type :=
| VUndefined
| VNull
| VBool (b : bool)
| VNum (z : Z)
| VString (s : string)
| VArray (items : list value)
| VObject (proto : value) (props : list (string * (bool * value)))
| VObjectPrototype
| VFunction (name : string).

Definition props : Type := list (string * (bool * value)).

(** What [Record<string, any>] holds. *)
Record object : Type := mkObject { objProto : value; objProps : props }.

Definition ofObject (o : object) : value := VObject (objProto o) (objProps o).

(** An object literal [{k1: v1, ...}] and what [JSON.parse] builds. *)
Definition literal (kvs : list (string * value)) : object :=
  mkObject VObjectPrototype
    (map (fun kv : string * value => (kv.1, (true, kv.2))) kvs).

Definition typeOf (v : value) : string :=
  match v with
  | VUndefined => "undefined"
  | VNull | VArray _ | VObject _ _ | VObjectPrototype => "object"
  | VBool _ => "boolean"
  | VNum _ => "number"
  | VString _ => "string"
  | VFunction _ => "function"
  end.

Definition isArray (v : value) : bool :=
  match v with VArray _ => true | _ => false end.

(** [Boolean(v)], [if (v)], [!v] *)
Definition truthy (v : value) : bool :=
  match v with
  | VUndefined | VNull => false
  | VBool b => b
  | VNum z => negb (z =? 0)%Z
  | VString s => negb (s =? "")%string
  | _ => true
  end.

(** [typeof v === 'object' && v !== null] *)
Definition isObjectLike (v : value) : bool :=
  match v with
  | VArray _ | VObject _ _ | VObjectPrototype => true
  | _ => false
  end.

(** ** Own properties *)

Fixpoint ownLookup (k : string) (ps : props) : option (bool * value) :=
  match ps with
  | [] => None
  | (k', p) :: rest => if (k' =? k)%string then Some p else ownLookup k rest
  end.

(** [Object.getOwnPropertyNames(o)] *)
Definition getOwnPropertyNames (o : object) : list string :=
  map fst (objProps o).

(** [Object.prototype.hasOwnProperty.call(o, k)] *)
Definition hasOwnProperty (o : object) (k : string) : bool :=
  bool_decide (is_Some (ownLookup k (objProps o))).

(** [Object.entries(o)]: the enumerable own properties. *)
Definition entriesOf (ps : props) : list (string * value) :=
  omap (fun kp : string * (bool * value) =>
          if kp.2.1 then Some (kp.1, kp.2.2) else None) ps.

Definition entries (o : object) : list (string * value) := entriesOf (objProps o).

(** [Object.keys(o)] *)
Definition keys (o : object) : list string := map fst (entries o).

(** The names [Object.prototype] holds, all of them non-enumerable. *)
Definition objectPrototypeNames : list string :=
  [ "constructor"; "__defineGetter__"; "__defineSetter__"; "hasOwnProperty";
    "__lookupGetter__"; "__lookupSetter__"; "isPrototypeOf";
    "propertyIsEnumerable"; "toString"; "valueOf"; "__proto__";
    "toLocaleString" ].

Definition inObjectPrototype (k : string) : bool :=
  existsb (String.eqb k) objectPrototypeNames.

(** An array index in canonical form, as a property key. *)
Fixpoint digitsValue (acc : Z) (s : string) : option Z :=
  match s with
  | EmptyString => Some acc
  | String c rest =>
      if Str.isDigit c
      then digitsValue (10 * acc + (Z.of_nat (Str.code c) - 48)) rest
      else None
  end.

Definition parseIndex (k : string) : option Z :=
  match k with
  | EmptyString => None
  | _ => n ← digitsValue 0 k;
         if (Str.ofZ n =? k)%string && (n <? 4294967295)%Z then Some n else None
  end.

(** [xs[i]] for an integer [i]; [None] outside the bounds. *)
Definition nthZ {A} (xs : list A) (i : Z) : option A :=
  if (0 <=? i)%Z && (i <? Z.of_nat (length xs))%Z then xs !! Z.to_nat i else None.

Section Host.

(** What arrays, strings, numbers, booleans and functions inherit from
    the prototypes of the runtime ([Array.prototype] and the like);
    these tables are the runtime's, not the compiler's. *)
Variable hostInherited : value -> string -> option value.

(** [v[k]] looked up on [holder] for the receiver whose prototype is
    [rp]: own properties first, then the prototype chain. The
    [__proto__] accessor of [Object.prototype] answers the receiver's
    prototype. *)
Fixpoint getFrom (rp : value) (holder : value) (k : string) : option value :=
  match holder with
  | VObject p ps =>
      match ownLookup k ps with
      | Some (_, v) => Some v
      | None => getFrom rp p k
      end
  | VObjectPrototype =>
      if (k =? "__proto__")%string then Some rp
      else if (k =? "constructor")%string then Some (VFunction "Object")
      else if inObjectPrototype k then Some (VFunction k)
      else None
  | VArray xs =>
      if (k =? "length")%string then Some (VNum (Z.of_nat (length xs)))
      else match parseIndex k with
           | Some i => match nthZ xs i with
                       | Some v => Some v
                       | None => hostInherited holder k
                       end
           | None => hostInherited holder k
           end
  | VString s =>
      if (k =? "length")%string then Some (VNum (Z.of_nat (String.length s)))
      else match parseIndex k with
           | Some i => match nthZ (list_ascii_of_string s) i with
                       | Some c => Some (VString (String c EmptyString))
                       | None => hostInherited holder k
                       end
           | None => hostInherited holder k
           end
  | VUndefined | VNull => None
  | _ => hostInherited holder k
  end.

Definition prototypeOf (v : value) : value :=
  match v with
  | VObject p _ => p
  | VObjectPrototype => VNull
  | _ => default VUndefined (hostInherited v "__proto__")
  end.

(** [k in o] *)
Definition hasProperty (k : string) (o : value) : bool :=
  bool_decide (is_Some (getFrom (prototypeOf o) o k)).

(** [o[k]] for a string key; a missing property reads [undefined]. *)
Definition get (o : value) (k : string) : value :=
  default VUndefined (getFrom (prototypeOf o) o k).

(** [String(v)]. An object is converted by the [toString] it inherits
    from [Object.prototype]; when something else sits under that name
    the conversion fails with a [TypeError]. *)
Fixpoint toStr (v : value) : result string :=
  match v with
  | VUndefined => Ok "undefined"
  | VNull => Ok "null"
  | VBool true => Ok "true"
  | VBool false => Ok "false"
  | VNum z => Ok (Str.ofZ z)
  | VString s => Ok s
  | VArray xs =>
      parts ← (fix go (ys : list value) : result (list string) :=
                 match ys with
                 | [] => Ok []
                 | y :: rest =>
                     s ← match y with
                         | VUndefined | VNull => Ok ""
                         | _ => toStr y
                         end;
                     ss ← go rest; Ok (s :: ss)
                 end) xs;
      Ok (Str.join "," parts)
  | VObject p ps =>
      match getFrom p v "toString" with
      | Some (VFunction "toString") => Ok "[object Object]"
      | _ => Throw (typeError "Cannot convert object to primitive value")
      end
  | VObjectPrototype => Ok "[object Object]"
  | VFunction name => Ok ("function " +:+ name +:+ "() { [native code] }")
  end.

(** [o[p]] for a computed key: a number inside an array's bounds
    reads the element, any other key goes through its string form. *)
Definition getProperty (o p : value) : result value :=
  match p with
  | VString k => Ok (get o k)
  | _ => k ← toStr p; Ok (get o k)
  end.

End Host.

(** ** Building objects *)

(** [o[k] = v] on an ordinary object: an existing property keeps its
    place; a new one goes after the others, array indices first and in
    ascending order. *)
Fixpoint replaceProp (k : string) (v : value) (ps : props) : props :=
  match ps with
  | [] => []
  | (k', (e, v')) :: rest =>
      if (k' =? k)%string then (k', (e, v)) :: rest
      else (k', (e, v')) :: replaceProp k v rest
  end.

Fixpoint insertIndexProp (i : Z) (k : string) (v : value) (ps : props) : props :=
  match ps with
  | [] => [(k, (true, v))]
  | (k', p) :: rest =>
      match parseIndex k' with
      | Some j => if (j <? i)%Z then (k', p) :: insertIndexProp i k v rest
                  else (k, (true, v)) :: ps
      | None => (k, (true, v)) :: ps
      end
  end.

Definition setProp (k : string) (v : value) (ps : props) : props :=
  match ownLookup k ps with
  | Some _ => replaceProp k v ps
  | None =>
      match parseIndex k with
      | Some i => insertIndexProp i k v ps
      | None => ps ++ [(k, (true, v))]
      end
  end.

(** Does an object with this prototype inherit the [__proto__] accessor
    of [Object.prototype]? *)
Fixpoint inheritsProtoAccessor (proto : value) : bool :=
  match proto with
  | VObjectPrototype => true
  | VObject p ps =>
      match ownLookup "__proto__" ps with
      | Some _ => false
      | None => inheritsProtoAccessor p
      end
  | _ => false
  end.

(** [o[k] = v] as an assignment statement: on an object that inherits
    the [__proto__] accessor the key [__proto__] sets the prototype
    (when [v] is an object or [null]) and creates no property. *)
Definition assign (o : object) (k : string) (v : value) : object :=
  if (k =? "__proto__")%string &&
     bool_decide (ownLookup k (objProps o) = None) &&
     inheritsProtoAccessor (objProto o)
  then if isObjectLike v || match v with VNull => true | _ => false end
       then mkObject v (objProps o)
       else o
  else mkObject (objProto o) (setProp k v (objProps o)).

(** [{ ...a, ...b }] *)
Definition spread (a b : object) : object :=
  mkObject VObjectPrototype
    (fold_left (fun ps (kv : string * value) => setProp kv.1 kv.2 ps)
               (entries a ++ entries b) []).

End Js.

(* ================================================================== *)
(** * Templates ([types.ts]) *)
(* ================================================================== *)

Inductive ContentElement : Type :=
| TextElement (id : option string) (text : string)
| PlaceholderElement (id : option string) (instructionType : string)
                     (config : Js.object)
| ConditionalElement (id : option string) (condition : string)
                     (content : list ContentElement)
                     (else_ : option (list ContentElement)).

Definition isConditional (e : ContentElement) : bool :=
  match e with ConditionalElement _ _ _ _ => true | _ => false end.

Record CompilerConfig : Type := mkCompilerConfig {
  systemPrompt : option string;
  userContentWrapper : option string;
  instructionWrapper : option string;
  processingInstructions : option (list string)
}.

Record ITSTemplate : Type := mkTemplate {
  version : string;
  description : option string;
  extends : option (list string);
  variables : option Js.object;
  customInstructionTypes : option Js.object;
  content : list ContentElement;
  compilerConfig : option CompilerConfig
}.

(** [template.variables || {}] *)
Definition templateVariables (template : ITSTemplate) : Js.object :=
  default (Js.literal []) (variables template).

Inductive OverrideType : Type := CUSTOM | SCHEMA_EXTENSION | STANDARD.

Record TypeOverride : Type := mkOverride {
  typeName : string;
  overrideSource : string;
  overriddenSource : Js.value;
  overrideType : OverrideType
}.

Record SecurityConfig : Type := mkSecurityConfig {
  allowHttp : bool;
  blockLocalhost : bool;
  blockPrivateNetworks : bool;
  domainAllowlist : option (list string);
  maxTemplateSize : Z;
  maxContentElements : Z;
  maxNestingDepth : Z;
  maxExpressionLength : Z;
  requestTimeout : Z
}.

Definition DEFAULT_SECURITY_CONFIG : SecurityConfig := {|
  allowHttp := false;
  blockLocalhost := true;
  blockPrivateNetworks := true;
  domainAllowlist := None;
  maxTemplateSize := 1024 * 1024;
  maxContentElements := 1000;
  maxNestingDepth := 10;
  maxExpressionLength := 500;
  requestTimeout := 10000
|}.

Definition DEVELOPMENT_SECURITY_CONFIG : SecurityConfig := {|
  allowHttp := true;
  blockLocalhost := false;
  blockPrivateNetworks := false;
  domainAllowlist := None;
  maxTemplateSize := 5 * 1024 * 1024;
  maxContentElements := 2000;
  maxNestingDepth := 15;
  maxExpressionLength := 1000;
  requestTimeout := 30000
|}.

(** [{ ...config, allowHttp: true }], what the command line builds for
    [--allow-http]. *)
Definition withAllowHttp (c : SecurityConfig) : SecurityConfig := {|
  allowHttp := true;
  blockLocalhost := blockLocalhost c;
  blockPrivateNetworks := blockPrivateNetworks c;
  domainAllowlist := domainAllowlist c;
  maxTemplateSize := maxTemplateSize c;
  maxContentElements := maxContentElements c;
  maxNestingDepth := maxNestingDepth c;
  maxExpressionLength := maxExpressionLength c;
  requestTimeout := requestTimeout c
|}.

(** [s.length] as a number. *)
Definition len (s : string) : Z := Z.of_nat (String.length s).

(** What [new URL(url)] exposes of a parsed URL. *)
Record URL : Type := mkURL {
  protocol : string;
  hostname : string;
  pathname : string
}.

(* ================================================================== *)
(** * SecurityValidator ([security.ts]) *)
(* ================================================================== *)

Module Security.
Import Regex.

(** A pattern with its flags; only [i] changes what [test] answers on a
    freshly built pattern. *)
Record pattern : Type := mkPattern { ignoreCase : bool; body : regex }.

Definition matchesPattern (p : pattern) (text : string) : bool :=
  test (ignoreCase p) (body p) text.

Definition spaces : regex := Star (Chr Space).
Definition hexDigit : regex :=
  Class false [Range "0" "9"; Range "a" "f"; Range "A" "F"].

(** The deny-list of [validateTextContent], in source order. *)
Definition textPatterns : list pattern :=
  map (mkPattern true)
  [ (* /<script[^>]*>.*?<\/script>/gi *)
    cat [lits "<script"; Star (Class true [Lit ">"]); lits ">"; Star Any;
         lits "</script>"];
    (* /javascript\s*:/gi *)
    cat [lits "javascript"; spaces; lits ":"];
    (* /data\s*:\s*text\/html/gi *)
    cat [lits "data"; spaces; lits ":"; spaces; lits "text/html"];
    (* /eval\s*\(/gi *)
    cat [lits "eval"; spaces; lits "("];
    (* /Function\s*\(/gi *)
    cat [lits "Function"; spaces; lits "("];
    (* /setTimeout\s*\(/gi *)
    cat [lits "setTimeout"; spaces; lits "("];
    (* /setInterval\s*\(/gi *)
    cat [lits "setInterval"; spaces; lits "("];
    (* /document\.\w+/gi *)
    cat [lits "document."; Plus (Chr Word)];
    (* /window\.\w+/gi *)
    cat [lits "window."; Plus (Chr Word)];
    (* /\\x[0-9a-fA-F]{2}/gi *)
    cat [lits "\x"; Times 2 hexDigit];
    (* /\\u[0-9a-fA-F]{4}/gi *)
    cat [lits "\u"; Times 4 hexDigit];
    (* /%[0-9a-fA-F]{2}/gi *)
    cat [lits "%"; Times 2 hexDigit] ].

(** The deny-list of [validateConditionalExpression], in source order. *)
Definition expressionPatterns : list pattern :=
  map (mkPattern false)
  [ cat [lits "__"; Plus (Chr Word); lits "__"];     (* /__\w+__/ *)
    cat [lits "exec"; spaces; lits "("];             (* /exec\s*\(/ *)
    cat [lits "eval"; spaces; lits "("];             (* /eval\s*\(/ *)
    cat [lits "import"; Plus (Chr Space)];           (* /import\s+/ *)
    cat [lits "open"; spaces; lits "("];             (* /open\s*\(/ *)
    lits "subprocess";                               (* /subprocess/ *)
    lits "os.";                                      (* /os\./ *)
    lits "sys.";                                     (* /sys\./ *)
    cat [lits "globals"; spaces; lits "("];          (* /globals\s*\(/ *)
    cat [lits "locals"; spaces; lits "("];           (* /locals\s*\(/ *)
    cat [lits "getattr"; spaces; lits "("];          (* /getattr\s*\(/ *)
    cat [lits "setattr"; spaces; lits "("];          (* /setattr\s*\(/ *)
    cat [lits "hasattr"; spaces; lits "("];          (* /hasattr\s*\(/ *)
    cat [lits "delattr"; spaces; lits "("] ].        (* /delattr\s*\(/ *)

(** The ranges of [isPrivateNetwork], in source order. *)
Definition privateRanges : list pattern :=
  map (mkPattern false)
  [ cat [Bol; lits "10."];                           (* /^10\./ *)
    (* /^172\.(1[6-9]|2[0-9]|3[0-1])\./ *)
    cat [Bol; lits "172.";
         oneOf [cat [lits "1"; Class false [Range "6" "9"]];
                cat [lits "2"; Class false [Range "0" "9"]];
                cat [lits "3"; Class false [Range "0" "1"]]];
         lits "."];
    cat [Bol; lits "192.168."];                      (* /^192\.168\./ *)
    cat [Bol; lits "169.254."] ].                    (* /^169\.254\./ *)

Definition dangerousProps : list string := ["__proto__"; "constructor"; "prototype"].

Definition dangerousNames : list string :=
  [ "__proto__"; "constructor"; "prototype"; "__builtins__"; "__globals__";
    "__locals__"; "__import__"; "exec"; "eval"; "compile"; "open"; "input";
    "globals"; "locals"; "vars"; "dir"; "getattr"; "setattr"; "hasattr";
    "delattr"; "function"; "this"; "window"; "document"; "global"; "process" ].

Definition dangerousProtocols : list string :=
  ["file:"; "ftp:"; "gopher:"; "ldap:"; "dict:"; "data:"].

Definition localhostVariants : list string :=
  ["localhost"; "127.0.0.1"; "0.0.0.0"; "::1"].

(** [xs.includes(x)], [set.has(x)] *)
Definition member (x : string) (xs : list string) : bool :=
  existsb (String.eqb x) xs.

Definition securityError (message rule threat : string) : error :=
  ITSSecurityError message rule threat None.

(** [validateTextContent] *)
Definition validateTextContent (text : string) : result unit :=
  forEach (fun p =>
    if matchesPattern p text
    then Throw (ITSSecurityError "Malicious content detected in text"
                  "content_validation" "MALICIOUS_CONTENT" (Some (Str.take 100 text)))
    else Ok tt) textPatterns.

(** [isDangerousVariableName] *)
Definition isDangerousVariableName (name : string) : bool :=
  member (Str.toLowerCase name) dangerousNames || Str.startsWith "__" name.

(** [isPrivateNetwork] *)
Definition isPrivateNetwork (hostname : string) : bool :=
  existsb (fun range => matchesPattern range hostname) privateRanges.

(** [Object.prototype] when it is handed over as a record of variables. *)
Definition objectPrototypeObject : Js.object :=
  Js.mkObject Js.VNull
    (map (fun n => (n, (false, if (n =? "__proto__")%string then Js.VNull
                               else if (n =? "constructor")%string then Js.VFunction "Object"
                               else Js.VFunction n)))
         Js.objectPrototypeNames).

(** The object a value of type [object] is, for [validateVariables]. *)
Definition asObject (v : Js.value) : Js.object :=
  match v with
  | Js.VObject p ps => Js.mkObject p ps
  | Js.VObjectPrototype => objectPrototypeObject
  | _ => Js.literal []
  end.

Section Validator.

Variable hostInherited : Js.value -> string -> option Js.value.
(** [new URL(url)]; [None] when the constructor throws. *)
Variable parseURL : string -> option URL.
(** [JSON.stringify(template)] *)
Variable jsonStringify : ITSTemplate -> string.

Variable config : SecurityConfig.

(** [validateConditionalExpression] *)
Definition validateConditionalExpression (expression : string) : result unit :=
  (if (len expression >? maxExpressionLength config)%Z
   then Throw (securityError
                 ("Expression too long: " +:+ Str.ofZ (len expression) +:+ " characters")
                 "expression_length" "SIZE_LIMIT_EXCEEDED")
   else Ok tt) ;;
  forEach (fun p =>
    if matchesPattern p expression
    then Throw (ITSSecurityError "Dangerous pattern in conditional expression"
                  "expression_validation" "MALICIOUS_CONTENT"
                  (Some (Str.take 100 expression)))
    else Ok tt) expressionPatterns.

(** [validatePlaceholderConfig]: every enumerable own property, arrays
    included ([Object.entries] lists their elements). *)
Fixpoint validatePlaceholderConfig (config : Js.value) : result unit :=
  let visit (value : Js.value) : result unit :=
    match value with
    | Js.VString s => validateTextContent s
    | Js.VArray _ | Js.VObject _ _ | Js.VObjectPrototype =>
        validatePlaceholderConfig value
    | _ => Ok tt
    end in
  match config with
  | Js.VObject _ ps =>
      (fix loop (ps : Js.props) : result unit :=
         match ps with
         | [] => Ok tt
         | (_, (enumerable, value)) :: rest =>
             (if enumerable then visit value else Ok tt) ;; loop rest
         end) ps
  | Js.VArray xs =>
      (fix loop (xs : list Js.value) : result unit :=
         match xs with
         | [] => Ok tt
         | value :: rest => visit value ;; loop rest
         end) xs
  | _ => Ok tt
  end.

(** [validateVariables]. Every nested call is one level deeper and the
    first test stops beyond [maxNestingDepth], so the calls nest at
    most [maxNestingDepth - depth + 2] deep; [fuel] counts the nested
    calls still allowed. *)
Fixpoint validateVariablesFrom (fuel : nat) (variables : Js.object)
    (path : string) (depth : Z) : result unit :=
  match fuel with
  | O => Throw (JsError "RangeError" "Maximum call stack size exceeded")
  | S fuel' =>
    (if (depth >? maxNestingDepth config)%Z
     then Throw (securityError ("Variable nesting too deep at " +:+ path)
                   "variable_nesting" "SIZE_LIMIT_EXCEEDED")
     else Ok tt) ;;
    (* variables.__proto__ && variables.__proto__ !== Object.prototype *)
    (let proto := Js.get hostInherited (Js.ofObject variables) "__proto__" in
     if Js.truthy proto &&
        negb (match proto with Js.VObjectPrototype => true | _ => false end)
     then Throw (securityError
                   "Prototype pollution detected: __proto__ has been modified"
                   "prototype_pollution" "MALICIOUS_CONTENT")
     else Ok tt) ;;
    forEach (fun prop =>
      if Js.hasOwnProperty variables prop
      then Throw (securityError ("Dangerous property detected: " +:+ prop)
                    "dangerous_property" "MALICIOUS_CONTENT")
      else Ok tt) dangerousProps ;;
    forEach (fun key =>
      if isDangerousVariableName key
      then Throw (securityError ("Dangerous variable name: " +:+ key)
                    "variable_name" "MALICIOUS_CONTENT")
      else Ok tt) (Js.getOwnPropertyNames variables) ;;
    forEach (fun kv : string * Js.value =>
      let key := kv.1 in
      let value := kv.2 in
      let currentPath :=
        if (path =? "")%string then key else path +:+ "." +:+ key in
      match value with
      | Js.VString s => validateTextContent s
      | Js.VObject _ _ | Js.VObjectPrototype =>
          validateVariablesFrom fuel' (asObject value) currentPath (depth + 1)
      | Js.VArray items =>
          (if (Z.of_nat (length items) >? 1000)%Z
           then Throw (securityError
                         ("Array too large at " +:+ currentPath +:+ ": " +:+
                          Str.ofNat (length items) +:+ " items")
                         "array_size" "SIZE_LIMIT_EXCEEDED")
           else Ok tt) ;;
          forEach (fun iv : nat * Js.value =>
            let i := iv.1 in
            match iv.2 with
            | Js.VString s => validateTextContent s
            | Js.VArray _ | Js.VObject _ _ | Js.VObjectPrototype =>
                validateVariablesFrom fuel' (Js.literal [(Str.ofNat i, iv.2)])
                  (currentPath +:+ "[" +:+ Str.ofNat i +:+ "]") (depth + 1)
            | _ => Ok tt
            end) (imap pair items)
      | _ => Ok tt
      end) (Js.entries variables)
  end.

Definition validateVariables (variables : Js.object) (path : string) (depth : Z)
  : result unit :=
  validateVariablesFrom (S (S (Z.to_nat (maxNestingDepth config - depth))))
    variables path depth.

(** [isDomainAllowed] *)
Definition isDomainAllowed (hostname : string) : bool :=
  match domainAllowlist config with
  | None => true
  | Some allowlist =>
      existsb (fun allowedDomain =>
        (hostname =? allowedDomain)%string ||
        Str.endsWith ("." +:+ allowedDomain) hostname) allowlist
  end.

(** [validateHostname] *)
Definition validateHostname (hostname : string) : result unit :=
  (if blockLocalhost config
   then if member (Str.toLowerCase hostname) localhostVariants
        then Throw (securityError ("Localhost access blocked: " +:+ hostname)
                      "localhost_blocked" "SSRF_BLOCKED")
        else Ok tt
   else Ok tt) ;;
  (if blockPrivateNetworks config
   then if isPrivateNetwork hostname
        then Throw (securityError ("Private network access blocked: " +:+ hostname)
                      "private_network_blocked" "SSRF_BLOCKED")
        else Ok tt
   else Ok tt).

(** The [try] block of [validateSchemaUrl]. *)
Definition checkSchemaUrl (url : string) : result unit :=
  parsedUrl ← match parseURL url with
              | Some u => Ok u
              | None => Throw (typeError "Invalid URL")
              end;
  (if negb (Str.startsWith "https:" (protocol parsedUrl))
   then if negb (allowHttp config) || negb (protocol parsedUrl =? "http:")%string
        then Throw (securityError ("Protocol not allowed: " +:+ protocol parsedUrl)
                      "url_protocol" "SSRF_BLOCKED")
        else Ok tt
   else Ok tt) ;;
  (if member (protocol parsedUrl) dangerousProtocols
   then Throw (securityError ("Dangerous protocol blocked: " +:+ protocol parsedUrl)
                 "url_protocol" "SSRF_BLOCKED")
   else Ok tt) ;;
  (if negb (hostname parsedUrl =? "")%string
   then validateHostname (hostname parsedUrl)
   else Ok tt) ;;
  (match domainAllowlist config with
   | Some (_ :: _) =>
       if negb (isDomainAllowed (hostname parsedUrl))
       then Throw (securityError ("Domain not in allowlist: " +:+ hostname parsedUrl)
                     "domain_allowlist" "SSRF_BLOCKED")
       else Ok tt
   | _ => Ok tt
   end) ;;
  (if Str.includes ".." (pathname parsedUrl)
   then Throw (securityError "Path traversal detected in URL"
                 "path_traversal" "SSRF_BLOCKED")
   else Ok tt).

(** [validateSchemaUrl]: a security error passes through the [catch],
    anything else becomes the invalid-URL security error. *)
Definition validateSchemaUrl (url : string) : result unit :=
  match checkSchemaUrl url with
  | Ok tt => Ok tt
  | Throw e =>
      if isSecurityError e then Throw e
      else Throw (securityError ("Invalid URL: " +:+ url)
                    "url_validation" "SSRF_BLOCKED")
  end.

(** [validateContent], element by element: [validateElement depth e]
    is the body of the loop at nesting [depth], and the nested lists of
    a conditional are checked one level deeper. *)
Definition checkDepth (depth : Z) : result unit :=
  if (depth >? maxNestingDepth config)%Z
  then Throw (securityError ("Content nesting too deep: " +:+ Str.ofZ depth)
                "nesting_depth" "SIZE_LIMIT_EXCEEDED")
  else Ok tt.

Fixpoint validateElement (depth : Z) (element : ContentElement) : result unit :=
  match element with
  | TextElement _ text => validateTextContent text
  | ConditionalElement _ condition content' else_ =>
      validateConditionalExpression condition ;;
      (checkDepth (depth + 1) ;; forEach (validateElement (depth + 1)) content') ;;
      match else_ with
      | Some e => checkDepth (depth + 1) ;; forEach (validateElement (depth + 1)) e
      | None => Ok tt
      end
  | PlaceholderElement _ _ config' =>
      validatePlaceholderConfig (Js.ofObject config')
  end.

Definition validateContent (content : list ContentElement) (depth : Z)
  : result unit :=
  checkDepth depth ;; forEach (validateElement depth) content.

(** [validateTemplate] *)
Definition validateTemplate (template : ITSTemplate) : result unit :=
  let templateStr := jsonStringify template in
  (if (len templateStr >? maxTemplateSize config)%Z
   then Throw (securityError
                 ("Template too large: " +:+ Str.ofZ (len templateStr) +:+ " bytes")
                 "template_size" "SIZE_LIMIT_EXCEEDED")
   else Ok tt) ;;
  (if (Z.of_nat (length (content template)) >? maxContentElements config)%Z
   then Throw (securityError
                 ("Too many content elements: " +:+ Str.ofNat (length (content template)))
                 "content_elements" "SIZE_LIMIT_EXCEEDED")
   else Ok tt) ;;
  validateContent (content template) 0 ;;
  (match variables template with
   | Some vars => validateVariables vars "" 0
   | None => Ok tt
   end) ;;
  (match extends template with
   | Some urls => forEach validateSchemaUrl urls
   | None => Ok tt
   end).

End Validator.
End Security.

(* ================================================================== *)
(** * ConditionalEvaluator ([conditional-evaluator.ts]) *)
(* ================================================================== *)

Module Evaluator.
Import Regex.

(** The syntax trees [jsep] builds. [OtherNode] carries the [type] of a
    node the evaluator has no case for (calls, [this], compounds...). *)
Inductive node : Type :=
| Literal (value : Js.value)
| Identifier (name : string)
| MemberExpression (computed : bool) (object property : node)
| BinaryExpression (operator : string) (lhs rhs : node)
| LogicalExpression (operator : string) (lhs rhs : node)
| UnaryExpression (operator : string) (argument : node)
| ArrayExpression (elements : list node)
| OtherNode (type : string).

Definition keywordPattern (words : list string) : regex :=
  oneOf (map lits words).

(** The deny-list of [validateConditionSecurity], in source order. *)
Definition dangerousPatterns : list Security.pattern :=
  [ (* /\b(eval|exec|function|Function|setTimeout|setInterval)\s*\(/i *)
    Security.mkPattern true
      (cat [WordBoundary;
            keywordPattern ["eval"; "exec"; "function"; "Function";
                            "setTimeout"; "setInterval"];
            Star (Chr Space); lits "("]);
    (* /\b(import|require|global|window|document|process)\b/i *)
    Security.mkPattern true
      (cat [WordBoundary;
            keywordPattern ["import"; "require"; "global"; "window";
                            "document"; "process"];
            WordBoundary]);
    (* /__\w+__/ *)
    Security.mkPattern false (cat [lits "__"; Plus (Chr Word); lits "__"]);
    (* /\.\s*constructor\s*\./ *)
    Security.mkPattern false
      (cat [lits "."; Star (Chr Space); lits "constructor"; Star (Chr Space); lits "."]);
    (* /\.\s*prototype\s*\./ *)
    Security.mkPattern false
      (cat [lits "."; Star (Chr Space); lits "prototype"; Star (Chr Space); lits "."]);
    (* /\.\s*__proto__\s*\./ *)
    Security.mkPattern false
      (cat [lits "."; Star (Chr Space); lits "__proto__"; Star (Chr Space); lits "."]) ].

Definition dangerousProperties : list string :=
  [ "constructor"; "prototype"; "__proto__"; "__defineGetter__";
    "__defineSetter__"; "__lookupGetter__"; "__lookupSetter__" ].

Section Evaluator.

Variable hostInherited : Js.value -> string -> option Js.value.
(** [jsep(condition)], the parser of the jsep package. *)
Variable jsep : string -> result node.
(** The comparison operators of the language: [==], [===] and the
    abstract relational comparison behind [<], [<=], [>], [>=], whose
    answer is undefined ([None]) when an operand is not a number. *)
Variable looseEquals : Js.value -> Js.value -> bool.
Variable strictEquals : Js.value -> Js.value -> bool.
Variable lessThan : Js.value -> Js.value -> option bool.
(** [+v] for an operand that is not already a number. *)
Variable toNumber : Js.value -> Js.value.
(** [-v] for an operand that is not already a number. *)
Variable negate : Js.value -> Js.value.

Variable maxExpressionLength : Z.

(** [validateConditionSecurity] *)
Definition validateConditionSecurity (condition : string) : result unit :=
  (if (len condition >? maxExpressionLength)%Z
   then Throw (Security.securityError
                 ("Condition too long: " +:+ Str.ofZ (len condition) +:+ " characters")
                 "expression_length" "SIZE_LIMIT_EXCEEDED")
   else Ok tt) ;;
  forEach (fun p =>
    if Security.matchesPattern p condition
    then Throw (Security.securityError "Dangerous pattern detected in condition"
                  "expression_validation" "MALICIOUS_CONTENT")
    else Ok tt) dangerousPatterns.

Definition outOfBounds (property : Z) : error :=
  plainError ("Array index " +:+ Str.ofZ property +:+ " out of bounds").

(** [validatePropertyAccess] *)
Definition validatePropertyAccess (object property : Js.value) : result unit :=
  (match property with
   | Js.VString name =>
       if Security.member name dangerousProperties
       then Throw (Security.securityError
                     ("Access to dangerous property '" +:+ name +:+ "' is blocked")
                     "property_access" "MALICIOUS_CONTENT")
       else Ok tt
   | _ => Ok tt
   end) ;;
  (match object with
   | Js.VFunction _ =>
       Throw (Security.securityError
                "Property access on function objects is not allowed"
                "function_property_access" "MALICIOUS_CONTENT")
   | _ => Ok tt
   end) ;;
  match object, property with
  | Js.VArray items, Js.VNum index =>
      let length := Z.of_nat (length items) in
      if (index <? 0)%Z
      then let actualIndex := (length + index)%Z in
           if (actualIndex <? 0)%Z || (actualIndex >=? length)%Z
           then Throw (outOfBounds index) else Ok tt
      else if (index >=? length)%Z then Throw (outOfBounds index) else Ok tt
  | _, _ => Ok tt
  end.

(** [node.property.name] *)
Definition nodeName (n : node) : Js.value :=
  match n with
  | Identifier name => Js.VString name
  | _ => Js.VUndefined
  end.

Definition unaryMinus (v : Js.value) : Js.value :=
  match v with Js.VNum z => Js.VNum (- z) | _ => negate v end.

Definition unaryPlus (v : Js.value) : Js.value :=
  match v with Js.VNum z => v | _ => toNumber v end.

(** [evaluateASTNode] *)
Fixpoint evaluateASTNode (n : node) (variables : Js.object) : result Js.value :=
  match n with
  | Literal value => Ok value
  | Identifier name =>
      if negb (Js.hasProperty hostInherited name (Js.ofObject variables))
      then Throw (plainError ("Variable '" +:+ name +:+ "' is not defined"))
      else Ok (Js.get hostInherited (Js.ofObject variables) name)
  | MemberExpression computed object property =>
      object ← evaluateASTNode object variables;
      match object with
      | Js.VNull | Js.VUndefined =>
          Throw (plainError "Cannot access property of null or undefined")
      | _ =>
          property ← (if computed then evaluateASTNode property variables
                      else Ok (nodeName property));
          match property, object with
          | Js.VString "length", Js.VArray items =>
              Ok (Js.VNum (Z.of_nat (length items)))
          | Js.VString "length", Js.VString s =>
              Ok (Js.VNum (len s))
          | _, _ =>
              validatePropertyAccess object property ;;
              Js.getProperty hostInherited object property
          end
      end
  | BinaryExpression operator lhs rhs =>
      left_ ← evaluateASTNode lhs variables;
      right_ ← evaluateASTNode rhs variables;
      if (operator =? "==")%string then Ok (Js.VBool (looseEquals left_ right_))
      else if (operator =? "===")%string then Ok (Js.VBool (strictEquals left_ right_))
      else if (operator =? "!=")%string then Ok (Js.VBool (negb (looseEquals left_ right_)))
      else if (operator =? "!==")%string then Ok (Js.VBool (negb (strictEquals left_ right_)))
      else if (operator =? "<")%string
        then Ok (Js.VBool (bool_decide (lessThan left_ right_ = Some true)))
      else if (operator =? "<=")%string
        then Ok (Js.VBool (bool_decide (lessThan right_ left_ = Some false)))
      else if (operator =? ">")%string
        then Ok (Js.VBool (bool_decide (lessThan right_ left_ = Some true)))
      else if (operator =? ">=")%string
        then Ok (Js.VBool (bool_decide (lessThan left_ right_ = Some false)))
      else if (operator =? "&&")%string
        then Ok (if Js.truthy left_ then right_ else left_)
      else if (operator =? "||")%string
        then Ok (if Js.truthy left_ then left_ else right_)
      else Throw (plainError ("Unsupported binary operator: " +:+ operator))
  | LogicalExpression operator lhs rhs =>
      leftVal ← evaluateASTNode lhs variables;
      if (operator =? "&&")%string || (operator =? "and")%string
      then if Js.truthy leftVal then evaluateASTNode rhs variables else Ok leftVal
      else if (operator =? "||")%string || (operator =? "or")%string
      then if Js.truthy leftVal then Ok leftVal else evaluateASTNode rhs variables
      else Throw (plainError ("Unsupported logical operator: " +:+ operator))
  | UnaryExpression operator argument =>
      if (operator =? "!")%string
      then v ← evaluateASTNode argument variables; Ok (Js.VBool (negb (Js.truthy v)))
      else if (operator =? "-")%string
      then v ← evaluateASTNode argument variables; Ok (unaryMinus v)
      else if (operator =? "+")%string
      then v ← evaluateASTNode argument variables; Ok (unaryPlus v)
      else Throw (plainError ("Unsupported unary operator: " +:+ operator))
  | ArrayExpression elements =>
      items ← mapE (fun element => evaluateASTNode element variables) elements;
      Ok (Js.VArray items)
  | OtherNode type => Throw (plainError ("Unsupported expression type: " +:+ type))
  end.

(** The error [evaluateCondition] raises for whatever its [try] block
    threw. *)
Definition evaluationFailure (condition : string) (e : error) : error :=
  Security.securityError
    ("Error evaluating condition '" +:+ condition +:+ "': " +:+ errorToString e)
    "conditional_evaluation" "EXPRESSION_ERROR".

(** [evaluateCondition] *)
Definition evaluateCondition (condition : string) (variables : Js.object)
  : result bool :=
  validateConditionSecurity condition ;;
  rethrow (ast ← jsep condition;
           result ← evaluateASTNode ast variables;
           Ok (Js.truthy result))
          (evaluationFailure condition).

(** [evaluateContent], element by element: [evaluateElement] is the
    body of the loop and answers what the element adds to [result]. *)
Fixpoint evaluateElement (variables : Js.object) (element : ContentElement)
  : result (list ContentElement) :=
  match element with
  | ConditionalElement _ condition content' else_ =>
      conditionResult ← evaluateCondition condition variables;
      if conditionResult : bool
      then flatMapE (evaluateElement variables) content'
      else match else_ with
           | Some e => flatMapE (evaluateElement variables) e
           | None => Ok []
           end
  | _ => Ok [element]
  end.

Definition evaluateContent (content : list ContentElement) (variables : Js.object)
  : result (list ContentElement) :=
  flatMapE (evaluateElement variables) content.

(** [validateCondition]: the message of what the check, the parser or
    the evaluation threw, if anything. *)
Definition validateCondition (condition : string) (variables : Js.object)
  : list string :=
  match (validateConditionSecurity condition ;;
         ast ← jsep condition;
         evaluateASTNode ast variables) with
  | Ok _ => []
  | Throw e =>
      if isSecurityError e then [errorMessage e]
      else ["Condition validation failed: " +:+ errorMessage e]
  end.

End Evaluator.
End Evaluator.

(* ================================================================== *)
(** * VariableProcessor ([variable-processor.ts]) *)
(* ================================================================== *)

Module Variables.
Import Regex.

Inductive part : Type :=
| Property (name : string)
| Index (index : Z).

Definition identStart : regex :=
  Class false [Range "a" "z"; Range "A" "Z"; Lit "_"].
Definition identChar : regex :=
  Class false [Range "a" "z"; Range "A" "Z"; Range "0" "9"; Lit "_"].

(** /^[a-zA-Z_][a-zA-Z0-9_]*(\.[a-zA-Z_][a-zA-Z0-9_]*|\[[0-9-]+\])*$/ *)
Definition referencePattern : Security.pattern :=
  Security.mkPattern false
    (cat [Bol; identStart; Star identChar;
          Star (Alt (cat [lits "."; identStart; Star identChar])
                    (cat [lits "["; Plus (Class false [Range "0" "9"; Lit "-"]);
                          lits "]"]));
          Eol]).

(** [isValidVariableReference]; the [replace] of [.length] by itself
    leaves the reference as it is. *)
Definition isValidVariableReference (varRef : string) : bool :=
  if Str.includes ".." varRef || Str.startsWith "_" varRef || Str.includes "__" varRef
  then false
  else Security.matchesPattern referencePattern varRef.

(** [parseInt(s, 10)]; [None] is [NaN]. *)
Fixpoint leadingDigits (acc : option Z) (s : string) : option Z :=
  match s with
  | String c rest =>
      if Str.isDigit c
      then leadingDigits (Some (10 * default 0%Z acc + (Z.of_nat (Str.code c) - 48))%Z) rest
      else acc
  | EmptyString => acc
  end.

Definition parseInt (s : string) : option Z :=
  match Str.trimStart s with
  | String "-" rest => Z.opp <$> leadingDigits None rest
  | String "+" rest => leadingDigits None rest
  | t => leadingDigits None t
  end.

Definition variableError (message : string) (path : option string) : error :=
  ITSVariableError message path None.

(** [parseVariableReference]. The scan keeps the property name being
    read in [current]; inside brackets [indexStr] holds the characters
    read since the opening bracket. *)
Fixpoint parseLoop (varRef : string) (rest : string) (current : string)
    (indexStr : option string) (parts : list part) : result (list part) :=
  let flush := if (current =? "")%string then parts else parts ++ [Property current] in
  match rest with
  | EmptyString =>
      match indexStr with
      | Some _ => Throw (variableError
                     ("Malformed array index in variable reference: " +:+ varRef) None)
      | None => Ok flush
      end
  | String char rest' =>
      match indexStr with
      | Some str =>
          if Ascii.eqb char "]"
          then match parseInt str with
               | None => Throw (variableError ("Invalid array index: " +:+ str) None)
               | Some index => parseLoop varRef rest' "" None (parts ++ [Index index])
               end
          else parseLoop varRef rest' "" (Some (str +:+ String char "")) parts
      | None =>
          if Ascii.eqb char "." then parseLoop varRef rest' "" None flush
          else if Ascii.eqb char "[" then parseLoop varRef rest' "" (Some "") flush
          else parseLoop varRef rest' (current +:+ String char "") None parts
      end
  end.

Definition parseVariableReference (varRef : string) : result (list part) :=
  parseLoop varRef varRef "" None [].

(** [Object.keys(v)] for an object or an array. *)
Definition keysOf (v : Js.value) : list string :=
  match v with
  | Js.VObject p ps => Js.keys (Js.mkObject p ps)
  | Js.VArray items => imap (fun i _ => Str.ofNat i) items
  | _ => []
  end.

Definition indexOutOfBounds (index : Z) (n : nat) (varRef : string) : error :=
  variableError ("Array index " +:+ Str.ofZ index +:+
                 " out of bounds for array of length " +:+ Str.ofNat n)
                (Some varRef).

(** [$\{([^}]+)\}] at the head of [s]: the reference captured and what
    follows the match. *)
Fixpoint untilBrace (s : string) : string * string :=
  match s with
  | EmptyString => ("", "")
  | String c rest =>
      if Ascii.eqb c "}" then ("", s)
      else let r := untilBrace rest in (String c r.1, r.2)
  end.

Definition matchVariableAt (s : string) : option (string * string) :=
  match s with
  | String "$" (String "{" rest) =>
      match untilBrace rest with
      | (String c ref, String "}" after) => Some (String c ref, after)
      | _ => None
      end
  | _ => None
  end.

Section Processor.

Variable hostInherited : Js.value -> string -> option Js.value.

(** One step of the loop of [resolveVariableReference]; [inl] is the
    early [return] of [length]. *)
Definition resolveStep (varRef : string) (current : Js.value) (p : part)
  : result (Js.value + Js.value) :=
  match p with
  | Property name =>
      if (name =? "length")%string &&
         (Js.isArray current || (Js.typeOf current =? "string")%string)
      then Ok (inl (Js.get hostInherited current "length"))
      else if negb (Js.isObjectLike current)
      then Throw (variableError
             ("Cannot access property '" +:+ name +:+ "' on non-object value")
             (Some varRef))
      else if negb (name =? "")%string && negb (Js.hasProperty hostInherited name current)
      then Throw (ITSVariableError ("Property '" +:+ name +:+ "' not found")
                    (Some varRef) (Some (keysOf current)))
      else if negb (name =? "")%string
      then Ok (inr (Js.get hostInherited current name))
      else Ok (inr current)
  | Index index =>
      match current with
      | Js.VArray items =>
          let n := Z.of_nat (length items) in
          if (index <? 0)%Z
          then let actualIndex := (n + index)%Z in
               if (actualIndex <? 0)%Z || (actualIndex >=? n)%Z
               then Throw (indexOutOfBounds index (length items) varRef)
               else Ok (inr (default Js.VUndefined (Js.nthZ items actualIndex)))
          else if (index >=? n)%Z
               then Throw (indexOutOfBounds index (length items) varRef)
               else Ok (inr (default Js.VUndefined (Js.nthZ items index)))
      | _ => Throw (variableError "Cannot access array index on non-array value"
                      (Some varRef))
      end
  end.

Fixpoint resolveParts (varRef : string) (current : Js.value) (parts : list part)
  : result Js.value :=
  match parts with
  | [] => Ok current
  | p :: rest =>
      step ← resolveStep varRef current p;
      match step with
      | inl answer => Ok answer
      | inr next => resolveParts varRef next rest
      end
  end.

(** [resolveVariableReference] *)
Definition resolveVariableReference (varRef : string) (variables : Js.object)
  : result Js.value :=
  (if negb (isValidVariableReference varRef)
   then Throw (variableError ("Invalid variable reference syntax: " +:+ varRef)
                 (Some varRef))
   else Ok tt) ;;
  parts ← parseVariableReference varRef;
  resolveParts varRef (Js.ofObject variables) parts.

(** [sanitiseResolvedValue] *)
Definition sanitiseResolvedValue (value : Js.value) : result string :=
  match value with
  | Js.VString s => Ok s
  | Js.VArray items =>
      strs ← mapE (Js.toStr hostInherited) items;
      Ok (Str.join ", " strs)
  | Js.VObject _ _ | Js.VObjectPrototype =>
      Ok ("[Object with " +:+ Str.ofNat (length (keysOf value)) +:+ " properties]")
  | _ =>
      strValue ← Js.toStr hostInherited value;
      if (len strValue >? 1000)%Z
      then Ok (Str.take 1000 strValue +:+ "... [TRUNCATED]")
      else Ok strValue
  end.

(** The callback [processString] hands to [replace]. *)
Definition substitute (variables : Js.object) (varRef : string) : result string :=
  match (value ← resolveVariableReference (Str.trim varRef) variables;
         sanitiseResolvedValue value) with
  | Ok s => Ok s
  | Throw e =>
      if isVariableError e then Throw e
      else Throw (ITSVariableError ("Error resolving variable reference: " +:+ varRef)
                    (Some varRef) (Some (Js.keys variables)))
  end.

(** [text.replace(VARIABLE_PATTERN, callback)]: matches are searched
    from left to right and do not overlap; every step consumes a
    character, so [fuel] above the length of the text is never used up. *)
Fixpoint replaceVariables (fuel : nat) (callback : string -> result string)
    (text : string) : result string :=
  match fuel with
  | O => Ok text
  | S fuel' =>
      match text with
      | EmptyString => Ok ""
      | String c rest =>
          match matchVariableAt text with
          | Some (varRef, after) =>
              replacement ← callback varRef;
              tail ← replaceVariables fuel' callback after;
              Ok (replacement +:+ tail)
          | None =>
              tail ← replaceVariables fuel' callback rest;
              Ok (String c tail)
          end
      end
  end.

(** [processString] *)
Definition processString (text : string) (variables : Js.object) : result string :=
  replaceVariables (S (String.length text)) (substitute variables) text.

(** [processObject] *)
Fixpoint processObject (obj : Js.value) (variables : Js.object) : result Js.value :=
  match obj with
  | Js.VString s => s' ← processString s variables; Ok (Js.VString s')
  | Js.VArray items =>
      items' ← mapE (fun item => processObject item variables) items;
      Ok (Js.VArray items')
  | Js.VObject _ ps =>
      (fix loop (ps : Js.props) (result_ : Js.object) : result Js.value :=
         match ps with
         | [] => Ok (Js.ofObject result_)
         | (key, (enumerable, value)) :: rest =>
             if enumerable
             then value' ← processObject value variables;
                  loop rest (Js.assign result_ key value')
             else loop rest result_
         end) ps (Js.literal [])
  | Js.VObjectPrototype => Ok (Js.ofObject (Js.literal []))
  | _ => Ok obj
  end.

(** [processElement] *)
Fixpoint processElement (variables : Js.object) (element : ContentElement)
  : result ContentElement :=
  match element with
  | TextElement id text =>
      text' ← processString text variables; Ok (TextElement id text')
  | PlaceholderElement id instructionType config =>
      config' ← processObject (Js.ofObject config) variables;
      Ok (PlaceholderElement id instructionType (Security.asObject config'))
  | ConditionalElement id condition content' else_ =>
      condition' ← processString condition variables;
      content'' ← mapE (processElement variables) content';
      else' ← match else_ with
              | Some e => e' ← mapE (processElement variables) e; Ok (Some e')
              | None => Ok None
              end;
      Ok (ConditionalElement id condition' content'' else')
  end.

(** [processContent] *)
Definition processContent (content : list ContentElement) (variables : Js.object)
  : result (list ContentElement) :=
  mapE (processElement variables) content.

(** The references the [exec] loop of [findVariableReferences] meets,
    in order. *)
Fixpoint matchesIn (fuel : nat) (text : string) : list string :=
  match fuel with
  | O => []
  | S fuel' =>
      match text with
      | EmptyString => []
      | String _ rest =>
          match matchVariableAt text with
          | Some (varRef, after) => Str.trim varRef :: matchesIn fuel' after
          | None => matchesIn fuel' rest
          end
      end
  end.

(** [new Set()] filled by [add], listed by [Array.from]. *)
Fixpoint distinct (seen : list string) (xs : list string) : list string :=
  match xs with
  | [] => []
  | x :: rest =>
      if Security.member x seen then distinct seen rest
      else x :: distinct (x :: seen) rest
  end.

(** [JSON.stringify(content)] *)
Variable stringifyContent : list ContentElement -> string.

(** [findVariableReferences] *)
Definition findVariableReferences (content : list ContentElement) : list string :=
  let contentStr := stringifyContent content in
  distinct [] (matchesIn (S (String.length contentStr)) contentStr).

(** [validateVariables] *)
Definition validateVariables (content : list ContentElement) (variables : Js.object)
  : list string :=
  omap (fun varRef =>
          match resolveVariableReference varRef variables with
          | Ok _ => None
          | Throw e =>
              if isVariableError e then Some (errorMessage e)
              else Some ("Error validating variable reference '" +:+ varRef +:+
                         "': " +:+ errorMessage e)
          end)
       (findVariableReferences content).

End Processor.
End Variables.

(* ================================================================== *)
(** * SchemaLoader ([schema-loader.ts]) *)
(* ================================================================== *)

Module Loader.

Record CacheEntry : Type := mkEntry {
  schema : Js.value;
  cachedAt : Z;
  expiresAt : Z
}.

(** What the loader shares with the world: its cache, how often the
    clock was read and which URLs were requested from the network, in
    order. The keys of the cache are URLs that passed
    [validateSchemaUrl]. *)
Record World : Type := mkWorld {
  cache : gmap string CacheEntry;
  clockReads : nat;
  requests : list string
}.

(** A computation that reads and changes the world and may throw; what
    it did to the world before it threw stays done. *)
Definition St (A : Type) : Type := World -> result A * World.

#[global] Instance St_ret : MRet St := fun A a w => (Ok a, w).
#[global] Instance St_bind : MBind St := fun A B f m w =>
  match m w with
  | (Ok a, w') => f a w'
  | (Throw e, w') => (Throw e, w')
  end.

Definition raise {A} (e : error) : St A := fun w => (Throw e, w).

Definition lift {A} (r : result A) : St A := fun w => (r, w).

(** [try { m } catch (error) { throw h(error) }] *)
Definition rethrowSt {A} (m : St A) (h : error -> error) : St A := fun w =>
  match m w with
  | (Ok a, w') => (Ok a, w')
  | (Throw e, w') => (Throw (h e), w')
  end.

(** The response of [fetch], as far as [loadFromUrl] looks at it. *)
Record Response : Type := mkResponse {
  ok : bool;
  status : Z;
  statusText : string;
  contentType : option string;       (* headers.get('content-type') *)
  contentLength : option string;     (* headers.get('content-length') *)
  text : string
}.

Inductive fetchOutcome : Type :=
| Responded (response : Response)
| Aborted                            (* the timeout fired *)
| Failed (message : string).         (* any other rejection *)

Definition schemaPatterns : list Security.pattern :=
  map (Security.mkPattern true)
    [Regex.lits "<script"; Regex.lits "javascript:"; Regex.lits "data:text/html";
     Regex.lits "eval("].

Section SchemaLoader.

Variable hostInherited : Js.value -> string -> option Js.value.
Variable parseURL : string -> option URL.
(** [new URL(url, new URL(baseUrl)).toString()]; [None] when one of the
    constructors throws. *)
Variable resolveRelative : string -> string -> option string.
(** [JSON.parse(text)] *)
Variable jsonParse : string -> result Js.value.
(** [Date.now()] at its n-th call. *)
Variable clock : nat -> Z.
(** What the n-th request of the loader gets back for its URL. *)
Variable network : nat -> string -> fetchOutcome.

Variable cacheTTL : Z.
Variable securityConfig : SecurityConfig.
Variable timeout : Z.

Definition dateNow : St Z := fun w =>
  (Ok (clock (clockReads w)),
   mkWorld (cache w) (S (clockReads w)) (requests w)).

Definition fetch (url : string) : St fetchOutcome := fun w =>
  (Ok (network (length (requests w)) url),
   mkWorld (cache w) (clockReads w) (requests w ++ [url])).

Definition readCache (url : string) : St (option CacheEntry) := fun w =>
  (Ok (cache w !! url), w).

(** [delete this.cache[url]] *)
Definition deleteCache (url : string) : St unit := fun w =>
  (Ok tt, mkWorld (delete url (cache w)) (clockReads w) (requests w)).

(** [this.cache[url] = entry] *)
Definition writeCache (url : string) (entry : CacheEntry) : St unit := fun w =>
  (Ok tt, mkWorld (<[url := entry]> (cache w)) (clockReads w) (requests w)).

(** [isAbsoluteUrl] *)
Definition isAbsoluteUrl (url : string) : bool :=
  bool_decide (is_Some (parseURL url)).

(** [resolveUrl] *)
Definition resolveUrl (url : string) (baseUrl : option string) : string :=
  match baseUrl with
  | None | Some "" => url
  | Some base =>
      if isAbsoluteUrl url then url
      else default url (resolveRelative url base)
  end.

(** [validateInstructionType]; the warnings go to the console and
    change nothing. *)
Definition validateInstructionType (typeName : string) (typeDef : Js.value)
  : result unit :=
  if negb (Js.isObjectLike typeDef)
  then Throw (plainError ("Instruction type '" +:+ typeName +:+ "' must be an object"))
  else if negb (Js.hasProperty hostInherited "template" typeDef)
  then Throw (plainError ("Instruction type '" +:+ typeName +:+
                       "' missing required 'template' field"))
  else match Js.get hostInherited typeDef "template" with
       | Js.VString _ => Ok tt
       | _ => Throw (plainError ("Instruction type '" +:+ typeName +:+
                              "' template must be a string"))
       end.

(** [Object.entries(v)] *)
Definition entriesOfValue (v : Js.value) : list (string * Js.value) :=
  match v with
  | Js.VObject _ ps => Js.entriesOf ps
  | Js.VArray items => imap (fun i x => (Str.ofNat i, x)) items
  | Js.VString s =>
      imap (fun i c => (Str.ofNat i, Js.VString (String c ""))) (list_ascii_of_string s)
  | _ => []
  end.

(** [validateSchemaStructure] *)
Definition validateSchemaStructure (schema : Js.value) : result unit :=
  if negb (Js.isObjectLike schema)
  then Throw (plainError "Schema must be a JSON object")
  else if Js.hasProperty hostInherited "instructionTypes" schema
  then let instructionTypes := Js.get hostInherited schema "instructionTypes" in
       if negb (Js.isObjectLike instructionTypes)
       then Throw (plainError "instructionTypes must be an object")
       else forEach (fun kv : string * Js.value => validateInstructionType kv.1 kv.2)
                    (entriesOfValue instructionTypes)
  else Ok tt.

Definition tenMegabytes : Z := 10 * 1024 * 1024.

(** What [loadFromUrl] does with a response. *)
Definition readResponse (response : Response) : result Js.value :=
  (if negb (ok response)
   then Throw (plainError ("HTTP " +:+ Str.ofZ (status response) +:+ ": " +:+
                        statusText response))
   else Ok tt) ;;
  (let contentType := default "" (contentType response) in
   if negb (Str.includes "application/json" contentType) &&
      negb (Str.includes "text/" contentType)
   then Throw (plainError ("Invalid content type: " +:+ contentType))
   else Ok tt) ;;
  (match contentLength response with
   | Some contentLength =>
       if negb (contentLength =? "")%string
       then match Variables.parseInt contentLength with
            | Some size =>
                if (size >? tenMegabytes)%Z
                then Throw (plainError ("Schema too large: " +:+ Str.ofZ size +:+ " bytes"))
                else Ok tt
            | None => Ok tt
            end
       else Ok tt
   | None => Ok tt
   end) ;;
  (if (len (text response) >? tenMegabytes)%Z
   then Throw (plainError ("Schema response too large: " +:+
                        Str.ofZ (len (text response)) +:+ " bytes"))
   else Ok tt) ;;
  schema ← jsonParse (text response);
  validateSchemaStructure schema ;;
  Ok schema.

(** What [loadFromUrl] makes of the outcome of its request. *)
Definition settle (outcome : fetchOutcome) : result Js.value :=
  match outcome with
  | Responded response => readResponse response
  | Aborted =>
      Throw (plainError ("Request timeout after " +:+ Str.ofZ timeout +:+ "ms"))
  | Failed message => Throw (plainError message)
  end.

(** [loadFromUrl]: one request, then the checks. *)
Definition loadFromUrl (url : string) : St Js.value :=
  outcome ← fetch url;
  lift (settle outcome).

(** [getFromCache]; [VNull] is its [null]. *)
Definition getFromCache (url : string) : St Js.value :=
  cached ← readCache url;
  match cached with
  | None => mret Js.VNull
  | Some cached =>
      now ← dateNow;
      if (now >? expiresAt cached)%Z
      then deleteCache url ;; mret Js.VNull
      else mret (schema cached)
  end.

(** [saveToCache] *)
Definition saveToCache (url : string) (schema : Js.value) : St unit :=
  cachedAt ← dateNow;
  now ← dateNow;
  writeCache url (mkEntry schema cachedAt (now + cacheTTL)).

Definition loadFailure (resolvedUrl : string) (e : error) : error :=
  Security.securityError
    ("Failed to load schema from " +:+ resolvedUrl +:+ ": " +:+ errorToString e)
    "schema_loading" "SCHEMA_LOAD_FAILED".

(** [loadSchema] *)
Definition loadSchema (schemaUrl : string) (baseUrl : option string) : St Js.value :=
  let resolvedUrl := resolveUrl schemaUrl baseUrl in
  lift (Security.validateSchemaUrl parseURL securityConfig resolvedUrl) ;;
  cached ← getFromCache resolvedUrl;
  if Js.truthy cached then mret cached
  else rethrowSt (schema ← loadFromUrl resolvedUrl;
                  saveToCache resolvedUrl schema ;;
                  mret schema)
                 (loadFailure resolvedUrl).

(** [clearCache] *)
Definition clearCache : St unit := fun w =>
  (Ok tt, mkWorld ∅ (clockReads w) (requests w)).

End SchemaLoader.
End Loader.

(* ================================================================== *)
(** * ITSCompiler ([compiler.ts]) *)
(* ================================================================== *)

Module Compiler.
Import Loader.

Record CompilationResult : Type := mkResult {
  prompt : string;
  resultTemplate : ITSTemplate;
  resultVariables : Js.object;
  overrides : list TypeOverride;
  warnings : list string
}.

Record ValidationResult : Type := mkValidation {
  isValid : bool;
  errors : list string;
  validationWarnings : list string;
  securityIssues : list string
}.

(** ** [String.prototype.replace] with a replacement string *)

(** The replacement text of one match: [$$], [$&], [$`] and [$'] are
    expanded; the pattern has no groups, so [$1] and the like stay. *)
Fixpoint expand (replacement matched before after : string) : string :=
  match replacement with
  | String "$" (String c rest as tail) =>
      if Ascii.eqb c "$" then String "$" (expand rest matched before after)
      else if Ascii.eqb c "&" then matched +:+ expand rest matched before after
      else if Ascii.eqb c "`" then before +:+ expand rest matched before after
      else if Ascii.eqb c "'" then after +:+ expand rest matched before after
      else String "$" (expand tail matched before after)
  | String c rest => String c (expand rest matched before after)
  | EmptyString => EmptyString
  end.

Fixpoint dropChars (n : nat) (s : string) : string :=
  match n, s with
  | S n', String _ rest => dropChars n' rest
  | _, _ => s
  end.

(** [s.replace(pattern, replacement)] for a literal, non-empty
    [pattern]; [all] is the [g] flag. [before] is the part of the
    subject already passed. *)
Fixpoint replaceFrom (fuel : nat) (all : bool) (pattern replacement : string)
    (before s : string) : string :=
  match fuel with
  | O => s
  | S fuel' =>
      if Str.startsWith pattern s
      then let after := dropChars (String.length pattern) s in
           expand replacement pattern before after +:+
           (if all
            then replaceFrom fuel' all pattern replacement (before +:+ pattern) after
            else after)
      else match s with
           | EmptyString => EmptyString
           | String c rest =>
               String c (replaceFrom fuel' all pattern replacement
                           (before +:+ String c "") rest)
           end
  end.

Definition replaceFirst (pattern replacement s : string) : string :=
  replaceFrom (S (String.length s)) false pattern replacement "" s.

Definition replaceAll (pattern replacement s : string) : string :=
  replaceFrom (S (String.length s)) true pattern replacement "" s.

Definition defaultSystemPrompt : string :=
  "You are an AI assistant that fills in content templates. " +:+
  "Follow the instructions exactly and replace each placeholder with " +:+
  "appropriate content based on the user prompts provided. " +:+
  "Respond only with the transformed content.".

Definition defaultProcessingInstructions : list string :=
  [ "Replace each placeholder marked with << >> with generated content";
    "The user's content request is wrapped in ([{< >}]) to distinguish it from instructions";
    "Follow the format requirements specified after each user prompt";
    "Maintain the existing structure and formatting of the template";
    "Only replace the placeholders - do not modify any other text";
    "Generate content that matches the tone and style requested";
    "Respond only with the transformed content - do not include any explanations or additional text" ].

(** [x || fallback] for an optional string. *)
Definition orString (x : option string) (fallback : string) : string :=
  match x with
  | Some s => if (s =? "")%string then fallback else s
  | None => fallback
  end.

Definition compilationError (message : string) (id : option string)
    (type : string) : error :=
  ITSCompilationError message id (Some type) "instruction_generation".

Section Compiler.

Variable hostInherited : Js.value -> string -> option Js.value.

(** [formatInstruction] *)
Definition formatInstruction (instructionType : Js.value) (config : Js.object)
  : result string :=
  description ← (let d := Js.get hostInherited (Js.ofObject config) "description" in
                 if Js.truthy d then Js.toStr hostInherited d else Ok "");
  match Js.get hostInherited instructionType "template" with
  | Js.VString template =>
      let formattedTemplate := replaceAll "{description}" description template in
      (fix loop (kvs : list (string * Js.value)) (formattedTemplate : string)
         : result string :=
         match kvs with
         | [] => Ok formattedTemplate
         | (key, value) :: rest =>
             if negb (key =? "description")%string
             then str ← Js.toStr hostInherited value;
                  loop rest (replaceAll ("{" +:+ key +:+ "}") str formattedTemplate)
             else loop rest formattedTemplate
         end) (Js.entries config) formattedTemplate
  | _ => Throw (typeError "formattedTemplate.replace is not a function")
  end.

(** [generateInstruction] on the fields of a placeholder. *)
Definition generateInstruction (id : option string) (instructionTypeName : string)
    (config : Js.object) (instructionTypes : Js.object) : result string :=
  if negb (Js.hasProperty hostInherited instructionTypeName (Js.ofObject instructionTypes))
  then Throw (compilationError
                ("Unknown instruction type: '" +:+ instructionTypeName +:+ "'")
                id instructionTypeName)
  else
    let instructionType := Js.get hostInherited (Js.ofObject instructionTypes)
                             instructionTypeName in
    rethrow (formatInstruction instructionType config)
      (fun e => compilationError
         ("Missing required configuration for instruction type '" +:+
          instructionTypeName +:+ "': " +:+ errorToString e)
         id instructionTypeName).

(** Has the instruction its wrapper brackets already? *)
Definition bracketed (instruction : string) : bool :=
  Str.startsWith "<<" instruction && Str.endsWith ">>" instruction.

(** The body of the loop of [generatePrompt]: what an element pushes on
    [processedContent]. *)
Definition renderElement (instructionWrapper : string) (instructionTypes : Js.object)
    (element : ContentElement) : result (list string) :=
  match element with
  | TextElement _ text => Ok [text]
  | PlaceholderElement id instructionType config =>
      instruction ← generateInstruction id instructionType config instructionTypes;
      if bracketed instruction
      then Ok [instruction]
      else Ok [replaceFirst "{instruction}" instruction instructionWrapper]
  | ConditionalElement _ _ _ _ => Ok []
  end.

Definition wrapperOf (template : ITSTemplate) : string :=
  orString (compilerConfig template ≫= instructionWrapper) "<<{instruction}>>".

(** The end of [generatePrompt]: the sections of the prompt around the
    pieces of the template body. *)
Definition assemblePrompt (template : ITSTemplate) (processedContent : list string)
  : string :=
  let systemPrompt :=
    orString (compilerConfig template ≫= systemPrompt) defaultSystemPrompt in
  let processingInstructions :=
    default defaultProcessingInstructions
            (compilerConfig template ≫= processingInstructions) in
  let promptParts :=
    ["INTRODUCTION"; ""; systemPrompt; ""; "INSTRUCTIONS"; ""] ++
    imap (fun i instruction => Str.ofNat (i + 1) +:+ ". " +:+ instruction)
         processingInstructions ++
    [""; "TEMPLATE"; ""; Str.join "" processedContent] in
  Str.join (String (ascii_of_nat 10) "") promptParts.

(** [generatePrompt] *)
Definition generatePrompt (content : list ContentElement) (instructionTypes : Js.object)
    (template : ITSTemplate) : result string :=
  processedContent ←
    flatMapE (renderElement (wrapperOf template) instructionTypes) content;
  Ok (assemblePrompt template processedContent).

(** ** Structural validation *)

(** [validateContent] of the compiler: the messages for the elements
    of [content], numbered from [i]. *)
Fixpoint elementErrors (i : nat) (element : ContentElement) : list string :=
  let nested : list ContentElement -> list string :=
    (fix loop (j : nat) (elements : list ContentElement) : list string :=
       match elements with
       | [] => []
       | e :: rest => elementErrors j e ++ loop (S j) rest
       end) O in
  match element with
  | TextElement _ text =>
      if (text =? "")%string
      then ["Text element " +:+ Str.ofNat i +:+ " missing required field: text"]
      else []
  | PlaceholderElement _ instructionType config =>
      (if (instructionType =? "")%string
       then ["Placeholder element " +:+ Str.ofNat i +:+
             " missing required field: instructionType"]
       else []) ++
      (if negb (Js.truthy (Js.get hostInherited (Js.ofObject config) "description"))
       then ["Placeholder element " +:+ Str.ofNat i +:+
             " config missing required field: description"]
       else [])
  | ConditionalElement _ condition content' else_ =>
      (if (condition =? "")%string
       then ["Conditional element " +:+ Str.ofNat i +:+
             " missing required field: condition"]
       else []) ++
      nested content' ++
      match else_ with
      | Some e => nested e
      | None => []
      end
  end.

Fixpoint contentErrors (i : nat) (content : list ContentElement) : list string :=
  match content with
  | [] => []
  | element :: rest => elementErrors i element ++ contentErrors (S i) rest
  end.

Definition validateContent (content : list ContentElement) : list string :=
  contentErrors O content.

(** ** Instruction types *)

Variable parseURL : string -> option URL.
Variable resolveRelative : string -> string -> option string.
Variable jsonParse : string -> result Js.value.
Variable clock : nat -> Z.
Variable network : nat -> string -> fetchOutcome.
Variable jsonStringify : ITSTemplate -> string.
Variable stringifyContent : list ContentElement -> string.
Variable jsep : string -> result Evaluator.node.
Variable looseEquals : Js.value -> Js.value -> bool.
Variable strictEquals : Js.value -> Js.value -> bool.
Variable lessThan : Js.value -> Js.value -> option bool.
Variable toNumber : Js.value -> Js.value.
Variable negate : Js.value -> Js.value.

Variable securityConfig : SecurityConfig.

(** The loader the constructor builds: one hour of cache, the request
    timeout of the configuration. *)
Definition loadSchema : string -> option string -> St Js.value :=
  Loader.loadSchema hostInherited parseURL resolveRelative jsonParse clock network
    3600000 securityConfig (requestTimeout securityConfig).

(** [typeDef.field]; reading a field of [null] or [undefined] throws. *)
Definition field (typeDef : Js.value) (name : string) : result Js.value :=
  match typeDef with
  | Js.VNull | Js.VUndefined =>
      Throw (typeError ("Cannot read properties of " +:+ Js.typeOf typeDef +:+
                        " (reading '" +:+ name +:+ "')"))
  | _ => Ok (Js.get hostInherited typeDef name)
  end.

(** [x || 'unknown'] *)
Definition orUnknown (x : Js.value) : Js.value :=
  if Js.truthy x then x else Js.VString "unknown".

(** The definition stored for a type: [template] and [source], then
    [description] and [configSchema] when the type gives them. *)
Definition definitionOf (typeDef : Js.value) (source : string) : result Js.object :=
  template ← field typeDef "template";
  description ← field typeDef "description";
  configSchema ← field typeDef "configSchema";
  let def0 := Js.literal [("template", template); ("source", Js.VString source)] in
  let def1 := match description with
              | Js.VUndefined => def0
              | _ => Js.assign def0 "description" description
              end in
  Ok (match configSchema with
      | Js.VUndefined => def1
      | _ => Js.assign def1 "configSchema" configSchema
      end).

(** One layer of definitions put over [instructionTypes]: the body of
    the two inner loops of [loadInstructionTypes]. *)
Fixpoint layer (overrideSource source : string) (kind : OverrideType)
    (types : list (string * Js.value))
    (acc : Js.object * list TypeOverride) : result (Js.object * list TypeOverride) :=
  match types with
  | [] => Ok acc
  | (typeName, typeDef) :: rest =>
      let instructionTypes := acc.1 in
      let overrides :=
        if Js.hasProperty hostInherited typeName (Js.ofObject instructionTypes)
        then acc.2 ++
             [mkOverride typeName overrideSource
                (orUnknown (Js.get hostInherited
                              (Js.get hostInherited (Js.ofObject instructionTypes) typeName)
                              "source"))
                kind]
        else acc.2 in
      def ← definitionOf typeDef source;
      layer overrideSource source kind rest
            (Js.assign instructionTypes typeName (Js.ofObject def), overrides)
  end.

(** [schema.instructionTypes || {}], listed by [Object.entries]. *)
Definition schemaTypes (schema : Js.value) : list (string * Js.value) :=
  let types := Js.get hostInherited schema "instructionTypes" in
  if Js.truthy types then entriesOfValue types else [].

(** The loop over [extends]. *)
Fixpoint loadExtended (urls : list string) (baseUrl : option string)
    (acc : Js.object * list TypeOverride) : St (Js.object * list TypeOverride) :=
  match urls with
  | [] => mret acc
  | schemaUrl :: rest =>
      schema ← loadSchema schemaUrl baseUrl;
      acc' ← lift (layer schemaUrl schemaUrl SCHEMA_EXTENSION (schemaTypes schema) acc);
      loadExtended rest baseUrl acc'
  end.

(** [loadInstructionTypes] *)
Definition loadInstructionTypes (template : ITSTemplate) (baseUrl : option string)
  : St (Js.object * list TypeOverride) :=
  acc ← loadExtended (default [] (extends template)) baseUrl (Js.literal [], []);
  lift (layer "customInstructionTypes" "custom" CUSTOM
          (Js.entries (default (Js.literal []) (customInstructionTypes template)))
          acc).

(** ** The two entry points *)

Definition validateTemplate : ITSTemplate -> result unit :=
  Security.validateTemplate hostInherited parseURL jsonStringify securityConfig.

(** [validate] *)
Definition validate (template : ITSTemplate) (baseUrl : option string)
  : St ValidationResult :=
  let securityIssues :=
    match validateTemplate template with
    | Ok _ => []
    | Throw e => [errorMessage e]
    end in
  let fieldErrors :=
    (if (version template =? "")%string
     then ["Missing required field: version"] else []) ++
    (match content template with
     | [] => ["Field 'content' cannot be empty"]
     | _ => []
     end) in
  let contentErrs := validateContent (content template) in
  fun w =>
    let (loaded, w') := loadInstructionTypes template baseUrl w in
    let schemaErrors :=
      match loaded with
      | Ok _ => []
      | Throw e => ["Schema loading error: " +:+ errorMessage e]
      end in
    let varErrors :=
      Variables.validateVariables hostInherited stringifyContent (content template)
        (templateVariables template) in
    let errors := fieldErrors ++ contentErrs ++ schemaErrors ++ varErrors in
    (Ok (mkValidation
           (bool_decide (errors = []) && bool_decide (securityIssues = []))
           errors [] securityIssues),
     w').

Definition evaluateContent :=
  Evaluator.evaluateContent hostInherited jsep looseEquals strictEquals lessThan
    toNumber negate (maxExpressionLength securityConfig).

(** The [try] block of [compile]. *)
Definition compileSteps (template : ITSTemplate) (variables : option Js.object)
    (baseUrl : option string) : St CompilationResult :=
  lift (validateTemplate template) ;;
  validationResult ← validate template baseUrl;
  (if negb (isValid validationResult)
   then raise (ITSValidationError "Template validation failed"
                 (errors validationResult) (securityIssues validationResult))
   else mret tt) ;;
  let mergedVariables :=
    Js.spread (templateVariables template) (default (Js.literal []) variables) in
  loaded ← loadInstructionTypes template baseUrl;
  processedContent ← lift (Variables.processContent hostInherited (content template)
                             mergedVariables);
  finalContent ← lift (evaluateContent processedContent mergedVariables);
  prompt ← lift (generatePrompt finalContent loaded.1 template);
  mret (mkResult prompt template mergedVariables loaded.2
          (validationWarnings validationResult)).

(** [compile]: validation and compilation errors pass through the
    [catch], anything else is wrapped. *)
Definition compile (template : ITSTemplate) (variables : option Js.object)
    (baseUrl : option string) : St CompilationResult :=
  rethrowSt (compileSteps template variables baseUrl)
    (fun e =>
       match e with
       | ITSValidationError _ _ _ | ITSCompilationError _ _ _ _ => e
       | _ => ITSCompilationError ("Compilation failed: " +:+ errorToString e)
                None None "compilation"
       end).

End Compiler.
End Compiler.

(* ================================================================== *)
(** * What a pattern accepts *)
(* ================================================================== *)

Module RegexSpec.
Import Regex.

(** [Matches ci s r i j]: the pattern [r] matches the subject [s] from
    position [i] to position [j]. *)
Fixpoint Matches (ci : bool) (s : list ascii) (r : regex) (i j : nat) : Prop :=
  match r with
  | Eps => i = j
  | Chr a => j = S i /\ exists c, s !! i = Some c /\ atomMatches ci a c = true
  | Any => j = S i /\ exists c, s !! i = Some c /\ Str.isLineTerminator c = false
  | Class negated items =>
      j = S i /\ exists c, s !! i = Some c /\ classMatches ci negated items c = true
  | Seq r1 r2 => exists k, Matches ci s r1 i k /\ Matches ci s r2 k j
  | Alt r1 r2 => Matches ci s r1 i j \/ Matches ci s r2 i j
  | Star r1 => rtc (Matches ci s r1) i j
  | Bol => i = j /\ i = O
  | Eol => i = j /\ i = length s
  | WordBoundary => i = j /\ boundaryFlags false s !! i = Some true
  end.

(** A literal whose characters are all ASCII: under the [i] flag the
    engine canonicalises such characters by their ASCII lower case. *)
Definition plainAscii (needle : string) : Prop :=
  Forall (fun x => Str.code x < 128) (list_ascii_of_string needle).

End RegexSpec.


(* ================================================================== *)
(** * Vocabulary of the statements *)
(* ================================================================== *)

Module Spec.

(** The error [validateTextContent] raises for [text]. *)
Definition maliciousText (text : string) : error :=
  ITSSecurityError "Malicious content detected in text" "content_validation"
    "MALICIOUS_CONTENT" (Some (Str.take 100 text)).



(** The URL of the claim about the link-local range, and the error it
    is rejected with. *)
Definition linkLocalUrl : string := "http://169.254.169.254/".

Definition privateNetworkBlocked : error :=
  Security.securityError "Private network access blocked: 169.254.169.254"
    "private_network_blocked" "SSRF_BLOCKED".

(** [Prunes cond content out]: [out] is [content] with every
    conditional replaced by the branch its condition selects, [cond]
    being the evaluation of conditions. *)
Inductive Prunes (cond : string -> result bool)
  : list ContentElement -> list ContentElement -> Prop :=
| prunes_nil : Prunes cond [] []
| prunes_keep element rest out :
    isConditional element = false ->
    Prunes cond rest out ->
    Prunes cond (element :: rest) (element :: out)
| prunes_true id condition content else_ rest kept out :
    cond condition = Ok true ->
    Prunes cond content kept ->
    Prunes cond rest out ->
    Prunes cond (ConditionalElement id condition content else_ :: rest) (kept ++ out)
| prunes_false id condition content e rest kept out :
    cond condition = Ok false ->
    Prunes cond e kept ->
    Prunes cond rest out ->
    Prunes cond (ConditionalElement id condition content (Some e) :: rest) (kept ++ out)
| prunes_false_no_else id condition content rest out :
    cond condition = Ok false ->
    Prunes cond rest out ->
    Prunes cond (ConditionalElement id condition content None :: rest) out.

(** Every condition of the content, nested ones included, evaluates to
    a boolean. *)
Fixpoint acceptedElement (cond : string -> result bool) (element : ContentElement)
  : bool :=
  match element with
  | ConditionalElement _ condition content else_ =>
      is_ok (cond condition) &&
      forallb (acceptedElement cond) content &&
      match else_ with
      | Some e => forallb (acceptedElement cond) e
      | None => true
      end
  | _ => true
  end.

Definition accepted (cond : string -> result bool) (content : list ContentElement)
  : bool :=
  forallb (acceptedElement cond) content.

(** Every cached schema is one [loadSchema] could have stored: what
    [getFromCache] returns of it counts as found. *)
Definition cacheSound (w : Loader.World) : Prop :=
  forall url entry,
    Loader.cache w !! url = Some entry -> Js.truthy (Loader.schema entry) = true.


(** No character of [s] is the closing brace. *)
Definition braceFree (s : string) : Prop :=
  forall c, c ∈ list_ascii_of_string s -> c <> "}"%char.

(** [items[-1]] as jsep parses it. *)
Definition lastItem : Evaluator.node :=
  Evaluator.MemberExpression true (Evaluator.Identifier "items")
    (Evaluator.UnaryExpression "-" (Evaluator.Literal (Js.VNum 1))).

(** A computation that, when it throws, throws a security error. *)
Definition securityOnly {A} (r : result A) : Prop :=
  match r with
  | Ok _ => True
  | Throw e => isSecurityError e = true
  end.

(** The template of the test suite: one text element. *)
Definition mockTemplate : ITSTemplate :=
  mkTemplate "1.0.0" None None None None [TextElement None "Hello world"] None.

(** The same with declared variables. *)
Definition mockTemplateWith (vars : Js.object) : ITSTemplate :=
  mkTemplate "1.0.0" None None (Some vars) None [TextElement None "Hello world"] None.

(** An instruction type with the template [t], a schema that defines
    the type [name] so, and a template that extends the schemas at [a]
    and [b] and defines [name] itself. *)
Definition typeDefinition (t : string) : Js.value :=
  Js.ofObject (Js.literal [("template", Js.VString t)]).

Definition schemaDefining (name t : string) : Js.value :=
  Js.ofObject (Js.literal
    [("instructionTypes", Js.ofObject (Js.literal [(name, typeDefinition t)]))]).

Definition extendingTemplate (a b name t : string) : ITSTemplate :=
  mkTemplate "1.0.0" None (Some [a; b]) None
    (Some (Js.literal [(name, typeDefinition t)]))
    [TextElement None "Hello world"] None.

(** The definition [loadInstructionTypes] stores for a type with the
    template [t] coming from [source]. *)
Definition storedDefinition (t source : string) : Js.value :=
  Js.ofObject (Js.literal [("template", Js.VString t); ("source", Js.VString source)]).

(** [text] contains [name] in any letter case followed, after any
    white space, by an opening parenthesis. *)
Definition containsCall (name text : string) : Prop :=
  exists pre mid ws post,
    text = pre +:+ mid +:+ ws +:+ "(" +:+ post /\
    Str.toLowerCase mid = name /\
    (forall c, c ∈ list_ascii_of_string ws -> Str.isSpace c = true).

(** [0-9a-fA-F] *)
Definition isHexDigit (c : ascii) : bool :=
  Str.between "0" "9" c || Str.between "a" "f" c || Str.between "A" "F" c.

(** [text] contains [marker] followed by [n] hexadecimal digits. *)
Definition containsEscape (marker : string) (n : nat) (text : string) : Prop :=
  exists pre digits post,
    text = pre +:+ marker +:+ digits +:+ post /\
    String.length digits = n /\
    (forall c, c ∈ list_ascii_of_string digits -> isHexDigit c = true).

(** The character [c] does not occur in [s]. *)
Definition lacks (c : ascii) (s : string) : Prop :=
  forall x, x ∈ list_ascii_of_string s -> x <> c.

(** The two digits of a number from 16 to 31. *)
Definition secondOctet (d1 d2 : ascii) : bool :=
  (Ascii.eqb d1 "1" && Str.between "6" "9" d2) ||
  (Ascii.eqb d1 "2" && Str.between "0" "9" d2) ||
  (Ascii.eqb d1 "3" && Str.between "0" "1" d2).

(** A value [validateVariables] descends into as a record of its own. *)
Definition isRecord (v : Js.value) : bool :=
  match v with
  | Js.VObject _ _ | Js.VObjectPrototype => true
  | _ => false
  end.

(** [Nested root n o]: [validateVariables] started on [root] reaches the
    record [o] after [n] nested calls: through an enumerable property
    that holds a record, or through an item of an array that is a
    record or an array, which the code wraps as [{[i]: item}]. *)
Inductive Nested (root : Js.object) : nat -> Js.object -> Prop :=
| nested_root : Nested root 0 root
| nested_field n o key v :
    Nested root n o ->
    (key, v) ∈ Js.entries o -> isRecord v = true ->
    Nested root (S n) (Security.asObject v)
| nested_item n o key items i x :
    Nested root n o ->
    (key, Js.VArray items) ∈ Js.entries o ->
    items !! i = Some x -> Js.isObjectLike x = true ->
    Nested root (S n) (Js.literal [(Str.ofNat i, x)]).

(** [Within content n e]: the element [e] sits [n] conditionals deep in
    [content]. *)
Inductive Within (content : list ContentElement) : nat -> ContentElement -> Prop :=
| within_top e : e ∈ content -> Within content 0 e
| within_then n id condition branch else_ e :
    Within content n (ConditionalElement id condition branch else_) ->
    e ∈ branch -> Within content (S n) e
| within_else n id condition branch else_ e :
    Within content n (ConditionalElement id condition branch (Some else_)) ->
    e ∈ else_ -> Within content (S n) e.

End Spec.

(* ================================================================== *)
(** * A small host, to run the examples *)
(* ================================================================== *)

Module Demo.
Import Js Evaluator.

(** Arrays, strings and functions that inherit nothing. *)
Definition inherited : value -> string -> option value := fun _ _ => None.

(** The comparisons on numbers, strings and booleans. *)
Definition equals (a b : value) : bool :=
  match a, b with
  | VNum x, VNum y => (x =? y)%Z
  | VString x, VString y => (x =? y)%string
  | VBool x, VBool y => eqb x y
  | VNull, VNull | VUndefined, VUndefined => true
  | _, _ => false
  end.

Definition lessThan (a b : value) : option bool :=
  match a, b with
  | VNum x, VNum y => Some (x <? y)%Z
  | _, _ => None
  end.

Definition toNumber (v : value) : value := v.

(** The trees [jsep] builds for the expressions of the examples. *)
Definition jsep (expression : string) : result node :=
  if (expression =? "count > 3")%string
  then Ok (BinaryExpression ">" (Identifier "count") (Literal (VNum 3)))
  else if (expression =? "toString")%string
  then Ok (Identifier "toString")
  else if (expression =? "items[-1]")%string
  then Ok (MemberExpression true (Identifier "items")
             (UnaryExpression "-" (Literal (VNum 1))))
  else Throw (plainError ("Unexpected expression: " +:+ expression)).

Definition evaluateCondition (condition : string) (variables : object) : result bool :=
  Evaluator.evaluateCondition inherited jsep equals equals lessThan toNumber toNumber
    500 condition variables.

Definition evaluateContent (content : list ContentElement) (variables : object)
  : result (list ContentElement) :=
  Evaluator.evaluateContent inherited jsep equals equals lessThan toNumber toNumber
    500 content variables.

(** No URL parses, nothing is on the network. *)
Definition parseURL (url : string) : option URL := None.
Definition resolveRelative (url base : string) : option string := None.
Definition jsonParse (text : string) : result value :=
  Throw (JsError "SyntaxError" "Unexpected end of JSON input").
Definition clock (n : nat) : Z := Z.of_nat n.
Definition network (n : nat) (url : string) : Loader.fetchOutcome :=
  Loader.Failed "getaddrinfo ENOTFOUND".

(** A serialisation without any interpolation in it. *)
Definition stringifyTemplate (template : ITSTemplate) : string := "{}".
Definition stringifyContent (content : list ContentElement) : string := "[]".

Definition world : Loader.World := Loader.mkWorld ∅ 0 [].

(** A schema, the URL it comes from and a world that has it cached
    until the clock reads 100. *)
Definition schemaUrl : string := "https://schemas.example.com/types.json".

Definition acceptURL (url : string) : option URL :=
  Some (mkURL "https:" "schemas.example.com" "/types.json").

Definition sampleSchema : value :=
  ofObject (literal
    [("instructionTypes", ofObject (literal
        [("list", ofObject (literal [("template", VString "<<List: {description}>>")]))]))]).

Definition cachedEntry : Loader.CacheEntry := Loader.mkEntry sampleSchema 0 100.

Definition cachedWorld : Loader.World :=
  Loader.mkWorld (<[schemaUrl := cachedEntry]> ∅) 0 [].

(** Two schemas on the network, both defining the type [constructor]. *)
Definition urlA : string := "https://schemas.example.com/a.json".
Definition urlB : string := "https://schemas.example.com/b.json".

Definition schemaNetwork (n : nat) (url : string) : Loader.fetchOutcome :=
  Loader.Responded
    (Loader.mkResponse true 200 "OK" (Some "application/json") None url).

Definition schemaParse (text : string) : result value :=
  if (text =? urlA)%string then Ok (Spec.schemaDefining "constructor" "From A: {description}")
  else if (text =? urlB)%string
  then Ok (Spec.schemaDefining "constructor" "From B: {description}")
  else Throw (JsError "SyntaxError" "Unexpected token").

Definition loadSchema : string -> option string -> Loader.St value :=
  Compiler.loadSchema inherited acceptURL resolveRelative schemaParse clock
    schemaNetwork DEFAULT_SECURITY_CONFIG.

(** The worlds after the first and after the second load. *)
Definition worldA : Loader.World := (loadSchema urlA None world).2.
Definition worldB : Loader.World := (loadSchema urlB None worldA).2.

Definition sampleContent : list ContentElement :=
  [ TextElement None "Items: ";
    ConditionalElement None "count > 3"
      [TextElement None "many"] (Some [TextElement None "few"]) ].

Definition sampleTypes : Js.object :=
  Js.literal
    [("list", Js.ofObject (Js.literal
        [("template", Js.VString "<<List: ([{<{description}>}])>>");
         ("source", Js.VString "custom")]))].

Definition sampleConfig : Js.object :=
  Js.literal [("description", Js.VString "three fruits")].

Definition parenthesised : ITSTemplate :=
  mkTemplate "1.0.0" None None None None []
    (Some (mkCompilerConfig None None (Some "(({instruction}))") None)).

(** The response the network gives for [urlA], and a loader over a
    network that is down. *)
Definition responseA : Loader.Response :=
  Loader.mkResponse true 200 "OK" (Some "application/json") None urlA.

Definition offlineLoad : string -> option string -> Loader.St value :=
  Loader.loadSchema inherited acceptURL resolveRelative jsonParse clock network
    3600000 DEFAULT_SECURITY_CONFIG 10000.

(** The evaluator of expressions over this host. *)
Definition eval (n : node) (variables : object) : result value :=
  evaluateASTNode inherited equals equals lessThan toNumber toNumber n variables.

(** Variables with an array of three items. *)
Definition shelf : object :=
  literal [("items", VArray [VString "a"; VString "b"; VString "c"])].

(** A serialisation of content that keeps its texts. *)
Definition textsOf (content : list ContentElement) : string :=
  Str.join " " (omap (fun e => match e with TextElement _ t => Some t | _ => None end)
                     content).

(** A template that greets by a name it does not declare, one with a
    script URI in its text, and one with a placeholder. *)
Definition greeting : ITSTemplate :=
  mkTemplate "1.0.0" None None None None [TextElement None "Hello ${name}"] None.

Definition hostile : ITSTemplate :=
  mkTemplate "1.0.0" None None None None [TextElement None "javascript:alert(1)"] None.

Definition listing : list ContentElement :=
  [TextElement None "Fruits: "; PlaceholderElement None "list" sampleConfig].

(** The compiler over this host, with the serialisation [textsOf]. *)
Definition compile : ITSTemplate -> option object -> option string ->
                     Loader.St Compiler.CompilationResult :=
  Compiler.compile inherited parseURL resolveRelative jsonParse clock network
    stringifyTemplate textsOf jsep equals equals lessThan toNumber toNumber
    DEFAULT_SECURITY_CONFIG.

Definition securityCheck : ITSTemplate -> result unit :=
  Security.validateTemplate inherited parseURL stringifyTemplate DEFAULT_SECURITY_CONFIG.

(** Variables with a record and an array below the top level. *)
Definition profile : Js.object :=
  Js.literal [("name", Js.VString "Ann"); ("tags", Js.VArray [Js.VString "a"; Js.VString "b"])].

Definition account : Js.object :=
  Js.literal [("user", Js.ofObject profile); ("visits", Js.VNum 3)].

End Demo.
Module RegexFacts.
Import Regex RegexSpec.

Section Subject.
Variable ci : bool.
Variable s : list ascii.

Local Abbreviation sized v := (length v = S (length s)).

Lemma length_advance p v : sized v -> sized (advance p s v).
Proof.
  intros Hv. unfold advance. cbn. rewrite length_zip_with. lia.
Qed.

Lemma length_vor v w : sized v -> sized w -> sized (vor v w).
Proof. intros Hv Hw. unfold vor. rewrite length_zip_with. lia. Qed.

Lemma length_vand v w : sized v -> sized w -> sized (vand v w).
Proof. intros Hv Hw. unfold vand. rewrite length_zip_with. lia. Qed.

Lemma length_bolFlags : sized (bolFlags s).
Proof. unfold bolFlags. cbn. by rewrite length_map. Qed.

Lemma length_eolFlags (t : list ascii) : length (eolFlags t) = S (length t).
Proof. induction t; cbn; congruence. Qed.

Lemma length_boundaryFlags prev (t : list ascii) :
  length (boundaryFlags prev t) = S (length t).
Proof. revert prev. induction t; intros; cbn; [done | by rewrite IHt]. Qed.

Lemma length_iter (f : list bool -> list bool) n v :
  (forall x, sized x -> sized (f x)) -> sized v -> sized (Nat.iter n f v).
Proof. intros Hf Hv. induction n; cbn; auto. Qed.

Lemma length_ends r v : sized v -> sized (ends ci s r v).
Proof.
  revert v. induction r; intros v Hv.
  - done.
  - by apply length_advance.
  - by apply length_advance.
  - by apply length_advance.
  - apply IHr2, IHr1, Hv.
  - apply length_vor; auto.
  - apply length_iter; auto using length_vor.
  - apply length_vand; auto using length_bolFlags.
  - apply length_vand; auto using length_eolFlags.
  - apply length_vand; auto using length_boundaryFlags.
Qed.

Lemma lookup_advance p v i c :
  v !! i = Some true -> s !! i = Some c -> p c = true ->
  advance p s v !! S i = Some true.
Proof.
  intros Hv Hs Hp. unfold advance.
  change (zip_with (fun b c => b && p c) v s !! i = Some true).
  rewrite lookup_zip_with, Hv, Hs. simpl. by rewrite Hp.
Qed.

Lemma lookup_vor_l v w i :
  sized v -> sized w -> v !! i = Some true -> vor v w !! i = Some true.
Proof.
  intros Hv Hw Hi. unfold vor. rewrite lookup_zip_with, Hi. cbn.
  destruct (w !! i) as [b|] eqn:E; [done|].
  apply lookup_ge_None in E. apply lookup_lt_Some in Hi. lia.
Qed.

Lemma lookup_vor_r v w i :
  sized v -> sized w -> w !! i = Some true -> vor v w !! i = Some true.
Proof.
  intros Hv Hw Hi. unfold vor. rewrite lookup_zip_with, Hi.
  destruct (v !! i) as [b|] eqn:E; cbn; [by rewrite orb_true_r|].
  apply lookup_ge_None in E. apply lookup_lt_Some in Hi. lia.
Qed.

Lemma lookup_vand v w i :
  v !! i = Some true -> w !! i = Some true -> vand v w !! i = Some true.
Proof. intros Hv Hw. unfold vand. by rewrite lookup_zip_with, Hv, Hw. Qed.

Lemma lookup_bolFlags : bolFlags s !! O = Some true.
Proof. done. Qed.

Lemma lookup_eolFlags (t : list ascii) : eolFlags t !! length t = Some true.
Proof. induction t; cbn; auto. Qed.

(** A match never runs backwards. *)
Lemma Matches_le r i j : Matches ci s r i j -> i <= j.
Proof.
  revert i j. induction r; intros i j; simpl.
  - lia.
  - intros [-> _]. lia.
  - intros [-> _]. lia.
  - intros [-> _]. lia.
  - intros (k & H1 & H2). apply IHr1 in H1. apply IHr2 in H2. lia.
  - intros [H|H]; auto.
  - induction 1 as [|x y z Hxy _ IH]; [lia|]. apply IHr in Hxy. lia.
  - lia.
  - lia.
  - lia.
Qed.

(** A match stays inside the subject. *)
Lemma Matches_bound r i j : i <= length s -> Matches ci s r i j -> j <= length s.
Proof.
  revert i j. induction r; intros i j Hi; simpl.
  - lia.
  - intros [-> (c & Hc%lookup_lt_Some & _)]. lia.
  - intros [-> (c & Hc%lookup_lt_Some & _)]. lia.
  - intros [-> (c & Hc%lookup_lt_Some & _)]. lia.
  - intros (k & H1 & H2). eauto.
  - intros [H|H]; eauto.
  - intros Hstar. induction Hstar as [|x y z Hxy _ IH]; eauto.
  - lia.
  - lia.
  - lia.
Qed.

Lemma iter_keeps (f : list bool -> list bool) n v i :
  (forall x, sized x -> sized (f x)) ->
  (forall x, sized x -> x !! i = Some true -> f x !! i = Some true) ->
  sized v -> v !! i = Some true -> Nat.iter n f v !! i = Some true.
Proof.
  intros Hlen Hf Hv Hi. induction n; cbn; [done|].
  apply Hf; [by apply length_iter | done].
Qed.

(** [ends] finds every match. *)
Lemma ends_complete r v i j :
  sized v -> v !! i = Some true -> Matches ci s r i j ->
  ends ci s r v !! j = Some true.
Proof.
  revert v i j. induction r; intros v i j Hv Hi; simpl.
  - by intros <-.
  - intros [-> (c & Hc & Hm)]. by eapply lookup_advance.
  - intros [-> (c & Hc & Hm)]. eapply lookup_advance; eauto. by rewrite Hm.
  - intros [-> (c & Hc & Hm)]. by eapply lookup_advance.
  - intros (k & H1 & H2). eapply IHr2; [|eapply IHr1|]; eauto using length_ends.
  - intros [H|H].
    + apply lookup_vor_l; eauto using length_ends.
    + apply lookup_vor_r; eauto using length_ends.
  - intros Hstar.
    assert (Hj : j - i <= length s).
    { assert (j <= length s); [|lia].
      apply (Matches_bound (Star r) i); [|done].
      apply lookup_lt_Some in Hi. lia. }
    set (f := fun x => vor x (ends ci s r x)).
    assert (Hlen : forall x, sized x -> sized (f x)).
    { intros x Hx. apply length_vor; auto using length_ends. }
    assert (Hkeep : forall k x, sized x -> x !! k = Some true -> f x !! k = Some true).
    { intros k x Hx Hk. apply lookup_vor_l; auto using length_ends. }
    cut (forall n w, sized w -> w !! i = Some true -> j - i <= n ->
                     Nat.iter n f w !! j = Some true); [by eauto|].
    clear v Hv Hi Hj.
    induction Hstar as [x|x y z Hxy Hyz IH]; intros n v Hv Hi Hn.
    + apply iter_keeps; auto.
    + pose proof (Matches_le r _ _ Hxy) as Hle.
      assert (Hyz' : y <= z) by (apply (Matches_le (Star r)); done).
      assert (Hfy : f v !! y = Some true).
      { apply lookup_vor_r; auto using length_ends. by eapply IHr. }
      destruct (decide (x = y)) as [->|Hne]; [by apply IH|].
      destruct n as [|n]; [lia|].
      rewrite Nat.iter_succ_r. apply IH; auto. lia.
  - intros [<- ->]. apply lookup_vand; [done|apply lookup_bolFlags].
  - intros [<- ->]. apply lookup_vand; [done|apply lookup_eolFlags].
  - intros [<- Hb]. by apply lookup_vand.
Qed.

End Subject.
End RegexFacts.

Module RegexFacts2.
Import Regex RegexSpec RegexFacts.

Lemma list_ascii_app (a b : string) :
  list_ascii_of_string (a +:+ b) = list_ascii_of_string a ++ list_ascii_of_string b.
Proof. induction a; simpl; [done | by rewrite IHa]. Qed.

Lemma length_list_ascii (a : string) :
  length (list_ascii_of_string a) = String.length a.
Proof. induction a; simpl; auto. Qed.

Lemma lookup_everywhere (s : list ascii) i :
  i <= length s -> everywhere s !! i = Some true.
Proof.
  intros Hi. unfold everywhere. destruct i as [|i]; [done|].
  change (map (fun _ : ascii => true) s !! i = Some true).
  rewrite list_lookup_fmap. destruct (s !! i) eqn:E; [done|].
  apply lookup_ge_None in E. lia.
Qed.

(** [test] answers [true] as soon as there is a match somewhere. *)
Lemma test_complete ci r text i j :
  i <= String.length text ->
  Matches ci (list_ascii_of_string text) r i j ->
  test ci r text = true.
Proof.
  intros Hi Hm. unfold test. apply existsb_exists. exists true. split; [|done].
  apply list_elem_of_In, list_elem_of_lookup. exists j.
  eapply ends_complete; eauto.
  - unfold everywhere. simpl. by rewrite length_map.
  - apply lookup_everywhere. by rewrite length_list_ascii.
Qed.

Section Building.
Variable ci : bool.

Lemma Matches_cat_cons s r rs i k j :
  Matches ci s r i k -> Matches ci s (cat rs) k j -> Matches ci s (cat (r :: rs)) i j.
Proof. intros H1 H2. simpl. eauto. Qed.

Lemma Matches_cat_nil s i : Matches ci s (cat []) i i.
Proof. done. Qed.

(** A run of characters each accepted by a one-character pattern. *)
Lemma Matches_star_run s r (l1 mid l2 : list ascii) :
  s = l1 ++ mid ++ l2 ->
  (forall l c l', s = l ++ c :: l' -> c ∈ mid -> Matches ci s r (length l) (S (length l))) ->
  Matches ci s (Star r) (length l1) (length l1 + length mid).
Proof.
  revert l1. induction mid as [|c mid IH]; intros l1 Hs Hall; simpl.
  - rewrite Nat.add_0_r. apply rtc_refl.
  - eapply rtc_l.
    + apply (Hall l1 c (mid ++ l2)); [done | by left].
    + replace (length l1 + S (length mid)) with (length (l1 ++ [c]) + length mid)
        by (rewrite length_app; simpl; lia).
      replace (S (length l1)) with (length (l1 ++ [c]))
        by (rewrite length_app; simpl; lia).
      apply IH.
      * by rewrite <- app_assoc.
      * intros l c' l' E Hin. apply (Hall l c' l' E). by right.
Qed.

End Building.

(** JavaScript's lower case of a character is below 128 only for the
    character itself and its capital; under the [i] flag a pattern
    letter accepts both. *)
Lemma lower_matches (c x : ascii) :
  Str.code x < 128 -> Str.toLowerChar c = x -> atomMatches true (Lit x) c = true.
Proof.
  intros Hx <-.
  destruct c as [[] [] [] [] [] [] [] []]; vm_compute in Hx |- *; (reflexivity || lia).
Qed.

(** A stretch of the subject whose lower case is [needle] is matched by
    the literal pattern [needle] under the [i] flag. *)
Lemma Matches_lits_lower s (l1 l2 : list ascii) (mid needle : string) :
  s = l1 ++ list_ascii_of_string mid ++ l2 ->
  plainAscii needle ->
  Str.toLowerCase mid = needle ->
  Matches true s (lits needle) (length l1) (length l1 + String.length mid).
Proof.
  revert l1 needle. induction mid as [|c mid IH]; intros l1 needle Hs Hplain <-; simpl.
  - lia.
  - exists (S (length l1)). split.
    + split; [done|]. exists c. split.
      * rewrite Hs. simpl. by rewrite lookup_app_r, Nat.sub_diag by lia.
      * apply lower_matches; [|done]. by inversion Hplain.
    + replace (length l1 + S (String.length mid))
        with (length (l1 ++ [c]) + String.length mid)
        by (rewrite length_app; simpl; lia).
      replace (S (length l1)) with (length (l1 ++ [c]))
        by (rewrite length_app; simpl; lia).
      apply IH; [by rewrite <- app_assoc | by inversion Hplain | done].
Qed.

End RegexFacts2.

(* ================================================================== *)
(** * The text deny-list *)
(* ================================================================== *)

Module TextDenyList.
Import Regex RegexSpec RegexFacts RegexFacts2 Security Spec.

Lemma forEach_throw {A} (f : A -> result unit) (xs : list A) (x : A) (e : error) :
  x ∈ xs ->
  (forall y, y ∈ xs -> f y = Ok tt \/ f y = Throw e) ->
  f x = Throw e ->
  forEach f xs = Throw e.
Proof.
  intros Hin Hall Hx. induction xs as [|y ys IH]; [by inversion Hin|].
  simpl. destruct (Hall y) as [Hy|Hy]; [by left| |]; rewrite Hy; simpl; [|done].
  apply IH.
  - inversion Hin; subst; [congruence | done].
  - intros z Hz. apply Hall. by right.
Qed.

(** One pattern of the deny-list that matches is enough. *)
Lemma validateTextContent_match (text : string) (p : pattern) :
  p ∈ textPatterns -> matchesPattern p text = true ->
  validateTextContent text = Throw (maliciousText text).
Proof.
  intros Hin Hp. unfold validateTextContent.
  apply (forEach_throw _ _ p); [done| |by rewrite Hp].
  intros q _. destruct (matchesPattern q text); auto.
Qed.


Lemma plainAscii_intro (needle : string) :
  forallb (fun x => (Str.code x <? 128)%nat) (list_ascii_of_string needle) = true ->
  plainAscii needle.
Proof.
  intros H. apply Forall_forall. intros x Hx.
  rewrite forallb_forall in H. apply Nat.ltb_lt, H. by apply list_elem_of_In.
Qed.



Lemma lookup_middle (l : list ascii) c l' : (l ++ c :: l') !! length l = Some c.
Proof. by rewrite lookup_app_r, Nat.sub_diag by lia. Qed.





(** Neither does a script element whose body runs over a line break. *)
Lemma script_element_over_lines_accepted :
  validateTextContent
    ("<script>" +:+ String (ascii_of_nat 10) "" +:+ "alert(1)</script>") = Ok tt.
Proof. vm_compute. reflexivity. Qed.

End TextDenyList.

(* ================================================================== *)
(** * Schema URLs *)
(* ================================================================== *)

Module SchemaUrls.
Import Security Loader Spec.

Section Urls.
Variable parseURL : string -> option URL.
Hypothesis parse_linkLocal :
  parseURL linkLocalUrl = Some (mkURL "http:" "169.254.169.254" "/").

Lemma validateSchemaUrl_linkLocal (config : SecurityConfig) :
  allowHttp config = true -> blockPrivateNetworks config = true ->
  validateSchemaUrl parseURL config linkLocalUrl = Throw privateNetworkBlocked.
Proof using parse_linkLocal.
  intros Hhttp Hblock. unfold validateSchemaUrl, checkSchemaUrl.
  rewrite parse_linkLocal. cbn [mbind result_bind protocol hostname pathname].
  rewrite Hhttp. unfold validateHostname. rewrite Hblock.
  by destruct (blockLocalhost config).
Qed.

(** C4: [http://169.254.169.254/] is rejected under the default
    configuration, also when [allowHttp] is set: the host is in the
    link-local range, the error is the private-network security
    violation, and [loadSchema] raises it before it touches the cache,
    the clock or the network. *)
Theorem C4_link_local_rejected
    hostInherited resolveRelative jsonParse clock network cacheTTL timeout
    (baseUrl : option string) (w : World) :
  isPrivateNetwork "169.254.169.254" = true /\
  validateSchemaUrl parseURL (withAllowHttp DEFAULT_SECURITY_CONFIG) linkLocalUrl
    = Throw privateNetworkBlocked /\
  is_ok (validateSchemaUrl parseURL DEFAULT_SECURITY_CONFIG linkLocalUrl) = false /\
  loadSchema hostInherited parseURL resolveRelative jsonParse clock network
    cacheTTL (withAllowHttp DEFAULT_SECURITY_CONFIG) timeout linkLocalUrl baseUrl w
    = (Throw privateNetworkBlocked, w).
Proof using parse_linkLocal.
  split; [reflexivity|]. split; [by apply validateSchemaUrl_linkLocal|].
  split.
  { unfold validateSchemaUrl, checkSchemaUrl. by rewrite parse_linkLocal. }
  unfold loadSchema.
  assert (Hres : resolveUrl parseURL resolveRelative linkLocalUrl baseUrl = linkLocalUrl).
  { unfold resolveUrl, isAbsoluteUrl. rewrite parse_linkLocal.
    destruct baseUrl as [[|]|]; done. }
  rewrite Hres. unfold mbind, St_bind, lift.
  by rewrite validateSchemaUrl_linkLocal.
Qed.

End Urls.

Lemma C4_link_local_rejected_witness :
  let parseURL := fun url : string =>
    if (url =? linkLocalUrl)%string
    then Some (mkURL "http:" "169.254.169.254" "/") else None in
  parseURL linkLocalUrl = Some (mkURL "http:" "169.254.169.254" "/") /\
  validateSchemaUrl parseURL (withAllowHttp DEFAULT_SECURITY_CONFIG) linkLocalUrl
    = Throw privateNetworkBlocked.
Proof.
  intros parseURL. split; [reflexivity|].
  exact (proj1 (proj2 (C4_link_local_rejected parseURL eq_refl
           (fun _ _ => None) (fun _ _ => None) (fun _ => Ok Js.VNull)
           (fun _ => 0%Z) (fun _ _ => Aborted) 0%Z 0%Z None (mkWorld ∅ 0 [])))).
Defined.

End SchemaUrls.

(* ================================================================== *)
(** * Pruning conditionals *)
(* ================================================================== *)

Module Pruning.
Import Evaluator Spec.

(** Induction over content elements, through the nested lists. *)
Lemma ContentElement_nested_ind (P : ContentElement -> Prop) :
  (forall id text, P (TextElement id text)) ->
  (forall id instructionType config, P (PlaceholderElement id instructionType config)) ->
  (forall id condition content else_,
     Forall P content ->
     from_option (Forall P) True else_ ->
     P (ConditionalElement id condition content else_)) ->
  forall element, P element.
Proof.
  intros Htext Hplaceholder Hconditional.
  fix IH 1. intros [id text|id ty config|id condition content else_].
  - apply Htext.
  - apply Hplaceholder.
  - apply Hconditional.
    + induction content as [|e rest IHrest]; constructor; [apply IH | exact IHrest].
    + destruct else_ as [e|]; [|exact I]. simpl.
      induction e as [|x rest IHrest]; constructor; [apply IH | exact IHrest].
Qed.

Lemma flatMapE_cons {A B} (f : A -> result (list B)) (x : A) (xs : list A) :
  flatMapE f (x :: xs) = (ys ← f x; zs ← flatMapE f xs; Ok (ys ++ zs)).
Proof. reflexivity. Qed.

Lemma flatMapE_app {A B} (f : A -> result (list B)) (xs ys : list A) :
  flatMapE f (xs ++ ys) =
  (a ← flatMapE f xs; b ← flatMapE f ys; Ok (a ++ b)).
Proof.
  induction xs as [|x xs IH]; simpl.
  - destruct (flatMapE f ys); done.
  - destruct (f x) as [o|e]; simpl; [|done]. rewrite IH.
    destruct (flatMapE f xs) as [a|e]; simpl; [|done].
    destruct (flatMapE f ys) as [b|e]; simpl; [|done].
    by rewrite app_assoc.
Qed.

Section Pruning.
Variable hostInherited : Js.value -> string -> option Js.value.
Variable jsep : string -> result node.
Variables looseEquals strictEquals : Js.value -> Js.value -> bool.
Variable lessThan : Js.value -> Js.value -> option bool.
Variables toNumber negate : Js.value -> Js.value.
Variable maxExpressionLength : Z.
Variable variables : Js.object.

Local Abbreviation cond := (fun condition =>
  evaluateCondition hostInherited jsep looseEquals strictEquals lessThan
    toNumber negate maxExpressionLength condition variables).
Local Abbreviation evalElement :=
  (evaluateElement hostInherited jsep looseEquals strictEquals lessThan
     toNumber negate maxExpressionLength variables).
Local Abbreviation evalContent := (fun content =>
  evaluateContent hostInherited jsep looseEquals strictEquals lessThan
    toNumber negate maxExpressionLength content variables).

(** What one step of the loop does. *)
Lemma evaluateContent_cons element rest :
  evalContent (element :: rest) =
  (kept ← evalElement element; out ← evalContent rest; Ok (kept ++ out)).
Proof. reflexivity. Qed.

(** [evaluateContent] returns whenever its conditions evaluate. *)
Lemma evaluateContent_total content :
  accepted cond content = true -> exists out, evalContent content = Ok out.
Proof.
  unfold accepted.
  cut (forall element, acceptedElement cond element = true ->
                       exists kept, evalElement element = Ok kept).
  { intros Helem. induction content as [|element rest IH]; intros Hacc.
    - by exists [].
    - simpl in Hacc. apply andb_true_iff in Hacc as [H1 H2].
      destruct (Helem _ H1) as [kept Hkept]. destruct (IH H2) as [out Hout].
      exists (kept ++ out). rewrite evaluateContent_cons, Hkept. simpl.
      cbv beta in Hout. by rewrite Hout. }
  clear content.
  induction element as [| |id condition content else_ IHc IHe]
    using ContentElement_nested_ind; intros Hacc.
  - by eexists.
  - by eexists.
  - simpl in Hacc. apply andb_true_iff in Hacc as [Hacc Helse].
    apply andb_true_iff in Hacc as [Hcond Hcontent].
    assert (Hlist : forall l, Forall (fun e => acceptedElement cond e = true ->
                                exists kept, evalElement e = Ok kept) l ->
                    forallb (acceptedElement cond) l = true ->
                    exists out, flatMapE evalElement l = Ok out).
    { clear. induction 1 as [|e l He _ IH]; intros Hl; [by exists []|].
      simpl in Hl. apply andb_true_iff in Hl as [H1 H2].
      destruct (He H1) as [kept Hkept]. destruct (IH H2) as [out Hout].
      exists (kept ++ out). simpl. rewrite Hkept. simpl. by rewrite Hout. }
    simpl. destruct (cond condition) as [[|]|err] eqn:E; [| |done]; simpl.
    + by apply Hlist.
    + destruct else_ as [e|]; [apply Hlist; auto | by eexists].
Qed.

(** What it returns is the pruned content. *)
Lemma evaluateContent_prunes content out :
  evalContent content = Ok out -> Prunes cond content out.
Proof.
  revert out.
  cut (forall element rest kept out,
         evalElement element = Ok kept -> Prunes cond rest out ->
         Prunes cond (element :: rest) (kept ++ out)).
  { intros Helem. induction content as [|element rest IH]; intros out Hout.
    - injection Hout as <-. constructor.
    - rewrite evaluateContent_cons in Hout.
      destruct (evalElement element) as [kept|] eqn:E1; [|done]. simpl in Hout.
      destruct (evalContent rest) as [out'|] eqn:E2; [|done]. simpl in Hout.
      injection Hout as <-. apply Helem; auto. }
  clear content.
  induction element as [| |id condition content else_ IHc IHe]
    using ContentElement_nested_ind; intros rest kept out Hkept Hrest.
  - injection Hkept as <-. by constructor.
  - injection Hkept as <-. by constructor.
  - assert (Hlist : forall l, Forall (fun e => forall rest kept out,
                       evalElement e = Ok kept -> Prunes cond rest out ->
                       Prunes cond (e :: rest) (kept ++ out)) l ->
                     forall o, flatMapE evalElement l = Ok o -> Prunes cond l o).
    { clear. induction 1 as [|e l He _ IH]; intros o Ho.
      - injection Ho as <-. constructor.
      - simpl in Ho. destruct (evalElement e) as [k|] eqn:E1; [|done]. simpl in Ho.
        destruct (flatMapE evalElement l) as [o'|] eqn:E2; [|done]. simpl in Ho.
        injection Ho as <-. apply He; auto. }
    simpl in Hkept. destruct (cond condition) as [[|]|err] eqn:E; [| |done];
      simpl in Hkept.
    + apply prunes_true; auto.
    + destruct else_ as [e|].
      * apply prunes_false; auto.
      * injection Hkept as <-. by apply prunes_false_no_else.
Qed.

(** No conditional is left in it. *)
Lemma evaluateContent_flat content out :
  evalContent content = Ok out -> Forall (fun e => isConditional e = false) out.
Proof.
  intros H. apply evaluateContent_prunes in H.
  induction H; try done.
  - by constructor.
  - by apply Forall_app.
  - by apply Forall_app.
Qed.

(** C6: over accepted expressions [evaluateContent] returns, what it
    returns keeps of every conditional the branch its condition selects
    and nothing of the other, and no conditional is left in it. *)
Theorem C6_evaluateContent_prunes content :
  accepted cond content = true ->
  exists out,
    evalContent content = Ok out /\
    Prunes cond content out /\
    Forall (fun e => isConditional e = false) out.
Proof.
  intros Hacc. destruct (evaluateContent_total _ Hacc) as [out Hout].
  exists out. eauto using evaluateContent_prunes, evaluateContent_flat.
Qed.

End Pruning.
Lemma C6_evaluateContent_prunes_witness :
  let variables := Js.literal [("count", Js.VNum 5)] in
  let cond := fun condition => Demo.evaluateCondition condition variables in
  accepted cond Demo.sampleContent = true /\
  exists out,
    Demo.evaluateContent Demo.sampleContent variables = Ok out /\
    Prunes cond Demo.sampleContent out /\
    Forall (fun e => isConditional e = false) out.
Proof.
  intros variables cond.
  assert (H : accepted cond Demo.sampleContent = true) by (vm_compute; reflexivity).
  split; [exact H|].
  exact (C6_evaluateContent_prunes Demo.inherited Demo.jsep Demo.equals Demo.equals
           Demo.lessThan Demo.toNumber Demo.toNumber 500 variables
           Demo.sampleContent H).
Defined.

End Pruning.

(* ================================================================== *)
(** * Prompt assembly *)
(* ================================================================== *)

Module Prompt.
Import Compiler Pruning.

Section Prompt.
Variable hostInherited : Js.value -> string -> option Js.value.

(** What a placeholder contributes to the prompt. *)
Lemma renderElement_placeholder wrapper instructionTypes id typeName config instruction :
  generateInstruction hostInherited id typeName config instructionTypes = Ok instruction ->
  renderElement hostInherited wrapper instructionTypes
    (PlaceholderElement id typeName config) =
  Ok [if bracketed instruction then instruction
      else replaceFirst "{instruction}" instruction wrapper].
Proof.
  intros H. simpl. rewrite H. simpl. by destruct (bracketed instruction).
Qed.

(** C10: a placeholder whose instruction already starts with [<<] and
    ends with [>>] goes into the prompt as it is, whatever wrapper the
    template configures; the wrapper is applied to the other
    instructions only. *)
Theorem C10_bracketed_instruction_unchanged
    (template : ITSTemplate) instructionTypes id typeName config instruction
    (before after : list ContentElement) :
  generateInstruction hostInherited id typeName config instructionTypes = Ok instruction ->
  Str.startsWith "<<" instruction = true ->
  Str.endsWith ">>" instruction = true ->
  renderElement hostInherited (wrapperOf template) instructionTypes
    (PlaceholderElement id typeName config) = Ok [instruction] /\
  generatePrompt hostInherited
    (before ++ PlaceholderElement id typeName config :: after) instructionTypes template =
  (pieces ← flatMapE (renderElement hostInherited (wrapperOf template) instructionTypes)
             before;
   pieces' ← flatMapE (renderElement hostInherited (wrapperOf template) instructionTypes)
              after;
   Ok (assemblePrompt template (pieces ++ instruction :: pieces'))).
Proof.
  intros Hgen Hstart Hend.
  assert (Hrender : renderElement hostInherited (wrapperOf template) instructionTypes
                      (PlaceholderElement id typeName config) = Ok [instruction]).
  { rewrite (renderElement_placeholder _ _ _ _ _ _ Hgen).
    unfold bracketed. by rewrite Hstart, Hend. }
  split; [exact Hrender|].
  unfold generatePrompt. rewrite flatMapE_app, flatMapE_cons, Hrender.
  destruct (flatMapE _ before) as [pieces|e]; simpl; [|done].
  destruct (flatMapE _ after) as [pieces'|e]; simpl; done.
Qed.

(** An instruction without the brackets gets the configured wrapper. *)
Lemma unbracketed_instruction_wrapped
    (template : ITSTemplate) instructionTypes id typeName config instruction :
  generateInstruction hostInherited id typeName config instructionTypes = Ok instruction ->
  bracketed instruction = false ->
  renderElement hostInherited (wrapperOf template) instructionTypes
    (PlaceholderElement id typeName config) =
  Ok [replaceFirst "{instruction}" instruction (wrapperOf template)].
Proof.
  intros Hgen Hb. rewrite (renderElement_placeholder _ _ _ _ _ _ Hgen). by rewrite Hb.
Qed.

End Prompt.

Lemma C10_bracketed_instruction_unchanged_witness :
  generateInstruction Demo.inherited None "list" Demo.sampleConfig Demo.sampleTypes
    = Ok "<<List: ([{<three fruits>}])>>" /\
  renderElement Demo.inherited (wrapperOf Demo.parenthesised) Demo.sampleTypes
    (PlaceholderElement None "list" Demo.sampleConfig)
    = Ok ["<<List: ([{<three fruits>}])>>"].
Proof.
  assert (H : generateInstruction Demo.inherited None "list" Demo.sampleConfig Demo.sampleTypes
              = Ok "<<List: ([{<three fruits>}])>>") by (vm_compute; reflexivity).
  split; [exact H|].
  exact (proj1 (C10_bracketed_instruction_unchanged Demo.inherited Demo.parenthesised
                  Demo.sampleTypes None "list" Demo.sampleConfig _ [] [] H eq_refl eq_refl)).
Defined.

End Prompt.

(* ================================================================== *)
(** * The schema cache *)
(* ================================================================== *)

Module Cache.
Import Security Loader Spec.

Section Cache.
Variable hostInherited : Js.value -> string -> option Js.value.
Variable parseURL : string -> option URL.
Variable resolveRelative : string -> string -> option string.
Variable jsonParse : string -> result Js.value.
Variable clock : nat -> Z.
Variable network : nat -> string -> fetchOutcome.
Variable cacheTTL : Z.
Variable securityConfig : SecurityConfig.
Variable timeout : Z.

Local Abbreviation load :=
  (loadSchema hostInherited parseURL resolveRelative jsonParse clock network
     cacheTTL securityConfig timeout).
Local Abbreviation resolved := (resolveUrl parseURL resolveRelative).

Local Abbreviation received := (fun (k : nat) (url : string) =>
  settle hostInherited jsonParse timeout (network k url)).

Lemma loadFromUrl_spec url w :
  loadFromUrl hostInherited jsonParse network timeout url w =
  (received (length (requests w)) url,
   mkWorld (cache w) (clockReads w) (requests w ++ [url])).
Proof.
  reflexivity.
Qed.

Local Opaque loadFromUrl.

(** A schema that passed the checks is an object. *)
Lemma received_truthy k url schema :
  received k url = Ok schema -> Js.truthy schema = true.
Proof.
  unfold settle. destruct (network k url) as [response| |]; [|done|done].
  unfold readResponse.
  repeat match goal with
         | |- context [mbind _ ?m] =>
             let E := fresh in destruct m as [[]|] eqn:E; simpl; [|done]
         end.
  destruct (jsonParse (text response)) as [s|]; simpl; [|done].
  destruct (validateSchemaStructure hostInherited s) as [[]|] eqn:E; simpl; [|done].
  intros [= <-]. unfold validateSchemaStructure in E.
  by destruct s.
Qed.

(** A load that misses: one request, and the schema is stored with the
    time of the store plus the time to live as its expiry. *)
Lemma loadSchema_miss url baseUrl w :
  validateSchemaUrl parseURL securityConfig (resolved url baseUrl) = Ok tt ->
  cache w !! resolved url baseUrl = None ->
  load url baseUrl w =
  match received (length (requests w)) (resolved url baseUrl) with
  | Ok schema =>
      (Ok schema,
       mkWorld (<[resolved url baseUrl :=
                    mkEntry schema (clock (clockReads w))
                            (clock (S (clockReads w)) + cacheTTL)]> (cache w))
               (S (S (clockReads w)))
               (requests w ++ [resolved url baseUrl]))
  | Throw e =>
      (Throw (loadFailure (resolved url baseUrl) e),
       mkWorld (cache w) (clockReads w) (requests w ++ [resolved url baseUrl]))
  end.
Proof.
  intros Hvalid Hmiss. unfold loadSchema, mbind, St_bind, lift. rewrite Hvalid.
  unfold getFromCache, mbind, St_bind, readCache. rewrite Hmiss. simpl.
  unfold rethrowSt, mbind, St_bind. rewrite loadFromUrl_spec.
  destruct (settle _ _ _ _) as [schema|e]; [|done].
  by destruct w.
Qed.

(** C8: a load made while the clock has not passed the expiry of the
    cached entry returns the cached schema and sends no request; the
    first load after the expiry deletes the entry and sends exactly one
    request, whose schema, when it arrives, is cached with a new
    expiry of store time plus time to live. *)
Theorem C8_cache_until_expiry url baseUrl (w : World) (entry : CacheEntry) :
  validateSchemaUrl parseURL securityConfig (resolved url baseUrl) = Ok tt ->
  cacheSound w ->
  cache w !! resolved url baseUrl = Some entry ->
  let now := clock (clockReads w) in
  ((now <= expiresAt entry)%Z ->
   load url baseUrl w =
   (Ok (schema entry), mkWorld (cache w) (S (clockReads w)) (requests w))) /\
  ((now > expiresAt entry)%Z ->
   load url baseUrl w =
   match received (length (requests w)) (resolved url baseUrl) with
   | Ok fresh =>
       (Ok fresh,
        mkWorld (<[resolved url baseUrl :=
                     mkEntry fresh (clock (S (clockReads w)))
                             (clock (S (S (clockReads w))) + cacheTTL)]> (cache w))
                (S (S (S (clockReads w))))
                (requests w ++ [resolved url baseUrl]))
   | Throw e =>
       (Throw (loadFailure (resolved url baseUrl) e),
        mkWorld (delete (resolved url baseUrl) (cache w)) (S (clockReads w))
                (requests w ++ [resolved url baseUrl]))
   end).
Proof.
  intros Hvalid Hsound Hentry now. split; intros Hnow.
  - unfold loadSchema, mbind, St_bind, lift. rewrite Hvalid.
    unfold getFromCache, mbind, St_bind, readCache, dateNow. rewrite Hentry. simpl.
    fold now. destruct (Z.gtb_spec now (expiresAt entry)) as [|_]; [lia|].
    unfold mret, St_ret. by rewrite (Hsound _ _ Hentry).
  - unfold loadSchema, mbind, St_bind, lift. rewrite Hvalid.
    unfold getFromCache, mbind, St_bind, readCache, dateNow. rewrite Hentry. simpl.
    fold now. destruct (Z.gtb_spec now (expiresAt entry)) as [_|]; [|lia].
    unfold deleteCache, mret, St_ret. simpl.
    unfold rethrowSt, mbind, St_bind. rewrite loadFromUrl_spec. simpl.
    destruct (settle _ _ _ _) as [fresh|e]; [|done].
    unfold saveToCache, mbind, St_bind, dateNow, writeCache. simpl.
    by rewrite insert_delete_eq.
Qed.

(** The loader keeps its cache sound. *)
Lemma loadSchema_sound url baseUrl w r w' :
  cacheSound w -> load url baseUrl w = (r, w') -> cacheSound w'.
Proof.
  intros Hsound. unfold loadSchema, mbind, St_bind, lift.
  destruct (validateSchemaUrl _ _ _) as [[]|]; [|by intros [= <- <-]].
  unfold getFromCache, mbind, St_bind, readCache, dateNow.
  destruct (cache w !! resolved url baseUrl) as [entry|] eqn:Hentry; simpl.
  - destruct (_ >? _)%Z; unfold deleteCache, mret, St_ret; simpl.
    + unfold rethrowSt, mbind, St_bind. rewrite loadFromUrl_spec. simpl.
      destruct (settle _ _ _ _) as [fresh|e] eqn:Hfresh.
      * unfold saveToCache, mbind, St_bind, dateNow, writeCache. simpl.
        intros [= <- <-] u en. simpl.
        destruct (decide (u = resolved url baseUrl)) as [->|Hne].
        -- rewrite lookup_insert_eq. intros [= <-]. simpl.
           by eapply received_truthy.
        -- rewrite lookup_insert_ne, lookup_delete_ne by done. apply Hsound.
      * intros [= <- <-] u en. simpl.
        destruct (decide (u = resolved url baseUrl)) as [->|Hne].
        -- by rewrite lookup_delete_eq.
        -- rewrite lookup_delete_ne by done. apply Hsound.
    + rewrite (Hsound _ _ Hentry). by intros [= <- <-].
  - unfold rethrowSt, mbind, St_bind. rewrite loadFromUrl_spec. simpl.
    destruct (settle _ _ _ _) as [fresh|e] eqn:Hfresh.
    + unfold saveToCache, mbind, St_bind, dateNow, writeCache. simpl.
      intros [= <- <-] u en. simpl.
      destruct (decide (u = resolved url baseUrl)) as [->|Hne].
      * rewrite lookup_insert_eq. intros [= <-]. simpl. by eapply received_truthy.
      * rewrite lookup_insert_ne by done. apply Hsound.
    + by intros [= <- <-].
Qed.

Lemma cacheSound_empty n l : cacheSound (mkWorld ∅ n l).
Proof. intros url entry. simpl. by rewrite lookup_empty. Qed.

End Cache.

Lemma C8_cache_until_expiry_witness :
  let load := loadSchema Demo.inherited Demo.acceptURL Demo.resolveRelative
                Demo.jsonParse (fun _ => 50%Z) Demo.network 3600000
                DEFAULT_SECURITY_CONFIG 10000 in
  validateSchemaUrl Demo.acceptURL DEFAULT_SECURITY_CONFIG Demo.schemaUrl = Ok tt /\
  cacheSound Demo.cachedWorld /\
  load Demo.schemaUrl None Demo.cachedWorld =
    (Ok (schema Demo.cachedEntry),
     mkWorld (cache Demo.cachedWorld) 1 (requests Demo.cachedWorld)).
Proof.
  intros load.
  assert (Hvalid : validateSchemaUrl Demo.acceptURL DEFAULT_SECURITY_CONFIG
                     Demo.schemaUrl = Ok tt) by (vm_compute; reflexivity).
  assert (Hsound : cacheSound Demo.cachedWorld).
  { intros url entry. unfold Demo.cachedWorld. simpl.
    destruct (decide (url = Demo.schemaUrl)) as [->|Hne].
    - rewrite lookup_insert_eq. by intros [= <-].
    - rewrite lookup_insert_ne, lookup_empty by done. discriminate. }
  split; [exact Hvalid|]. split; [exact Hsound|].
  refine (proj1 (C8_cache_until_expiry Demo.inherited Demo.acceptURL
                   Demo.resolveRelative Demo.jsonParse (fun _ => 50%Z) Demo.network
                   3600000 DEFAULT_SECURITY_CONFIG 10000 Demo.schemaUrl None
                   Demo.cachedWorld Demo.cachedEntry Hvalid Hsound _) _).
  - unfold Demo.cachedWorld. simpl. apply lookup_insert_eq.
  - simpl. lia.
Defined.

End Cache.

(* ================================================================== *)
(** * Interpolation *)
(* ================================================================== *)

Module Interpolation.
Import Variables Spec.

Lemma append_cons (c : ascii) (a b : string) : String c a +:+ b = String c (a +:+ b).
Proof. reflexivity. Qed.

Lemma append_nil (a : string) : "" +:+ a = a.
Proof. reflexivity. Qed.

Lemma untilBrace_app (s : string) : (untilBrace s).1 +:+ (untilBrace s).2 = s.
Proof.
  induction s as [|c s IH]; simpl; [done|].
  destruct (Ascii.eqb c "}"); simpl; [done|].
  destruct (untilBrace s) as [a b]. simpl in *. by rewrite append_cons, IH.
Qed.

Lemma length_append (a b : string) :
  String.length (a +:+ b) = String.length a + String.length b.
Proof. induction a; simpl; auto. Qed.

Lemma append_assoc (a b c : string) : (a +:+ b) +:+ c = a +:+ b +:+ c.
Proof. induction a as [|x a IH]; [done|]. by rewrite !append_cons, IH. Qed.

(** A match consumes at least its three delimiters. *)
Lemma matchVariableAt_shorter s varRef after :
  matchVariableAt s = Some (varRef, after) -> String.length after < String.length s.
Proof.
  unfold matchVariableAt.
  destruct s as [|a [|b rest]]; try done.
  - by destruct a as [[] [] [] [] [] [] [] []].
  - destruct (Ascii.eqb_spec a "$") as [->|Ha];
      [|by destruct a as [[] [] [] [] [] [] [] []]; try done; destruct Ha].
    destruct (Ascii.eqb_spec b "{") as [->|Hb];
      [|by destruct b as [[] [] [] [] [] [] [] []]; try done; destruct Hb].
    pose proof (untilBrace_app rest) as Happ.
    destruct (untilBrace rest) as [[|c ref] tail]; [done|].
    destruct tail as [|d after']; [done|].
    destruct (Ascii.eqb_spec d "}") as [->|Hd];
      [|by destruct d as [[] [] [] [] [] [] [] []]; try done; destruct Hd].
    intros [= <- <-]. simpl in Happ. rewrite <- Happ. simpl.
    rewrite length_append. simpl. lia.
Qed.

Section Replace.
Variable callback : string -> result string.

(** Fuel above the length of the text is never used up. *)
Lemma replaceVariables_fuel fuel fuel' text :
  String.length text < fuel -> String.length text < fuel' ->
  replaceVariables fuel callback text = replaceVariables fuel' callback text.
Proof.
  revert fuel' text. induction fuel as [|fuel IH]; intros fuel' text H1 H2; [lia|].
  destruct fuel' as [|fuel']; [lia|]. simpl.
  destruct text as [|c rest]; [done|].
  destruct (matchVariableAt (String c rest)) as [[varRef after]|] eqn:E.
  - apply matchVariableAt_shorter in E.
    destruct (callback varRef); simpl; [|done].
    rewrite (IH fuel' after); [done| |]; simpl in *; lia.
  - rewrite (IH fuel' rest); [done| |]; simpl in *; lia.
Qed.

Local Abbreviation run text :=
  (replaceVariables (S (String.length text)) callback text).

(** The replacement, one step at a time. *)
Lemma replaceVariables_step c rest :
  run (String c rest) =
  match matchVariableAt (String c rest) with
  | Some (varRef, after) =>
      replacement ← callback varRef; tail ← run after; Ok (replacement +:+ tail)
  | None => tail ← run rest; Ok (String c tail)
  end.
Proof.
  change (replaceVariables (S ?n) callback (String c rest)) with
    (match matchVariableAt (String c rest) with
     | Some (varRef, after) =>
         replacement ← callback varRef;
         tail ← replaceVariables n callback after;
         Ok (replacement +:+ tail)
     | None => tail ← replaceVariables n callback rest; Ok (String c tail)
     end).
  destruct (matchVariableAt (String c rest)) as [[varRef after]|] eqn:E.
  - apply matchVariableAt_shorter in E.
    rewrite (replaceVariables_fuel _ (S (String.length after)) after); [done| |lia].
    simpl in *. lia.
  - rewrite (replaceVariables_fuel _ (S (String.length rest)) rest); [done| |lia].
    simpl. lia.
Qed.

(** Text without [${] in front of a dollar sign is copied. *)
Lemma replaceVariables_prefix (pre rest : string) :
  Str.includes "${" pre = false ->
  run (pre +:+ String "$" rest) =
  (tail ← run (String "$" rest); Ok (pre +:+ tail)).
Proof.
  induction pre as [|c pre IH]; intros Hpre.
  - rewrite append_nil. destruct (run (String "$" rest)); [|done].
    simpl. by rewrite append_nil.
  - rewrite append_cons, replaceVariables_step.
    assert (Hnone : matchVariableAt (String c (pre +:+ String "$" rest)) = None).
    { simpl in Hpre. apply orb_false_iff in Hpre as [Hstart _].
      unfold matchVariableAt.
      destruct (Ascii.eqb_spec c "$") as [->|Hc];
        [|by destruct c as [[] [] [] [] [] [] [] []]; try done; destruct Hc].
      destruct pre as [|d pre]; [done|]. rewrite append_cons.
      destruct (Ascii.eqb_spec d "{") as [->|Hd];
        [done | by destruct d as [[] [] [] [] [] [] [] []]; try done; destruct Hd]. }
    rewrite Hnone, IH.
    + destruct (run (String "$" rest)); [|done]. simpl. by rewrite append_cons.
    + simpl in Hpre. by apply orb_false_iff in Hpre as [_ ?].
Qed.

Lemma untilBrace_reference (name post : string) :
  braceFree name -> untilBrace (name +:+ String "}" post) = (name, String "}" post).
Proof.
  induction name as [|c name IH]; intros Hfree; [done|].
  rewrite append_cons. simpl.
  destruct (Ascii.eqb_spec c "}") as [->|Hc].
  - exfalso. apply (Hfree "}"%char); [by left | done].
  - rewrite IH; [done|]. intros d Hd. apply Hfree. by right.
Qed.

(** [${name}] is a match of the pattern and captures [name]. *)
Lemma matchVariableAt_reference (name post : string) :
  name <> "" -> braceFree name ->
  matchVariableAt ("${" +:+ name +:+ "}" +:+ post) = Some (name, post).
Proof.
  intros Hname Hfree.
  change (matchVariableAt (String "$" (String "{" (name +:+ String "}" post)))
          = Some (name, post)).
  unfold matchVariableAt. rewrite untilBrace_reference by done.
  by destruct name.
Qed.

(** The replacement around one interpolation. *)
Lemma replaceVariables_reference (pre name post : string) :
  Str.includes "${" pre = false -> name <> "" -> braceFree name ->
  run (pre +:+ "${" +:+ name +:+ "}" +:+ post) =
  (replacement ← callback name; tail ← run post; Ok (pre +:+ replacement +:+ tail)).
Proof.
  intros Hpre Hname Hfree.
  change ("${" +:+ name +:+ "}" +:+ post) with (String "$" ("{" +:+ name +:+ "}" +:+ post)).
  rewrite replaceVariables_prefix by done. rewrite replaceVariables_step.
  change (String "$" ("{" +:+ name +:+ "}" +:+ post)) with ("${" +:+ name +:+ "}" +:+ post).
  rewrite matchVariableAt_reference by done.
  destruct (callback name) as [replacement|]; [|done].
  generalize (run post). by intros [tail|e].
Qed.

End Replace.

Section Interpolation.
Variable hostInherited : Js.value -> string -> option Js.value.
Variable variables : Js.object.

Local Abbreviation resolve varRef :=
  (resolveVariableReference hostInherited varRef variables).
Local Abbreviation process text := (processString hostInherited text variables).


Lemma substitute_ok (name : string) v str :
  resolve (Str.trim name) = Ok v ->
  sanitiseResolvedValue hostInherited v = Ok str ->
  substitute hostInherited variables name = Ok str.
Proof. intros Hv Hs. unfold substitute. rewrite Hv. simpl. by rewrite Hs. Qed.



(** [in] follows the prototype chain: a name of [Object.prototype] that
    the variables do not hold resolves to what they inherit. *)
Lemma inherited_name_resolves (kvs : list (string * Js.value)) :
  Js.hasOwnProperty (Js.literal kvs) "toString" = false ->
  resolveVariableReference hostInherited "toString" (Js.literal kvs) =
  Ok (Js.VFunction "toString").
Proof.
  intros Hown.
  assert (Hsome : Js.getFrom hostInherited Js.VObjectPrototype
                    (Js.ofObject (Js.literal kvs)) "toString" =
                  Some (Js.VFunction "toString")).
  { unfold Js.ofObject, Js.literal. cbn [Js.objProto Js.objProps Js.getFrom].
    unfold Js.hasOwnProperty in Hown. cbn [Js.objProps Js.literal] in Hown.
    destruct (Js.ownLookup "toString" _) as [[? ?]|]; [|done].
    by rewrite bool_decide_true in Hown. }
  unfold resolveVariableReference.
  change (isValidVariableReference "toString") with true.
  change (parseVariableReference "toString") with (Ok [Property "toString"]).
  cbn [negb mbind result_bind resolveParts resolveStep].
  change (Js.isObjectLike (Js.ofObject (Js.literal kvs))) with true.
  unfold Js.hasProperty, Js.get.
  change (Js.prototypeOf hostInherited (Js.ofObject (Js.literal kvs)))
    with Js.VObjectPrototype.
  rewrite Hsome. by rewrite bool_decide_true by done.
Qed.


End Interpolation.


(** The example of the specification. *)
Example about_topic :
  processString Demo.inherited "About ${topic}" (Js.literal [("topic", Js.VString "x")])
  = Ok "About x".
Proof. vm_compute. reflexivity. Qed.

End Interpolation.

(* ================================================================== *)
(** * Expressions *)
(* ================================================================== *)

Module Expressions.
Import Js Evaluator Variables Spec.

Lemma nthZ_last {A} (xs : list A) :
  xs <> [] -> nthZ xs (Z.of_nat (length xs) + -1) = last xs.
Proof.
  intros Hne. unfold nthZ.
  destruct xs as [|x xs]; [done|]. clear Hne.
  replace (Z.of_nat (length (x :: xs)) + -1)%Z with (Z.of_nat (length xs))
    by (simpl length; lia).
  rewrite Nat2Z.id.
  destruct (Z.leb_spec 0 (Z.of_nat (length xs))); [|lia].
  destruct (Z.ltb_spec (Z.of_nat (length xs)) (Z.of_nat (length (x :: xs))));
    [|simpl length in *; lia].
  simpl andb. cbv iota. rewrite last_lookup. done.
Qed.

Section Expressions.
Variable hostInherited : value -> string -> option value.
Variable jsep : string -> result node.
Variables looseEquals strictEquals : value -> value -> bool.
Variable lessThan : value -> value -> option bool.
Variables toNumber negate : value -> value.
Variable maxExpressionLength : Z.

Local Abbreviation eval n variables :=
  (evaluateASTNode hostInherited looseEquals strictEquals lessThan toNumber negate
     n variables).
Local Abbreviation condition c variables :=
  (evaluateCondition hostInherited jsep looseEquals strictEquals lessThan toNumber
     negate maxExpressionLength c variables).

(** ** Array indices *)

(** An index outside the array is an error of the bounds check. *)
Lemma validatePropertyAccess_out_of_range (items : list value) (index : Z) :
  (index < - Z.of_nat (length items) \/ Z.of_nat (length items) <= index)%Z ->
  validatePropertyAccess (VArray items) (VNum index) = Throw (outOfBounds index).
Proof.
  intros Hout. unfold validatePropertyAccess. simpl.
  destruct (Z.ltb_spec index 0).
  - destruct (Z.ltb_spec (Z.of_nat (length items) + index) 0); [done|lia].
  - destruct (Z.geb_spec index (Z.of_nat (length items))); [done|lia].
Qed.

(** A negative index inside the array passes the bounds check. *)
Lemma validatePropertyAccess_negative (items : list value) (index : Z) :
  (- Z.of_nat (length items) <= index < 0)%Z ->
  validatePropertyAccess (VArray items) (VNum index) = Ok tt.
Proof.
  intros Hin. unfold validatePropertyAccess. simpl.
  destruct (Z.ltb_spec index 0); [|lia].
  destruct (Z.ltb_spec (Z.of_nat (length items) + index) 0); [lia|].
  destruct (Z.geb_spec (Z.of_nat (length items) + index) (Z.of_nat (length items)));
    [lia|done].
Qed.

(** Through interpolation an index outside the array is a variable
    error. *)
Lemma resolveStep_out_of_range varRef (items : list value) (index : Z) :
  (index < - Z.of_nat (length items) \/ Z.of_nat (length items) <= index)%Z ->
  resolveStep hostInherited varRef (VArray items) (Index index) =
  Throw (indexOutOfBounds index (length items) varRef).
Proof.
  intros Hout. unfold resolveStep.
  destruct (Z.ltb_spec index 0).
  - destruct (Z.ltb_spec (Z.of_nat (length items) + index) 0); [done|lia].
  - destruct (Z.geb_spec index (Z.of_nat (length items))); [done|lia].
Qed.

(** C3, the interpolation half: [${items[-1]}] resolves to the last
    element of a non-empty array. *)
Lemma interpolation_last_item (items : list value) :
  items <> [] ->
  exists x, last items = Some x /\
    resolveVariableReference hostInherited "items[-1]"
      (literal [("items", VArray items)]) = Ok x.
Proof.
  intros Hne. destruct (last items) as [x|] eqn:Hlast.
  2:{ apply last_None in Hlast. done. }
  exists x. split; [done|].
  unfold resolveVariableReference.
  change (isValidVariableReference "items[-1]") with true.
  change (parseVariableReference "items[-1]") with (Ok [Property "items"; Index (-1)]).
  cbn [negb mbind result_bind resolveParts resolveStep].
  change (Js.hasProperty hostInherited "items" _) with true.
  change (Js.get hostInherited (ofObject (literal [("items", VArray items)])) "items")
    with (VArray items).
  cbn -[Z.add Z.of_nat nthZ Z.ltb Z.geb].
  set (n := Z.of_nat (length items)).
  assert (0 < n)%Z by (unfold n; destruct items; [done | simpl length; lia]).
  destruct (Z.ltb_spec (n + -1) 0); [lia|].
  destruct (Z.geb_spec (n + -1) n); [lia|]. simpl.
  unfold n. by rewrite nthZ_last, Hlast.
Qed.

(** C3, the expression half, as the code has it: the bounds check
    accepts [items[-1]] and the read that follows it uses the index as
    it is, a key no array holds, so the value is [undefined] and not
    the last element. *)
Theorem C3_expression_last_item_undefined (items : list value) :
  items <> [] ->
  hostInherited (VArray items) "-1" = None ->
  eval lastItem (literal [("items", VArray items)]) = Ok VUndefined.
Proof.
  intros Hne Hhost. unfold lastItem.
  cbn [evaluateASTNode].
  change (Js.hasProperty hostInherited "items" _) with true.
  change (Js.get hostInherited (ofObject (literal [("items", VArray items)])) "items")
    with (VArray items).
  cbn [negb mbind result_bind String.eqb Ascii.eqb Bool.eqb orb andb unaryMinus Z.opp].
  rewrite validatePropertyAccess_negative.
  2:{ destruct items; [done | simpl length; lia]. }
  cbn [mbind result_bind]. unfold getProperty.
  change (toStr hostInherited (VNum _)) with (Ok "-1").
  cbn [mbind result_bind]. unfold get. cbn [getFrom].
  change ("-1" =? "length")%string with false.
  change (parseIndex "-1") with (@None Z). cbv iota.
  by rewrite Hhost.
Qed.

(** ** Identifiers *)

(** Whatever the [try] block of [evaluateCondition] throws is wrapped
    into the failure that names the expression. *)
Lemma evaluateCondition_wraps c ast variables e :
  validateConditionSecurity maxExpressionLength c = Ok tt ->
  jsep c = Ok ast ->
  eval ast variables = Throw e ->
  condition c variables = Throw (evaluationFailure c e).
Proof.
  intros Hsec Hparse He. unfold evaluateCondition.
  rewrite Hsec, Hparse. simpl. by rewrite He.
Qed.

(** A name that the variables neither hold nor inherit raises the
    undefined-variable error. *)
Lemma undefined_identifier_raises name (kvs : list (string * value)) :
  hasOwnProperty (literal kvs) name = false ->
  inObjectPrototype name = false ->
  eval (Identifier name) (literal kvs) =
  Throw (plainError ("Variable '" +:+ name +:+ "' is not defined")).
Proof.
  intros Hown Hproto. cbn [evaluateASTNode].
  assert (Hnone : getFrom hostInherited VObjectPrototype
                    (ofObject (literal kvs)) name = None).
  { unfold ofObject, literal. cbn [objProto objProps getFrom].
    unfold hasOwnProperty in Hown. cbn [objProps literal] in Hown.
    destruct (ownLookup name _) as [[? ?]|]; [by rewrite bool_decide_true in Hown|].
    rewrite Hproto.
    destruct (name =? "__proto__")%string eqn:E1.
    { apply String.eqb_eq in E1. subst. done. }
    destruct (name =? "constructor")%string eqn:E2; [|done].
    apply String.eqb_eq in E2. subst. done. }
  unfold hasProperty. change (prototypeOf hostInherited (ofObject (literal kvs)))
    with VObjectPrototype. rewrite Hnone.
  by rewrite bool_decide_false by (by intros [? ?]).
Qed.

(** C9, as the code has it: [in] follows the prototype chain, so a
    name the variables do not hold but [Object.prototype] does, such
    as [toString], is taken as defined; the condition [toString]
    evaluates to [true] instead of raising the undefined-variable
    error. *)
Theorem C9_inherited_name_not_an_error (kvs : list (string * value)) :
  hasOwnProperty (literal kvs) "toString" = false ->
  jsep "toString" = Ok (Identifier "toString") ->
  (8 <= maxExpressionLength)%Z ->
  eval (Identifier "toString") (literal kvs) = Ok (VFunction "toString") /\
  eval (UnaryExpression "!" (Identifier "toString")) (literal kvs) = Ok (VBool false) /\
  condition "toString" (literal kvs) = Ok true.
Proof.
  intros Hown Hparse Hmax.
  assert (Heval : eval (Identifier "toString") (literal kvs) = Ok (VFunction "toString")).
  { cbn [evaluateASTNode].
    assert (Hsome : getFrom hostInherited VObjectPrototype
                      (ofObject (literal kvs)) "toString" = Some (VFunction "toString")).
    { unfold ofObject, literal. cbn [objProto objProps getFrom].
      unfold hasOwnProperty in Hown. cbn [objProps literal] in Hown.
      destruct (ownLookup "toString" _) as [[? ?]|]; [|done].
      by rewrite bool_decide_true in Hown. }
    unfold hasProperty, get.
    change (prototypeOf hostInherited (ofObject (literal kvs))) with VObjectPrototype.
    rewrite Hsome. by rewrite bool_decide_true by done. }
  split; [exact Heval|]. split.
  { change (eval (UnaryExpression "!" (Identifier "toString")) (literal kvs))
      with (v ← eval (Identifier "toString") (literal kvs);
            Ok (VBool (negb (truthy v)))).
    by rewrite Heval. }
  unfold evaluateCondition.
  assert (Hsec : validateConditionSecurity maxExpressionLength "toString" = Ok tt).
  { unfold validateConditionSecurity.
    destruct (Z.gtb_spec (len "toString") maxExpressionLength) as [Hgt|_].
    - unfold len in Hgt. simpl in Hgt. lia.
    - vm_compute. reflexivity. }
  rewrite Hsec, Hparse. cbn [mbind result_bind]. by rewrite Heval.
Qed.

End Expressions.

Lemma C3_expression_last_item_undefined_witness :
  let items := [VString "a"; VString "b"; VString "c"] in
  items <> [] /\ Demo.inherited (VArray items) "-1" = None /\
  evaluateASTNode Demo.inherited Demo.equals Demo.equals Demo.lessThan Demo.toNumber
    Demo.toNumber lastItem (literal [("items", VArray items)]) = Ok VUndefined.
Proof.
  intros items.
  assert (H1 : items <> []) by discriminate.
  split; [exact H1|]. split; [reflexivity|].
  exact (C3_expression_last_item_undefined Demo.inherited Demo.equals Demo.equals
           Demo.lessThan Demo.toNumber Demo.toNumber items H1 eq_refl).
Defined.

Lemma C9_inherited_name_not_an_error_witness :
  hasOwnProperty (literal []) "toString" = false /\
  Demo.jsep "toString" = Ok (Identifier "toString") /\
  Demo.evaluateCondition "toString" (literal []) = Ok true.
Proof.
  split; [reflexivity|]. split; [reflexivity|].
  refine (proj2 (proj2 (C9_inherited_name_not_an_error Demo.inherited Demo.jsep
                          Demo.equals Demo.equals Demo.lessThan Demo.toNumber
                          Demo.toNumber 500 [] eq_refl eq_refl _))).
  lia.
Defined.

End Expressions.

(* ================================================================== *)
(** * Dangerous keys in variables *)
(* ================================================================== *)

Module DangerousKeys.
Import Js Security Spec Loader Compiler.

(** Induction over values, through the nested lists. *)
Lemma value_nested_ind (P : value -> Prop) :
  P VUndefined -> P VNull -> (forall b, P (VBool b)) -> (forall z, P (VNum z)) ->
  (forall s, P (VString s)) ->
  (forall items, Forall P items -> P (VArray items)) ->
  (forall proto ps, P proto -> Forall (fun kp => P kp.2.2) ps -> P (VObject proto ps)) ->
  P VObjectPrototype -> (forall name, P (VFunction name)) ->
  forall v, P v.
Proof.
  intros Hu Hn Hb Hz Hs Ha Ho Hp Hf. fix IH 1.
  intros [| |b|z|s|items|proto ps| |name];
    [exact Hu | exact Hn | apply Hb | apply Hz | apply Hs | | | exact Hp | apply Hf].
  - apply Ha. induction items as [|x rest IHrest]; constructor; [apply IH | exact IHrest].
  - apply Ho; [apply IH|].
    induction ps as [|[k [e x]] rest IHrest]; constructor; [apply IH | exact IHrest].
Qed.

Lemma securityOnly_bind {A B} (m : result A) (f : A -> result B) :
  securityOnly m -> (forall a, securityOnly (f a)) -> securityOnly (m ≫= f).
Proof. destruct m; simpl; auto. Qed.

Lemma securityOnly_forEach {A} (f : A -> result unit) (xs : list A) :
  (forall x, x ∈ xs -> securityOnly (f x)) -> securityOnly (forEach f xs).
Proof.
  induction xs as [|x xs IH]; intros H; simpl; [done|].
  apply securityOnly_bind; [apply H; by left|].
  intros _. apply IH. intros y Hy. apply H. by right.
Qed.

Lemma securityOnly_guard (b : bool) (e : error) :
  isSecurityError e = true -> securityOnly (if b then Throw e else Ok tt).
Proof. by destruct b. Qed.

Lemma validateTextContent_securityOnly text : securityOnly (validateTextContent text).
Proof.
  apply securityOnly_forEach. intros p _. by apply securityOnly_guard.
Qed.

Section Keys.
Variable hostInherited : value -> string -> option value.
Variable parseURL : string -> option URL.
Variable jsonStringify : ITSTemplate -> string.
Variable config : SecurityConfig.

Lemma validateConditionalExpression_securityOnly expression :
  securityOnly (validateConditionalExpression config expression).
Proof.
  apply securityOnly_bind; [by apply securityOnly_guard|].
  intros _. apply securityOnly_forEach. intros p _. by apply securityOnly_guard.
Qed.

Lemma validatePlaceholderConfig_securityOnly v :
  securityOnly (validatePlaceholderConfig v).
Proof.
  induction v as [| | | | |items IH|proto ps _ IH| |] using value_nested_ind;
    try done.
  - simpl. induction IH as [|x rest Hx _ IHrest]; [done|].
    apply securityOnly_bind; [|by intros _].
    destruct x; try done. apply validateTextContent_securityOnly.
  - simpl. induction IH as [|[k [e x]] rest Hx _ IHrest]; [done|].
    apply securityOnly_bind; [|by intros _].
    destruct e; [|done]. simpl in Hx.
    destruct x; try done. apply validateTextContent_securityOnly.
Qed.

Lemma checkDepth_securityOnly depth : securityOnly (checkDepth config depth).
Proof. by apply securityOnly_guard. Qed.

Lemma validateElement_securityOnly depth element :
  securityOnly (validateElement config depth element).
Proof.
  revert depth.
  induction element as [id text|id ty cfg|id condition content else_ IHc IHe]
    using Pruning.ContentElement_nested_ind; intros depth.
  - apply validateTextContent_securityOnly.
  - apply validatePlaceholderConfig_securityOnly.
  - simpl. apply securityOnly_bind; [apply validateConditionalExpression_securityOnly|].
    intros _. apply securityOnly_bind.
    + apply securityOnly_bind; [apply checkDepth_securityOnly|]. intros _.
      apply securityOnly_forEach. intros x Hx.
      rewrite Forall_forall in IHc. by apply IHc.
    + intros _. destruct else_ as [e|]; [|done].
      apply securityOnly_bind; [apply checkDepth_securityOnly|]. intros _.
      apply securityOnly_forEach. intros x Hx.
      simpl in IHe. rewrite Forall_forall in IHe. by apply IHe.
Qed.

Lemma validateContent_securityOnly content depth :
  securityOnly (Security.validateContent config content depth).
Proof.
  apply securityOnly_bind; [apply checkDepth_securityOnly|]. intros _.
  apply securityOnly_forEach. intros x _. apply validateElement_securityOnly.
Qed.

Lemma forEach_ext {A} (f g : A -> result unit) (xs : list A) :
  (forall x, f x = g x) -> forEach f xs = forEach g xs.
Proof.
  intros H. induction xs as [|x xs IH]; simpl; [done|]. by rewrite H, IH.
Qed.

Lemma bind_ext {A B} (m : result A) (f g : A -> result B) :
  (forall x, f x = g x) -> m ≫= f = m ≫= g.
Proof. intros H. destruct m; [apply H|done]. Qed.

(** The fuel of [validateVariables] is never used up: any two supplies
    that cover the levels left give the same answer. *)
Lemma validateVariablesFrom_fuel fuel fuel' (vars : object) path depth :
  Z.to_nat (maxNestingDepth config + 2 - depth) <= fuel -> 1 <= fuel ->
  Z.to_nat (maxNestingDepth config + 2 - depth) <= fuel' -> 1 <= fuel' ->
  validateVariablesFrom hostInherited config fuel vars path depth =
  validateVariablesFrom hostInherited config fuel' vars path depth.
Proof.
  revert fuel' vars path depth.
  induction fuel as [|fuel IH]; intros fuel' vars path depth H1 H2 H3 H4; [lia|].
  destruct fuel' as [|fuel']; [lia|].
  cbn [validateVariablesFrom].
  destruct (Z.gtb_spec depth (maxNestingDepth config)) as [Hdeep|Hdepth]; [done|].
  assert (Hnext : forall (o : object) p,
            validateVariablesFrom hostInherited config fuel o p (depth + 1) =
            validateVariablesFrom hostInherited config fuel' o p (depth + 1)).
  { intros o p. apply IH; lia. }
  do 4 (apply bind_ext; intros _).
  apply forEach_ext. intros [key value]. cbn [fst snd].
  destruct value; try reflexivity; try apply Hnext.
  apply bind_ext; intros _.
  apply forEach_ext. intros [i x]. cbn [fst snd].
  destruct x; try reflexivity; apply Hnext.
Qed.

(** A record of variables with a dangerous own key is rejected, however
    the key got there: the test reads the own property table, not the
    enumerable part of it. *)
Lemma validateVariables_dangerous_key (vars : object) (key path : string) (depth : Z) :
  key ∈ dangerousProps -> hasOwnProperty vars key = true ->
  exists e, validateVariables hostInherited config vars path depth = Throw e /\
            isSecurityError e = true.
Proof.
  intros Hkey Hown. unfold validateVariables.
  cbn [validateVariablesFrom].
  destruct (depth >? maxNestingDepth config)%Z; [by eexists|].
  cbn [mbind result_bind].
  match goal with |- context [if ?c then Throw ?e else Ok tt] =>
    destruct c; [by eexists|] end.
  cbn [mbind result_bind].
  assert (Hloop : exists e,
            forEach (fun prop =>
              if hasOwnProperty vars prop
              then Throw (securityError ("Dangerous property detected: " +:+ prop)
                            "dangerous_property" "MALICIOUS_CONTENT")
              else Ok tt) dangerousProps = Throw e /\ isSecurityError e = true).
  { unfold dangerousProps in *.
    destruct (hasOwnProperty vars "__proto__") eqn:E1; [by eexists; simpl; rewrite E1|].
    destruct (hasOwnProperty vars "constructor") eqn:E2;
      [by eexists; simpl; rewrite E1, E2|].
    destruct (hasOwnProperty vars "prototype") eqn:E3;
      [by eexists; simpl; rewrite E1, E2, E3|].
    exfalso. repeat (apply elem_of_cons in Hkey as [->|Hkey]; [congruence|]).
    by apply elem_of_nil in Hkey. }
  destruct Hloop as (e & -> & He). by exists e.
Qed.

(** C1, the declared half: a template whose variables hold one of the
    three keys is rejected with a security violation. *)
Lemma declared_dangerous_key_rejected (template : ITSTemplate) (vars : object)
    (key : string) :
  variables template = Some vars ->
  key ∈ dangerousProps -> hasOwnProperty vars key = true ->
  exists e, Security.validateTemplate hostInherited parseURL jsonStringify config template
              = Throw e /\ isSecurityError e = true.
Proof.
  intros Hvars Hkey Hown. unfold Security.validateTemplate.
  match goal with |- context [if ?c then Throw ?e else Ok tt] =>
    destruct c; [by eexists|] end.
  cbn [mbind result_bind].
  match goal with |- context [if ?c then Throw ?e else Ok tt] =>
    destruct c; [by eexists|] end.
  cbn [mbind result_bind].
  pose proof (validateContent_securityOnly (content template) 0) as Hcontent.
  destruct (Security.validateContent config (content template) 0) as [[]|e]; [|by exists e].
  cbn [mbind result_bind]. rewrite Hvars.
  destruct (validateVariables_dangerous_key vars key "" 0 Hkey Hown) as (e & -> & He).
  by exists e.
Qed.

End Keys.

Section Compile.
Variable hostInherited : value -> string -> option value.
Variable parseURL : string -> option URL.
Variable resolveRelative : string -> string -> option string.
Variable jsonParse : string -> result value.
Variable clock : nat -> Z.
Variable network : nat -> string -> fetchOutcome.
Variable jsonStringify : ITSTemplate -> string.
Variable stringifyContent : list ContentElement -> string.
Variable jsep : string -> result Evaluator.node.
Variables looseEquals strictEquals : value -> value -> bool.
Variable lessThan : value -> value -> option bool.
Variables toNumber negate : value -> value.

Local Abbreviation compileDefault :=
  (compile hostInherited parseURL resolveRelative jsonParse clock network
     jsonStringify stringifyContent jsep looseEquals strictEquals lessThan
     toNumber negate DEFAULT_SECURITY_CONFIG).

(** The serialisation of the template is within the size limit and
    that of its content shows no interpolation. *)
Hypothesis size_ok : (len (jsonStringify mockTemplate) <= 1024 * 1024)%Z.
Hypothesis no_references :
  Variables.findVariableReferences stringifyContent (content mockTemplate) = [].

Lemma validateTemplate_mock :
  Security.validateTemplate hostInherited parseURL jsonStringify
    DEFAULT_SECURITY_CONFIG mockTemplate = Ok tt.
Proof using size_ok.
  unfold Security.validateTemplate.
  change (maxTemplateSize DEFAULT_SECURITY_CONFIG) with (1024 * 1024)%Z.
  destruct (Z.gtb_spec (len (jsonStringify mockTemplate)) (1024 * 1024)); [lia|].
  vm_compute. reflexivity.
Qed.

Lemma loadInstructionTypes_mock (w : World) :
  loadInstructionTypes hostInherited parseURL resolveRelative jsonParse clock network
    DEFAULT_SECURITY_CONFIG mockTemplate None w = (Ok (literal [], []), w).
Proof. reflexivity. Qed.

Lemma validate_mock (w : World) :
  validate hostInherited parseURL resolveRelative jsonParse clock network
    jsonStringify stringifyContent DEFAULT_SECURITY_CONFIG mockTemplate None w =
  (Ok (mkValidation true [] [] []), w).
Proof using size_ok no_references.
  unfold validate, Compiler.validateTemplate.
  rewrite validateTemplate_mock, loadInstructionTypes_mock.
  unfold Variables.validateVariables. rewrite no_references. reflexivity.
Qed.

(** [compile] never looks at the variables of its caller: whatever
    they are, the mock template compiles and they are in the store of
    the compilation. *)
Lemma compile_mock (callerVariables : option object) (w : World) :
  compileDefault mockTemplate callerVariables None w =
  (Ok (mkResult (assemblePrompt mockTemplate ["Hello world"]) mockTemplate
         (spread (literal []) (default (literal []) callerVariables)) [] []),
   w).
Proof using size_ok no_references.
  unfold compile, rethrowSt, compileSteps, mbind, St_bind, lift.
  unfold Compiler.validateTemplate.
  rewrite validateTemplate_mock, validate_mock. cbn [isValid negb mret St_ret].
  rewrite loadInstructionTypes_mock. reflexivity.
Qed.

(** C1, as the code has it: the security validation of [compile] reads
    the variables the template declares and nothing else. A caller's
    record with one of the three keys is merged into the store of the
    compilation without any check, and the compilation succeeds; the
    same record declared in the template is rejected. *)
Theorem C1_caller_variables_not_validated (key : string) (v : value) (w : World) :
  key ∈ dangerousProps ->
  (exists r,
     compileDefault mockTemplate (Some (literal [(key, v)])) None w = (Ok r, w) /\
     hasOwnProperty (resultVariables r) key = true) /\
  (exists e,
     Security.validateTemplate hostInherited parseURL jsonStringify
       DEFAULT_SECURITY_CONFIG (mockTemplateWith (literal [(key, v)])) = Throw e /\
     isSecurityError e = true).
Proof using size_ok no_references.
  intros Hkey. split.
  - eexists. split; [apply compile_mock|].
    unfold dangerousProps in Hkey.
    repeat (apply elem_of_cons in Hkey as [->|Hkey]; [reflexivity|]).
    by apply elem_of_nil in Hkey.
  - apply (declared_dangerous_key_rejected _ _ _ _ _ (literal [(key, v)]) key);
      [done | done |].
    unfold hasOwnProperty. simpl. by rewrite String.eqb_refl.
Qed.

End Compile.

Lemma C1_caller_variables_not_validated_witness :
  ((len (Demo.stringifyTemplate mockTemplate) <= 1024 * 1024)%Z /\
   Variables.findVariableReferences Demo.stringifyContent (content mockTemplate) = [] /\
   "constructor" ∈ dangerousProps) /\
  exists r,
    compile Demo.inherited Demo.parseURL Demo.resolveRelative Demo.jsonParse
      Demo.clock Demo.network Demo.stringifyTemplate Demo.stringifyContent Demo.jsep
      Demo.equals Demo.equals Demo.lessThan Demo.toNumber Demo.toNumber
      DEFAULT_SECURITY_CONFIG mockTemplate
      (Some (literal [("constructor", VString "x")])) None Demo.world
    = (Ok r, Demo.world) /\
    hasOwnProperty (resultVariables r) "constructor" = true.
Proof.
  assert (H1 : (len (Demo.stringifyTemplate mockTemplate) <= 1024 * 1024)%Z)
    by (vm_compute; discriminate).
  assert (H2 : Variables.findVariableReferences Demo.stringifyContent
                 (content mockTemplate) = []) by reflexivity.
  assert (H3 : "constructor" ∈ dangerousProps).
  { unfold dangerousProps. apply elem_of_cons. right. apply elem_of_cons. by left. }
  split; [auto|].
  exact (proj1 (C1_caller_variables_not_validated Demo.inherited Demo.parseURL
                  Demo.resolveRelative Demo.jsonParse Demo.clock Demo.network
                  Demo.stringifyTemplate Demo.stringifyContent Demo.jsep
                  Demo.equals Demo.equals Demo.lessThan Demo.toNumber Demo.toNumber
                  H1 H2 "constructor" (VString "x") Demo.world H3)).
Defined.

End DangerousKeys.

(* ================================================================== *)
(** * Overrides of instruction types *)
(* ================================================================== *)

Module Overrides.
Import Js Spec Loader Compiler.

Section Overrides.
Variable hostInherited : value -> string -> option value.
Variable parseURL : string -> option URL.
Variable resolveRelative : string -> string -> option string.
Variable jsonParse : string -> result value.
Variable clock : nat -> Z.
Variable network : nat -> string -> fetchOutcome.
Variable securityConfig : SecurityConfig.

Local Abbreviation load :=
  (Compiler.loadSchema hostInherited parseURL resolveRelative jsonParse clock network
     securityConfig).
Local Abbreviation loadTypes :=
  (loadInstructionTypes hostInherited parseURL resolveRelative jsonParse clock network
     securityConfig).
Local Abbreviation layerOver := (layer hostInherited).

Lemma orUnknown_source (source : string) :
  source <> "" -> orUnknown (VString source) = VString source.
Proof.
  intros Hne. unfold orUnknown. simpl.
  destruct (String.eqb_spec source ""); [done|done].
Qed.

(** The types of a schema that defines one type. *)
Lemma schemaTypes_defining name t :
  schemaTypes hostInherited (schemaDefining name t) = [(name, typeDefinition t)].
Proof. reflexivity. Qed.

Lemma definitionOf_typeDefinition t source :
  definitionOf hostInherited (typeDefinition t) source =
  Ok (literal [("template", VString t); ("source", VString source)]).
Proof. reflexivity. Qed.

Lemma loadExtended_cons url rest baseUrl acc w :
  loadExtended hostInherited parseURL resolveRelative jsonParse clock network
    securityConfig (url :: rest) baseUrl acc w =
  match load url baseUrl w with
  | (Ok schema, w') =>
      match layerOver url url SCHEMA_EXTENSION (schemaTypes hostInherited schema) acc with
      | Ok acc' =>
          loadExtended hostInherited parseURL resolveRelative jsonParse clock network
            securityConfig rest baseUrl acc' w'
      | Throw e => (Throw e, w')
      end
  | (Throw e, w') => (Throw e, w')
  end.
Proof.
  cbn [loadExtended]. unfold mbind, St_bind, lift.
  destruct (load url baseUrl w) as [[schema|e] w']; [|done].
  by destruct (layerOver url url SCHEMA_EXTENSION _ acc).
Qed.

(** The two loads, then the layers. *)
Lemma loadTypes_extending a b name t baseUrl w0 w1 w2 sa sb :
  load a baseUrl w0 = (Ok sa, w1) ->
  load b baseUrl w1 = (Ok sb, w2) ->
  loadTypes (extendingTemplate a b name t) baseUrl w0 =
  match layerOver a a SCHEMA_EXTENSION (schemaTypes hostInherited sa) (literal [], []) with
  | Ok acc1 =>
      match layerOver b b SCHEMA_EXTENSION (schemaTypes hostInherited sb) acc1 with
      | Ok acc2 =>
          (layerOver "customInstructionTypes" "custom" CUSTOM
             [(name, typeDefinition t)] acc2, w2)
      | Throw e => (Throw e, w2)
      end
  | Throw e => (Throw e, w1)
  end.
Proof.
  intros Ha Hb. unfold loadInstructionTypes.
  change (default [] (extends (extendingTemplate a b name t))) with [a; b].
  unfold mbind at 1. unfold St_bind at 1.
  rewrite loadExtended_cons, Ha.
  destruct (layerOver a a SCHEMA_EXTENSION _ _) as [acc1|e]; [|done].
  rewrite loadExtended_cons, Hb.
  destruct (layerOver b b SCHEMA_EXTENSION _ _) as [acc2|e]; [|done].
  reflexivity.
Qed.

(** A layer that defines [name] over nothing. *)
Lemma layer_fresh overrideSource source kind name t overrides :
  inObjectPrototype name = false ->
  layerOver overrideSource source kind [(name, typeDefinition t)] (literal [], overrides) =
  Ok (literal [(name, storedDefinition t source)], overrides).
Proof.
  intros Hname.
  assert (Hproto : (name =? "__proto__")%string = false).
  { destruct (String.eqb_spec name "__proto__") as [->|]; [done|done]. }
  assert (Hctor : (name =? "constructor")%string = false).
  { destruct (String.eqb_spec name "constructor") as [->|]; [done|done]. }
  cbn [layer]. rewrite definitionOf_typeDefinition. cbn [mbind result_bind fst snd].
  assert (Hfresh : hasProperty hostInherited name (ofObject (literal [])) = false).
  { unfold hasProperty. cbn [ofObject literal map objProto objProps prototypeOf getFrom
                              ownLookup].
    by rewrite Hproto, Hctor, Hname. }
  rewrite Hfresh.
  assert (Hassign : forall def,
            assign (literal []) name def = literal [(name, def)]).
  { intros def. unfold assign. cbn [objProps literal map ownLookup].
    rewrite Hproto. cbn [andb]. unfold setProp. cbn [ownLookup].
    by destruct (parseIndex name). }
  by rewrite Hassign.
Qed.

(** A layer that defines [name] over an earlier definition of it. *)
Lemma layer_present overrideSource source kind name t t0 source0 overrides :
  source0 <> "" ->
  layerOver overrideSource source kind [(name, typeDefinition t)]
    (literal [(name, storedDefinition t0 source0)], overrides) =
  Ok (literal [(name, storedDefinition t source)],
      overrides ++ [mkOverride name overrideSource (VString source0) kind]).
Proof.
  intros Hsource.
  cbn [layer]. rewrite definitionOf_typeDefinition. cbn [mbind result_bind fst snd].
  assert (Hthere : forall def,
            hasProperty hostInherited name (ofObject (literal [(name, def)])) = true).
  { intros def. unfold hasProperty.
    cbn [ofObject literal map objProto objProps prototypeOf getFrom ownLookup fst snd].
    by rewrite String.eqb_refl. }
  assert (Hget : forall def,
            get hostInherited (ofObject (literal [(name, def)])) name = def).
  { intros def. unfold get.
    cbn [ofObject literal map objProto objProps prototypeOf getFrom ownLookup fst snd].
    by rewrite String.eqb_refl. }
  assert (Hreassign : forall def def',
            assign (literal [(name, def)]) name def' = literal [(name, def')]).
  { intros def def'. unfold assign.
    cbn [objProps objProto literal map ownLookup fst snd].
    rewrite String.eqb_refl. rewrite bool_decide_false by done.
    rewrite andb_false_r. cbn [andb]. unfold setProp.
    cbn [ownLookup fst snd]. rewrite String.eqb_refl. cbn [replaceProp].
    by rewrite String.eqb_refl. }
  rewrite Hthere, Hget, Hreassign.
  change (get hostInherited (storedDefinition t0 source0) "source")
    with (VString source0).
  by rewrite (orUnknown_source source0 Hsource).
Qed.

(** C7 for an ordinary name: when the two schemas and the template
    define the type [name], and [name] is no property of
    [Object.prototype], the definition kept is the template's own and
    the overrides are the two of the claim, in order. *)
Lemma overrides_ordinary_name a b name ta tb tc baseUrl w0 w1 w2 :
  load a baseUrl w0 = (Ok (schemaDefining name ta), w1) ->
  load b baseUrl w1 = (Ok (schemaDefining name tb), w2) ->
  a <> "" -> b <> "" ->
  inObjectPrototype name = false ->
  loadTypes (extendingTemplate a b name tc) baseUrl w0 =
    (Ok (literal [(name, storedDefinition tc "custom")],
         [ mkOverride name b (VString a) SCHEMA_EXTENSION;
           mkOverride name "customInstructionTypes" (VString b) CUSTOM ]),
     w2) /\
  get hostInherited (ofObject (literal [(name, storedDefinition tc "custom")])) name
    = storedDefinition tc "custom".
Proof.
  intros Ha Hb Hane Hbne Hname.
  rewrite (loadTypes_extending _ _ _ _ _ _ _ _ _ _ Ha Hb).
  rewrite !schemaTypes_defining.
  rewrite layer_fresh by done.
  rewrite layer_present by done.
  rewrite layer_present by done.
  split; [reflexivity|].
  unfold get.
  cbn [ofObject literal map objProto objProps prototypeOf getFrom ownLookup fst snd].
  by rewrite String.eqb_refl.
Qed.

(** A layer that defines [constructor] over nothing: the name is found
    in [Object.prototype]. *)
Lemma layer_inherited overrideSource source kind t overrides :
  hostInherited (VFunction "Object") "source" = None ->
  layerOver overrideSource source kind [("constructor", typeDefinition t)]
    (literal [], overrides) =
  Ok (literal [("constructor", storedDefinition t source)],
      overrides ++ [mkOverride "constructor" overrideSource (VString "unknown") kind]).
Proof.
  intros Hhost.
  cbn [layer]. rewrite definitionOf_typeDefinition. cbn [mbind result_bind fst snd].
  change (hasProperty hostInherited "constructor" (ofObject (literal []))) with true.
  cbv iota.
  change (get hostInherited (ofObject (literal [])) "constructor")
    with (VFunction "Object").
  assert (Hsource : get hostInherited (VFunction "Object") "source" = VUndefined).
  { unfold get. cbn [getFrom]. by rewrite Hhost. }
  rewrite Hsource. reflexivity.
Qed.

(** C7, as the code has it: [in] follows the prototype chain, so for a
    type named like a property of [Object.prototype], here
    [constructor], the first definition already counts as an override,
    of an unknown source: three records instead of two. *)
Theorem C7_inherited_name_extra_override a b ta tb tc baseUrl w0 w1 w2 :
  load a baseUrl w0 = (Ok (schemaDefining "constructor" ta), w1) ->
  load b baseUrl w1 = (Ok (schemaDefining "constructor" tb), w2) ->
  a <> "" -> b <> "" ->
  hostInherited (VFunction "Object") "source" = None ->
  loadTypes (extendingTemplate a b "constructor" tc) baseUrl w0 =
    (Ok (literal [("constructor", storedDefinition tc "custom")],
         [ mkOverride "constructor" a (VString "unknown") SCHEMA_EXTENSION;
           mkOverride "constructor" b (VString a) SCHEMA_EXTENSION;
           mkOverride "constructor" "customInstructionTypes" (VString b) CUSTOM ]),
     w2).
Proof.
  intros Ha Hb Hane Hbne Hhost.
  rewrite (loadTypes_extending _ _ _ _ _ _ _ _ _ _ Ha Hb).
  rewrite !schemaTypes_defining.
  rewrite layer_inherited by done.
  rewrite layer_present by done.
  rewrite layer_present by done.
  reflexivity.
Qed.

End Overrides.

Lemma C7_inherited_name_extra_override_witness :
  (Demo.loadSchema Demo.urlA None Demo.world =
     (Ok (schemaDefining "constructor" "From A: {description}"), Demo.worldA) /\
   Demo.loadSchema Demo.urlB None Demo.worldA =
     (Ok (schemaDefining "constructor" "From B: {description}"), Demo.worldB) /\
   Demo.inherited (VFunction "Object") "source" = None) /\
  loadInstructionTypes Demo.inherited Demo.acceptURL Demo.resolveRelative
    Demo.schemaParse Demo.clock Demo.schemaNetwork DEFAULT_SECURITY_CONFIG
    (extendingTemplate Demo.urlA Demo.urlB "constructor" "Mine: {description}")
    None Demo.world =
  (Ok (literal [("constructor", storedDefinition "Mine: {description}" "custom")],
       [ mkOverride "constructor" Demo.urlA (VString "unknown") SCHEMA_EXTENSION;
         mkOverride "constructor" Demo.urlB (VString Demo.urlA) SCHEMA_EXTENSION;
         mkOverride "constructor" "customInstructionTypes" (VString Demo.urlB) CUSTOM ]),
   Demo.worldB).
Proof.
  assert (H1 : Demo.loadSchema Demo.urlA None Demo.world =
               (Ok (schemaDefining "constructor" "From A: {description}"), Demo.worldA))
    by (vm_compute; reflexivity).
  assert (H2 : Demo.loadSchema Demo.urlB None Demo.worldA =
               (Ok (schemaDefining "constructor" "From B: {description}"), Demo.worldB))
    by (vm_compute; reflexivity).
  split; [auto|].
  refine (C7_inherited_name_extra_override Demo.inherited Demo.acceptURL
            Demo.resolveRelative Demo.schemaParse Demo.clock Demo.schemaNetwork
            DEFAULT_SECURITY_CONFIG Demo.urlA Demo.urlB _ _ _ None
            Demo.world Demo.worldA Demo.worldB H1 H2 _ _ eq_refl); discriminate.
Defined.

End Overrides.

(* ================================================================== *)
(** * What the security validator guarantees *)
(* ================================================================== *)

Module ValidatorFacts.
Import Js Security Spec DangerousKeys.

Lemma bind_ok {A} (m : result A) (k : A -> result unit) :
  m ≫= k = Ok tt -> exists a, m = Ok a /\ k a = Ok tt.
Proof. destruct m as [a|e]; simpl; [eauto|done]. Qed.

Lemma seq_ok (m k : result unit) :
  (m ;; k) = Ok tt -> m = Ok tt /\ k = Ok tt.
Proof. intros H. apply bind_ok in H as ([] & H1 & H2). done. Qed.

Lemma forEach_ok {A} (f : A -> result unit) (xs : list A) :
  forEach f xs = Ok tt -> forall x, x ∈ xs -> f x = Ok tt.
Proof.
  induction xs as [|y xs IH]; intros H x Hx; [by apply elem_of_nil in Hx|].
  simpl in H. apply seq_ok in H as [Hy Hrest].
  apply elem_of_cons in Hx as [->|Hx]; [done|]. by apply IH.
Qed.

Lemma guard_ok (b : bool) (e : error) :
  (if b then Throw e else Ok tt) = Ok tt -> b = false.
Proof. by destruct b. Qed.

Section Variables.
Variable hostInherited : value -> string -> option value.
Variable config : SecurityConfig.

Local Abbreviation validateFrom := (validateVariablesFrom hostInherited config).

(** What one accepted call has checked of its record. *)
Lemma accepted_call fuel (o : object) path depth :
  validateFrom fuel o path depth = Ok tt ->
  (depth <= maxNestingDepth config)%Z /\
  (forall key, key ∈ getOwnPropertyNames o -> isDangerousVariableName key = false) /\
  (forall key s, (key, VString s) ∈ entries o -> validateTextContent s = Ok tt) /\
  (forall key items, (key, VArray items) ∈ entries o ->
     (Z.of_nat (length items) <= 1000)%Z /\
     forall s, VString s ∈ items -> validateTextContent s = Ok tt) /\
  (forall key v, (key, v) ∈ entries o -> isRecord v = true ->
     exists fuel' path', validateFrom fuel' (asObject v) path' (depth + 1) = Ok tt) /\
  (forall key items i x, (key, VArray items) ∈ entries o ->
     items !! i = Some x -> isObjectLike x = true ->
     exists fuel' path',
       validateFrom fuel' (literal [(Str.ofNat i, x)]) path' (depth + 1) = Ok tt).
Proof.
  destruct fuel as [|fuel]; [done|]. cbn [validateVariablesFrom]. intros H.
  apply seq_ok in H as [Hdepth H]. apply guard_ok in Hdepth.
  apply seq_ok in H as [_ H]. apply seq_ok in H as [_ H].
  apply seq_ok in H as [Hnames Hvalues].
  split; [lia|]. split.
  { intros key Hkey. apply (forEach_ok _ _ Hnames) in Hkey. by apply guard_ok in Hkey. }
  pose proof (forEach_ok _ _ Hvalues) as Hentry. clear Hvalues Hnames.
  split; [|split; [|split]].
  - intros key s Hin. by apply Hentry in Hin.
  - intros key items Hin. apply Hentry in Hin. cbn [fst snd] in Hin.
    apply seq_ok in Hin as [Hsize Hitems]. apply guard_ok in Hsize.
    split; [lia|]. intros s Hs.
    apply list_elem_of_lookup in Hs as [i Hi].
    assert (Hiv : (i, VString s) ∈ imap pair items).
    { apply list_elem_of_lookup. exists i. by rewrite list_lookup_imap, Hi. }
    by apply (forEach_ok _ _ Hitems) in Hiv.
  - intros key v Hin Hrec. apply Hentry in Hin. cbn [fst snd] in Hin.
    destruct v; try done; eauto.
  - intros key items i x Hin Hi Hobj. apply Hentry in Hin. cbn [fst snd] in Hin.
    apply seq_ok in Hin as [_ Hitems].
    assert (Hiv : (i, x) ∈ imap pair items).
    { apply list_elem_of_lookup. exists i. by rewrite list_lookup_imap, Hi. }
    apply (forEach_ok _ _ Hitems) in Hiv. cbn [fst snd] in Hiv.
    destruct x; try done; eauto.
Qed.

(** An accepted call has accepted every record it reaches. *)
Lemma accepted_nested fuel (root : object) path depth n (o : object) :
  validateFrom fuel root path depth = Ok tt ->
  Nested root n o ->
  exists fuel' path', validateFrom fuel' o path' (depth + Z.of_nat n) = Ok tt.
Proof.
  intros Hroot Hn. induction Hn as [|n o key v _ IH Hin Hrec|n o key items i x _ IH Hin Hi Hx].
  - exists fuel, path. by rewrite Z.add_0_r.
  - destruct IH as (f & p & H). apply accepted_call in H as (_ & _ & _ & _ & H & _).
    destruct (H key v Hin Hrec) as (f' & p' & H').
    exists f', p'. by replace (depth + Z.of_nat (S n))%Z with (depth + Z.of_nat n + 1)%Z by lia.
  - destruct IH as (f & p & H). apply accepted_call in H as (_ & _ & _ & _ & _ & H).
    destruct (H key items i x Hin Hi Hx) as (f' & p' & H').
    exists f', p'. by replace (depth + Z.of_nat (S n))%Z with (depth + Z.of_nat n + 1)%Z by lia.
Qed.

Lemma member_false x xs : member x xs = false -> x ∉ xs.
Proof.
  unfold member. intros H Hin.
  assert (existsb (String.eqb x) xs = true); [|congruence].
  apply existsb_exists. exists x. split; [by apply list_elem_of_In|apply String.eqb_refl].
Qed.

(** X1. In accepted variables no record, at any level the validator
    reaches, has an own key with a dangerous name: none that starts with
    two underscores and none that is, in any letter case, on the list.
    Keys that are not enumerable count as well. *)
Theorem accepted_variables_names (root : object) path depth n (o : object) key :
  validateVariables hostInherited config root path depth = Ok tt ->
  Nested root n o ->
  key ∈ getOwnPropertyNames o ->
  Str.startsWith "__" key = false /\ Str.toLowerCase key ∉ dangerousNames.
Proof.
  intros Hroot Hn Hkey.
  destruct (accepted_nested _ _ _ _ _ _ Hroot Hn) as (f & p & H).
  apply accepted_call in H as (_ & Hnames & _).
  apply Hnames in Hkey. unfold isDangerousVariableName in Hkey.
  apply orb_false_iff in Hkey as [Hlist Hprefix].
  split; [done|]. by apply member_false.
Qed.

(** X2. Accepted variables are bounded: a record the validator reaches
    after [n] nested calls lies within the nesting limit, and every
    array it holds has at most 1000 items. *)
Theorem accepted_variables_bounded (root : object) path depth n (o : object) :
  validateVariables hostInherited config root path depth = Ok tt ->
  Nested root n o ->
  (depth + Z.of_nat n <= maxNestingDepth config)%Z /\
  forall key items, (key, VArray items) ∈ entries o -> length items <= 1000.
Proof.
  intros Hroot Hn.
  destruct (accepted_nested _ _ _ _ _ _ Hroot Hn) as (f & p & H).
  apply accepted_call in H as (Hdepth & _ & _ & Harrays & _).
  split; [done|]. intros key items Hin. apply Harrays in Hin as [Hsize _]. lia.
Qed.

(** X3. In accepted variables every string, as the value of an
    enumerable property or as an item of an array, at any level the
    validator reaches, has passed the text deny-list. *)
Theorem accepted_variables_strings (root : object) path depth n (o : object) :
  validateVariables hostInherited config root path depth = Ok tt ->
  Nested root n o ->
  (forall key s, (key, VString s) ∈ entries o -> validateTextContent s = Ok tt) /\
  (forall key items s, (key, VArray items) ∈ entries o -> VString s ∈ items ->
     validateTextContent s = Ok tt).
Proof.
  intros Hroot Hn.
  destruct (accepted_nested _ _ _ _ _ _ Hroot Hn) as (f & p & H).
  apply accepted_call in H as (_ & _ & Hstrings & Harrays & _).
  split; [done|]. intros key items s Hin Hs. by apply (Harrays key items Hin).
Qed.

End Variables.

Lemma account_accepted :
  validateVariables Demo.inherited DEFAULT_SECURITY_CONFIG Demo.account "" 0 = Ok tt.
Proof. vm_compute. reflexivity. Qed.

Lemma profile_nested : Nested Demo.account 1 Demo.profile.
Proof.
  apply (nested_field Demo.account 0 Demo.account "user" (ofObject Demo.profile)).
  - constructor.
  - apply list_elem_of_here.
  - reflexivity.
Qed.

Lemma accepted_variables_names_witness :
  validateVariables Demo.inherited DEFAULT_SECURITY_CONFIG Demo.account "" 0 = Ok tt /\
  Nested Demo.account 1 Demo.profile /\
  "tags" ∈ getOwnPropertyNames Demo.profile /\
  Str.startsWith "__" "tags" = false /\ Str.toLowerCase "tags" ∉ dangerousNames.
Proof.
  assert (Hkey : "tags" ∈ getOwnPropertyNames Demo.profile).
  { apply list_elem_of_further, list_elem_of_here. }
  split; [exact account_accepted|]. split; [exact profile_nested|]. split; [exact Hkey|].
  exact (accepted_variables_names Demo.inherited DEFAULT_SECURITY_CONFIG Demo.account
           "" 0 1 Demo.profile "tags" account_accepted profile_nested Hkey).
Defined.

Lemma accepted_variables_bounded_witness :
  validateVariables Demo.inherited DEFAULT_SECURITY_CONFIG Demo.account "" 0 = Ok tt /\
  Nested Demo.account 1 Demo.profile /\
  (0 + Z.of_nat 1 <= maxNestingDepth DEFAULT_SECURITY_CONFIG)%Z /\
  forall key items, (key, VArray items) ∈ entries Demo.profile -> length items <= 1000.
Proof.
  split; [exact account_accepted|]. split; [exact profile_nested|].
  exact (accepted_variables_bounded Demo.inherited DEFAULT_SECURITY_CONFIG Demo.account
           "" 0 1 Demo.profile account_accepted profile_nested).
Defined.

Lemma accepted_variables_strings_witness :
  validateVariables Demo.inherited DEFAULT_SECURITY_CONFIG Demo.account "" 0 = Ok tt /\
  Nested Demo.account 1 Demo.profile /\
  validateTextContent "Ann" = Ok tt.
Proof.
  split; [exact account_accepted|]. split; [exact profile_nested|].
  refine (proj1 (accepted_variables_strings Demo.inherited DEFAULT_SECURITY_CONFIG
                   Demo.account "" 0 1 Demo.profile account_accepted profile_nested)
            "name" "Ann" _).
  apply list_elem_of_here.
Defined.

Section Template.
Variable hostInherited : value -> string -> option value.
Variable parseURL : string -> option URL.
Variable jsonStringify : ITSTemplate -> string.
Variable config : SecurityConfig.

(** With the calls it can need, [validateVariables] raises nothing but
    security errors: the call stack is never used up. *)
Lemma validateVariablesFrom_securityOnly fuel (vars : object) path depth :
  Z.to_nat (maxNestingDepth config + 2 - depth) <= fuel -> 1 <= fuel ->
  securityOnly (validateVariablesFrom hostInherited config fuel vars path depth).
Proof.
  revert vars path depth.
  induction fuel as [|fuel IH]; intros vars path depth H1 H2; [lia|].
  cbn [validateVariablesFrom].
  destruct (Z.gtb_spec depth (maxNestingDepth config)) as [Hdeep|Hdepth]; [done|].
  assert (Hnext : forall (o : object) p,
            securityOnly (validateVariablesFrom hostInherited config fuel o p (depth + 1))).
  { intros o p. apply IH; lia. }
  cbn [mbind result_bind].
  apply securityOnly_bind; [by apply securityOnly_guard|]. intros _.
  apply securityOnly_bind.
  { apply securityOnly_forEach. intros prop _. by apply securityOnly_guard. }
  intros _. apply securityOnly_bind.
  { apply securityOnly_forEach. intros key _. by apply securityOnly_guard. }
  intros _. apply securityOnly_forEach. intros [key value] _. cbn [fst snd].
  destruct value; try done; try apply Hnext.
  - apply validateTextContent_securityOnly.
  - apply securityOnly_bind; [by apply securityOnly_guard|]. intros _.
    apply securityOnly_forEach. intros [i x] _. cbn [fst snd].
    destruct x; try done; try apply Hnext. apply validateTextContent_securityOnly.
Qed.

Lemma validateSchemaUrl_securityOnly url :
  securityOnly (validateSchemaUrl parseURL config url).
Proof.
  unfold validateSchemaUrl.
  destruct (checkSchemaUrl parseURL config url) as [[]|e]; [done|].
  by destruct (isSecurityError e) eqn:E.
Qed.

Lemma validateTemplate_securityOnly (template : ITSTemplate) :
  securityOnly (Security.validateTemplate hostInherited parseURL jsonStringify config
                  template).
Proof.
  unfold Security.validateTemplate.
  apply securityOnly_bind; [by apply securityOnly_guard|]. intros _.
  apply securityOnly_bind; [by apply securityOnly_guard|]. intros _.
  apply securityOnly_bind; [apply validateContent_securityOnly|]. intros _.
  apply securityOnly_bind.
  { destruct (variables template) as [vars|]; [|done].
    apply validateVariablesFrom_securityOnly; lia. }
  intros _. destruct (extends template) as [urls|]; [|done].
  apply securityOnly_forEach. intros url _. apply validateSchemaUrl_securityOnly.
Qed.


End Template.

End ValidatorFacts.

(* ================================================================== *)
(** * Schema URLs the validator accepts *)
(* ================================================================== *)

Module UrlFacts.
Import Regex RegexSpec RegexFacts RegexFacts2 Security Spec ValidatorFacts.

(** A stretch of the subject that is [needle] itself is matched by the
    literal pattern [needle]. *)
Lemma Matches_lits_exact ci s (l1 l2 : list ascii) (needle : string) :
  s = l1 ++ list_ascii_of_string needle ++ l2 ->
  Matches ci s (lits needle) (length l1) (length l1 + String.length needle).
Proof.
  revert l1. induction needle as [|c needle IH]; intros l1 Hs; simpl.
  - lia.
  - exists (S (length l1)). split.
    + split; [done|]. exists c. split.
      * rewrite Hs. simpl. by rewrite lookup_app_r, Nat.sub_diag by lia.
      * unfold atomMatches. simpl. by rewrite Ascii.eqb_refl.
    + replace (length l1 + S (String.length needle))
        with (length (l1 ++ [c]) + String.length needle)
        by (rewrite length_app; simpl; lia).
      replace (S (length l1)) with (length (l1 ++ [c]))
        by (rewrite length_app; simpl; lia).
      apply IH. rewrite Hs. by rewrite <- app_assoc.
Qed.

(** A host name that begins with the literal [prefix] is in the range
    [^prefix]. *)
Lemma anchored_prefix (prefix rest : string) :
  test false (cat [Bol; lits prefix]) (prefix +:+ rest) = true.
Proof.
  apply (test_complete _ _ _ 0 (String.length prefix)); [lia|].
  apply Matches_cat_cons with 0; [done|].
  apply Matches_cat_cons with (String.length prefix); [|done].
  apply (Matches_lits_exact false _ [] (list_ascii_of_string rest)).
  by rewrite list_ascii_app.
Qed.

Lemma second_octet_range (d1 d2 : ascii) (rest : string) :
  secondOctet d1 d2 = true ->
  isPrivateNetwork ("172." +:+ String d1 (String d2 ("." +:+ rest))) = true.
Proof.
  intros Hd. unfold isPrivateNetwork, privateRanges. cbn [map existsb].
  apply orb_true_iff. right. apply orb_true_iff. left.
  unfold matchesPattern. cbn [ignoreCase body].
  apply (test_complete _ _ _ 0 7); [simpl; lia|].
  set (s := list_ascii_of_string _).
  assert (Hs : s = list_ascii_of_string "172." ++ [d1; d2] ++
                   list_ascii_of_string "." ++ list_ascii_of_string rest).
  { unfold s. rewrite list_ascii_app. simpl. by rewrite list_ascii_app. }
  apply Matches_cat_cons with 0; [done|].
  apply Matches_cat_cons with 4.
  { apply (Matches_lits_exact false s []
             ([d1; d2] ++ list_ascii_of_string "." ++ list_ascii_of_string rest) "172.").
    exact Hs. }
  apply Matches_cat_cons with 6.
  - assert (H1 : s !! 4 = Some d1) by (by rewrite Hs).
    assert (H2 : s !! 5 = Some d2) by (by rewrite Hs).
    unfold secondOctet in Hd.
    apply orb_true_iff in Hd as [Hd|Hd]; [apply orb_true_iff in Hd as [Hd|Hd]|];
      apply andb_true_iff in Hd as [Hd1 Hd2]; apply Ascii.eqb_eq in Hd1; subst d1;
      cbn [oneOf Matches cat lits].
    + left. exists 5. split; [exists 5; split; [|done]|exists 6; split; [|done]].
      * split; [done|]. by exists "1"%char.
      * split; [done|]. exists d2. split; [done|].
        unfold classMatches, atomMatches. simpl. by rewrite Hd2.
    + right. left. exists 5. split; [exists 5; split; [|done]|exists 6; split; [|done]].
      * split; [done|]. by exists "2"%char.
      * split; [done|]. exists d2. split; [done|].
        unfold classMatches, atomMatches. simpl. by rewrite Hd2.
    + right. right. exists 5. split; [exists 5; split; [|done]|exists 6; split; [|done]].
      * split; [done|]. by exists "3"%char.
      * split; [done|]. exists d2. split; [done|].
        unfold classMatches, atomMatches. simpl. by rewrite Hd2.
  - apply Matches_cat_cons with 7; [|done].
    apply (Matches_lits_exact false s (list_ascii_of_string "172." ++ [d1; d2])
             (list_ascii_of_string rest) ".").
    rewrite Hs. by rewrite <- !app_assoc.
Qed.

(** X5. Every host name that begins with [10.], [192.168.], [169.254.]
    or [172.N.] for [N] from 16 to 31 counts as a private network,
    whatever follows the prefix. *)
Theorem private_ranges_blocked (rest : string) :
  isPrivateNetwork ("10." +:+ rest) = true /\
  isPrivateNetwork ("192.168." +:+ rest) = true /\
  isPrivateNetwork ("169.254." +:+ rest) = true /\
  forall n, 16 <= n <= 31 ->
    isPrivateNetwork ("172." +:+ Str.ofNat n +:+ "." +:+ rest) = true.
Proof.
  unfold isPrivateNetwork, privateRanges, matchesPattern.
  cbn [map existsb ignoreCase body].
  split; [|split; [|split]].
  - by rewrite anchored_prefix.
  - rewrite (anchored_prefix "192.168."). by rewrite !orb_true_r.
  - rewrite (anchored_prefix "169.254."). by rewrite !orb_true_r.
  - intros n Hn.
    assert (Hcases : n ∈ seq 16 16).
    { apply elem_of_seq. lia. }
    pose proof (second_octet_range) as Hoctet.
    unfold isPrivateNetwork, privateRanges, matchesPattern in Hoctet.
    cbn [map existsb ignoreCase body] in Hoctet.
    simpl in Hcases.
    repeat (apply elem_of_cons in Hcases as [->|Hcases];
            [by apply (Hoctet _ _ rest)|]).
    by apply elem_of_nil in Hcases.
Qed.

Lemma private_ranges_blocked_witness :
  16 <= 16 <= 31 /\ isPrivateNetwork "172.16.0.1" = true.
Proof.
  assert (H : 16 <= 16 <= 31) by lia.
  split; [exact H|].
  exact (proj2 (proj2 (proj2 (private_ranges_blocked "0.1"))) 16 H).
Defined.

Lemma member_true x xs : member x xs = true <-> x ∈ xs.
Proof.
  unfold member. rewrite existsb_exists. split.
  - intros (y & Hy & Heq). apply String.eqb_eq in Heq as ->. by apply list_elem_of_In.
  - intros H. exists x. split; [by apply list_elem_of_In | apply String.eqb_refl].
Qed.

Lemma member_spec x xs : member x xs = false <-> x ∉ xs.
Proof.
  rewrite <- member_true. by destruct (member x xs).
Qed.

Section Accepted.
Variable parseURL : string -> option URL.
Variable config : SecurityConfig.

(** X6. The URLs [validateSchemaUrl] accepts are exactly those the URL
    parser reads, whose protocol begins with [https:] or, when HTTP is
    allowed, is [http:]; whose host is neither a blocked localhost
    name nor in a blocked private range; whose host is on a non-empty
    allow-list when there is one; and whose path holds no [..]. *)
Theorem accepted_schema_url (url : string) :
  validateSchemaUrl parseURL config url = Ok tt <->
  exists u,
    parseURL url = Some u /\
    (Str.startsWith "https:" (protocol u) = true \/
     allowHttp config = true /\ protocol u = "http:") /\
    (blockLocalhost config = true ->
     Str.toLowerCase (hostname u) ∉ localhostVariants) /\
    (blockPrivateNetworks config = true -> isPrivateNetwork (hostname u) = false) /\
    (forall allowlist, domainAllowlist config = Some allowlist -> allowlist <> [] ->
     isDomainAllowed config (hostname u) = true) /\
    Str.includes ".." (pathname u) = false.
Proof.
  unfold validateSchemaUrl, checkSchemaUrl. split.
  - destruct (parseURL url) as [u|]; [|done]. cbn [mbind result_bind].
    intros H.
    match type of H with match ?m with _ => _ end = _ =>
      destruct m as [[]|e] eqn:Hcheck; [clear H|by destruct (isSecurityError e)] end.
    apply seq_ok in Hcheck as [Hproto Hcheck].
    apply seq_ok in Hcheck as [_ Hcheck].
    apply seq_ok in Hcheck as [Hhost Hcheck].
    apply seq_ok in Hcheck as [Hallow Hpath].
    apply guard_ok in Hpath.
    exists u. split; [done|]. split; [|split; [|split; [|split]]]; [| | | |done].
    + destruct (Str.startsWith "https:" (protocol u)); [by left|]. right.
      simpl in Hproto. apply guard_ok in Hproto.
      apply orb_false_iff in Hproto as [H1 H2].
      apply negb_false_iff in H1, H2. by apply String.eqb_eq in H2.
    + intros Hblock.
      destruct (hostname u =? "")%string eqn:Hempty.
      { apply String.eqb_eq in Hempty as ->. by apply member_spec. }
      simpl in Hhost. unfold validateHostname in Hhost. rewrite Hblock in Hhost.
      apply seq_ok in Hhost as [Hlocal _]. apply guard_ok in Hlocal.
      by apply member_spec.
    + intros Hblock.
      destruct (hostname u =? "")%string eqn:Hempty.
      { by apply String.eqb_eq in Hempty as ->. }
      simpl in Hhost. unfold validateHostname in Hhost. rewrite Hblock in Hhost.
      apply seq_ok in Hhost as [_ Hprivate]. by apply guard_ok in Hprivate.
    + intros allowlist Heq Hne. rewrite Heq in Hallow.
      destruct allowlist as [|d ds]; [done|].
      apply guard_ok in Hallow. by apply negb_false_iff in Hallow.
  - intros (u & -> & Hproto & Hlocal & Hprivate & Hallow & Hpath).
    cbn [mbind result_bind].
    assert (Hfirst : (if negb (Str.startsWith "https:" (protocol u))
                      then if negb (allowHttp config) || negb (protocol u =? "http:")%string
                           then Throw (securityError ("Protocol not allowed: " +:+ protocol u)
                                         "url_protocol" "SSRF_BLOCKED")
                           else Ok tt
                      else Ok tt) = Ok tt).
    { destruct Hproto as [->|[-> ->]]; [done|]. by destruct (Str.startsWith _ _). }
    assert (Hsecond : member (protocol u) dangerousProtocols = false).
    { apply member_spec. intros Hin. unfold dangerousProtocols in Hin.
      destruct Hproto as [Hp|[_ Hp]];
        repeat (apply elem_of_cons in Hin as [Heq|Hin];
                [rewrite Heq in Hp; discriminate|]);
        by apply elem_of_nil in Hin. }
    assert (Hthird : (if negb (hostname u =? "")%string
                      then validateHostname config (hostname u) else Ok tt) = Ok tt).
    { destruct (hostname u =? "")%string; [done|]. simpl. unfold validateHostname.
      destruct (blockLocalhost config).
      - specialize (Hlocal eq_refl). apply member_spec in Hlocal. rewrite Hlocal.
        destruct (blockPrivateNetworks config); [|done]. by rewrite Hprivate.
      - destruct (blockPrivateNetworks config); [|done]. by rewrite Hprivate. }
    rewrite Hfirst, Hsecond, Hthird, Hpath. cbn [mbind result_bind].
    destruct (domainAllowlist config) as [[|d ds]|] eqn:Hlist; try done.
    by rewrite (Hallow (d :: ds)).
Qed.

End Accepted.

End UrlFacts.

(* ================================================================== *)
(** * Content the validator accepts *)
(* ================================================================== *)

Module ContentFacts.
Import Js Security Spec ValidatorFacts.

Section Content.
Variable config : SecurityConfig.

Lemma accepted_within content depth n e :
  Security.validateContent config content depth = Ok tt ->
  Within content n e ->
  (depth + Z.of_nat n <= maxNestingDepth config)%Z /\
  validateElement config (depth + Z.of_nat n) e = Ok tt.
Proof.
  intros Hcontent Hin.
  induction Hin as [e Hin|n id condition branch else_ e _ IH Hin
                   |n id condition branch else_ e _ IH Hin].
  - unfold Security.validateContent in Hcontent.
    apply seq_ok in Hcontent as [Hdepth Hall]. apply guard_ok in Hdepth.
    rewrite Z.add_0_r. split; [lia|]. by apply (forEach_ok _ _ Hall).
  - destruct IH as [_ IH]. cbn [validateElement] in IH.
    apply seq_ok in IH as [_ IH]. apply seq_ok in IH as [IH _].
    apply seq_ok in IH as [Hdepth Hall]. apply guard_ok in Hdepth.
    replace (depth + Z.of_nat (S n))%Z with (depth + Z.of_nat n + 1)%Z by lia.
    split; [lia|]. by apply (forEach_ok _ _ Hall).
  - destruct IH as [_ IH]. cbn [validateElement] in IH.
    apply seq_ok in IH as [_ IH]. apply seq_ok in IH as [_ IH].
    apply seq_ok in IH as [Hdepth Hall]. apply guard_ok in Hdepth.
    replace (depth + Z.of_nat (S n))%Z with (depth + Z.of_nat n + 1)%Z by lia.
    split; [lia|]. by apply (forEach_ok _ _ Hall).
Qed.

(** X7. In accepted content every element, however deep in
    conditionals, lies within the nesting limit; a text has passed the
    text deny-list, a condition is within the length limit and matches
    no pattern of the expression deny-list, and the configuration of a
    placeholder has passed the check of its strings. *)
Theorem accepted_content content depth n e :
  Security.validateContent config content depth = Ok tt ->
  Within content n e ->
  (depth + Z.of_nat n <= maxNestingDepth config)%Z /\
  match e with
  | TextElement _ text => validateTextContent text = Ok tt
  | ConditionalElement _ condition _ _ =>
      (len condition <= maxExpressionLength config)%Z /\
      forall p, p ∈ expressionPatterns -> matchesPattern p condition = false
  | PlaceholderElement _ _ placeholderConfig =>
      validatePlaceholderConfig (ofObject placeholderConfig) = Ok tt
  end.
Proof.
  intros Hcontent Hin.
  destruct (accepted_within _ _ _ _ Hcontent Hin) as [Hdepth He].
  split; [done|]. destruct e as [id text|id ty cfg|id condition branch else_]; try done.
  cbn [validateElement] in He. apply seq_ok in He as [He _].
  unfold validateConditionalExpression in He.
  apply seq_ok in He as [Hlen Hpatterns]. apply guard_ok in Hlen.
  split; [lia|]. intros p Hp.
  apply (forEach_ok _ _ Hpatterns) in Hp. by apply guard_ok in Hp.
Qed.

End Content.

Lemma accepted_content_witness :
  Security.validateContent DEFAULT_SECURITY_CONFIG Demo.sampleContent 0 = Ok tt /\
  Within Demo.sampleContent 1 (TextElement None "few") /\
  (0 + Z.of_nat 1 <= maxNestingDepth DEFAULT_SECURITY_CONFIG)%Z /\
  validateTextContent "few" = Ok tt.
Proof.
  assert (H1 : Security.validateContent DEFAULT_SECURITY_CONFIG Demo.sampleContent 0 = Ok tt)
    by (vm_compute; reflexivity).
  assert (H2 : Within Demo.sampleContent 1 (TextElement None "few")).
  { eapply within_else; [apply within_top|].
    - apply list_elem_of_further, list_elem_of_here.
    - apply list_elem_of_here. }
  split; [exact H1|]. split; [exact H2|].
  exact (accepted_content DEFAULT_SECURITY_CONFIG Demo.sampleContent 0 1
           (TextElement None "few") H1 H2).
Defined.

End ContentFacts.

(* ================================================================== *)
(** * More of the text deny-list *)
(* ================================================================== *)

Module TextFacts.
Import Regex RegexSpec RegexFacts RegexFacts2 Security Spec TextDenyList UrlFacts.

(** Under the [i] flag a pattern accepts what its lower case accepts,
    letter by letter. *)
Lemma Matches_lits_case s (a b : string) i j :
  Forall2 (fun x y => forall c, atomMatches true (Lit x) c = true ->
                                atomMatches true (Lit y) c = true)
          (list_ascii_of_string a) (list_ascii_of_string b) ->
  Matches true s (lits a) i j -> Matches true s (lits b) i j.
Proof.
  revert b i. induction a as [|x a IH]; intros [|y b] i H; inversion H; subst; [done|].
  simpl. intros (k & (Hj & c & Hc & Hm) & Hrest).
  exists k. split; [|by apply IH].
  split; [done|]. exists c. split; [done|]. auto.
Qed.

Lemma capital_F c :
  atomMatches true (Lit "f") c = true -> atomMatches true (Lit "F") c = true.
Proof. destruct c as [[] [] [] [] [] [] [] []]; done. Qed.

Lemma capital_T c :
  atomMatches true (Lit "t") c = true -> atomMatches true (Lit "T") c = true.
Proof. destruct c as [[] [] [] [] [] [] [] []]; done. Qed.

Lemma capital_I c :
  atomMatches true (Lit "i") c = true -> atomMatches true (Lit "I") c = true.
Proof. destruct c as [[] [] [] [] [] [] [] []]; done. Qed.

(** A keyword, white space and an opening parenthesis. *)
Lemma call_matches (pat : string) (pre mid ws post : string) :
  plainAscii (Str.toLowerCase pat) ->
  Forall2 (fun x y => forall c, atomMatches true (Lit x) c = true ->
                                atomMatches true (Lit y) c = true)
          (list_ascii_of_string (Str.toLowerCase pat)) (list_ascii_of_string pat) ->
  Str.toLowerCase mid = Str.toLowerCase pat ->
  (forall c, c ∈ list_ascii_of_string ws -> Str.isSpace c = true) ->
  test true (cat [lits pat; spaces; lits "("])
       (pre +:+ mid +:+ ws +:+ "(" +:+ post) = true.
Proof.
  intros Hplain Hcase Hmid Hws.
  set (text := pre +:+ mid +:+ ws +:+ "(" +:+ post).
  set (s := list_ascii_of_string text).
  set (lP := list_ascii_of_string pre). set (lM := list_ascii_of_string mid).
  set (lW := list_ascii_of_string ws). set (lQ := list_ascii_of_string post).
  assert (Hs : s = lP ++ lM ++ lW ++ ["("%char] ++ lQ).
  { unfold s, text. by rewrite !list_ascii_app. }
  assert (HlM : length lM = String.length mid) by apply length_list_ascii.
  set (n0 := length lP). set (n1 := n0 + length lM). set (n2 := n1 + length lW).
  assert (M1 : Matches true s (lits pat) n0 n1).
  { apply (Matches_lits_case s (Str.toLowerCase pat)); [exact Hcase|].
    unfold n1. rewrite HlM.
    apply (Matches_lits_lower s lP (lW ++ ["("%char] ++ lQ) mid); done. }
  assert (M2 : Matches true s spaces n1 n2).
  { replace n1 with (length (lP ++ lM)) by (rewrite length_app; done).
    replace n2 with (length (lP ++ lM) + length lW) by (rewrite length_app; done).
    apply (Matches_star_run true s _ _ lW (["("%char] ++ lQ)).
    - rewrite Hs. by rewrite <- !app_assoc.
    - intros l c l' E Hin. split; [done|]. exists c. split.
      + rewrite E. apply lookup_middle.
      + unfold atomMatches. simpl. by rewrite (Hws c Hin). }
  assert (M3 : Matches true s (lits "(") n2 (S n2)).
  { replace n2 with (length (lP ++ lM ++ lW)) by (rewrite !length_app; unfold n2, n1, n0; lia).
    replace (S (length (lP ++ lM ++ lW))) with (length (lP ++ lM ++ lW) + String.length "(")
      by (simpl; lia).
    apply (Matches_lits_exact true s _ lQ "("). rewrite Hs. by rewrite <- !app_assoc. }
  apply (test_complete true _ _ n0 (S n2)).
  - rewrite <- (length_list_ascii text). fold s. rewrite Hs, !length_app. unfold n0. lia.
  - fold s. apply Matches_cat_cons with n1; [exact M1|].
    apply Matches_cat_cons with n2; [exact M2|].
    apply Matches_cat_cons with (S n2); [exact M3|]. apply Matches_cat_nil.
Qed.

(** X8. A text that contains [eval], [function], [setTimeout] or
    [setInterval], in any letter case, followed after any white space
    by an opening parenthesis, is rejected as malicious content,
    wherever it stands: plain prose such as [the function (above)] too. *)
Theorem call_like_text_rejected (name text : string) :
  name ∈ ["eval"; "function"; "settimeout"; "setinterval"] ->
  containsCall name text ->
  validateTextContent text = Throw (maliciousText text).
Proof.
  intros Hname (pre & mid & ws & post & -> & Hmid & Hws).
  assert (Hsame : forall x c, atomMatches true (Lit x) c = true ->
                              atomMatches true (Lit x) c = true) by auto.
  repeat (apply elem_of_cons in Hname as [->|Hname]); [| | | |by apply elem_of_nil in Hname].
  - apply (validateTextContent_match _ (mkPattern true (cat [lits "eval"; spaces; lits "("])));
      [unfold textPatterns; simpl; set_solver|].
    apply call_matches; [by apply plainAscii_intro| |done|done].
    repeat constructor; apply Hsame.
  - apply (validateTextContent_match _
             (mkPattern true (cat [lits "Function"; spaces; lits "("])));
      [unfold textPatterns; simpl; set_solver|].
    apply call_matches; [by apply plainAscii_intro| |done|done].
    repeat constructor; first [apply capital_F | apply Hsame].
  - apply (validateTextContent_match _
             (mkPattern true (cat [lits "setTimeout"; spaces; lits "("])));
      [unfold textPatterns; simpl; set_solver|].
    apply call_matches; [by apply plainAscii_intro| |done|done].
    repeat constructor; first [apply capital_T | apply Hsame].
  - apply (validateTextContent_match _
             (mkPattern true (cat [lits "setInterval"; spaces; lits "("])));
      [unfold textPatterns; simpl; set_solver|].
    apply call_matches; [by apply plainAscii_intro| |done|done].
    repeat constructor; first [apply capital_I | apply Hsame].
Qed.

Lemma call_like_text_rejected_witness :
  containsCall "function" "see the function (above)" /\
  validateTextContent "see the function (above)" =
    Throw (maliciousText "see the function (above)").
Proof.
  assert (H : containsCall "function" "see the function (above)").
  { exists "see the ", "function", " ", "above)". split; [reflexivity|]. split; [reflexivity|].
    intros c Hc. apply list_elem_of_singleton in Hc as ->. reflexivity. }
  split; [exact H|].
  apply (call_like_text_rejected "function"); [|exact H].
  apply list_elem_of_further, list_elem_of_here.
Defined.

(** A run of [n] characters each accepted by a class. *)
Lemma Matches_times_run ci s negated items (l1 mid l2 : list ascii) :
  s = l1 ++ mid ++ l2 ->
  (forall c, c ∈ mid -> classMatches ci negated items c = true) ->
  Matches ci s (Times (length mid) (Class negated items))
    (length l1) (length l1 + length mid).
Proof.
  revert l1. induction mid as [|c mid IH]; intros l1 Hs Hall; simpl.
  - lia.
  - exists (S (length l1)). split.
    + split; [done|]. exists c. split; [rewrite Hs; apply lookup_middle|].
      apply Hall. by left.
    + replace (length l1 + S (length mid)) with (length (l1 ++ [c]) + length mid)
        by (rewrite length_app; simpl; lia).
      replace (S (length l1)) with (length (l1 ++ [c]))
        by (rewrite length_app; simpl; lia).
      apply IH; [by rewrite Hs, <- app_assoc|].
      intros c' Hc'. apply Hall. by right.
Qed.

Lemma hexDigit_accepts c :
  isHexDigit c = true ->
  classMatches true false [Range "0" "9"; Range "a" "f"; Range "A" "F"] c = true.
Proof.
  unfold isHexDigit, classMatches, atomMatches. cbn [existsb atomTest xorb].
  intros H. apply orb_true_iff in H as [H|H]; [apply orb_true_iff in H as [H|H]|];
    rewrite H; cbn [orb]; by rewrite ?orb_true_r.
Qed.

Lemma escape_matches (marker : string) (n : nat) (pre digits post : string) :
  String.length digits = n ->
  (forall c, c ∈ list_ascii_of_string digits -> isHexDigit c = true) ->
  test true (cat [lits marker; Times n hexDigit])
       (pre +:+ marker +:+ digits +:+ post) = true.
Proof.
  intros Hn Hhex.
  set (text := pre +:+ marker +:+ digits +:+ post).
  set (s := list_ascii_of_string text).
  set (lP := list_ascii_of_string pre). set (lD := list_ascii_of_string digits).
  set (lQ := list_ascii_of_string post).
  assert (Hs : s = lP ++ list_ascii_of_string marker ++ lD ++ lQ).
  { unfold s, text. by rewrite !list_ascii_app. }
  assert (HlD : length lD = n) by (unfold lD; by rewrite length_list_ascii).
  set (n0 := length lP). set (n1 := n0 + String.length marker).
  apply (test_complete true _ _ n0 (n1 + length lD)).
  - rewrite <- (length_list_ascii text). fold s. rewrite Hs, !length_app. unfold n0. lia.
  - fold s. apply Matches_cat_cons with n1.
    { apply (Matches_lits_exact true s lP (lD ++ lQ) marker). exact Hs. }
    apply Matches_cat_cons with (n1 + length lD); [|apply Matches_cat_nil].
    rewrite <- HlD. unfold hexDigit.
    replace n1 with (length (lP ++ list_ascii_of_string marker))
      by (rewrite length_app, length_list_ascii; done).
    apply (Matches_times_run true s _ _ _ lD lQ).
    + rewrite Hs. by rewrite <- !app_assoc.
    + intros c Hc. apply hexDigit_accepts. by apply Hhex.
Qed.

(** X9. A text that contains a percent sign followed by two
    hexadecimal digits, or a backslash with [x] and two, or with [u]
    and four, is rejected as malicious content: encoded characters do
    not pass, whatever they encode. *)
Theorem escape_sequences_rejected (text : string) :
  containsEscape "%" 2 text \/
  containsEscape "\x" 2 text \/
  containsEscape "\u" 4 text ->
  validateTextContent text = Throw (maliciousText text).
Proof.
  intros [H|[H|H]]; destruct H as (pre & digits & post & -> & Hn & Hhex).
  - apply (validateTextContent_match _ (mkPattern true (cat [lits "%"; Times 2 hexDigit])));
      [unfold textPatterns; simpl; set_solver|].
    by apply escape_matches.
  - apply (validateTextContent_match _
             (mkPattern true (cat [lits "\x"; Times 2 hexDigit])));
      [unfold textPatterns; simpl; set_solver|].
    by apply escape_matches.
  - apply (validateTextContent_match _
             (mkPattern true (cat [lits "\u"; Times 4 hexDigit])));
      [unfold textPatterns; simpl; set_solver|].
    by apply escape_matches.
Qed.

Lemma escape_sequences_rejected_witness :
  containsEscape "%" 2 "100%20sure" /\
  validateTextContent "100%20sure" = Throw (maliciousText "100%20sure").
Proof.
  assert (H : containsEscape "%" 2 "100%20sure").
  { exists "100", "20", "sure". split; [reflexivity|]. split; [reflexivity|].
    intros c Hc. simpl in Hc.
    repeat (apply elem_of_cons in Hc as [->|Hc]; [reflexivity|]).
    by apply elem_of_nil in Hc. }
  split; [exact H|]. apply escape_sequences_rejected. by left.
Defined.

End TextFacts.

(* ================================================================== *)
(** * Numbers as property keys *)
(* ================================================================== *)

Module IndexFacts.
Import Js.

Lemma digitsValue_uint_acc (d : Decimal.uint) (acc : positive) :
  digitsValue (Z.pos acc) (NilEmpty.string_of_uint d) =
  Some (Z.pos (Pos.of_uint_acc d acc)).
Proof.
  revert acc. induction d; intros acc; cbn [NilEmpty.string_of_uint digitsValue Pos.of_uint_acc];
    [reflexivity|..];
    match goal with
    | |- context [Str.isDigit ?c] => change (Str.isDigit c) with true; cbv iota
    end;
    match goal with
    | |- digitsValue ?z _ = _ =>
        match goal with
        | |- _ = Some (Z.pos (Pos.of_uint_acc _ ?p)) =>
            replace z with (Z.pos p) by (vm_compute (Z.of_nat (Str.code _)); lia)
        end
    end; apply IHd.
Qed.

Lemma digitsValue_uint (d : Decimal.uint) :
  digitsValue 0 (NilEmpty.string_of_uint d) = Some (Z.of_N (Pos.of_uint d)).
Proof.
  induction d; cbn [NilEmpty.string_of_uint digitsValue Pos.of_uint]; [reflexivity|..];
    match goal with
    | |- context [Str.isDigit ?c] => change (Str.isDigit c) with true; cbv iota
    end;
    [exact IHd|..]; apply (digitsValue_uint_acc d 1) || apply (digitsValue_uint_acc d).
Qed.

(** The decimal form of a natural number reads back as the number. *)
Lemma digitsValue_ofZ (i : Z) :
  (0 <= i)%Z -> digitsValue 0 (Str.ofZ i) = Some i.
Proof.
  intros Hi. unfold Str.ofZ. destruct i as [|p|p]; [reflexivity| |lia].
  cbn [Z.to_int NilZero.string_of_int]. unfold NilZero.string_of_uint.
  pose proof (DecimalPos.Unsigned.to_uint_nonnil p) as Hnil.
  destruct (Pos.to_uint p) eqn:E; [done|..];
    rewrite <- E, digitsValue_uint, DecimalPos.Unsigned.of_to; reflexivity.
Qed.

(** ... and is the canonical key of an array index. *)
(** ... and is the canonical key of an array index. *)
Lemma parseIndex_ofZ (i : Z) :
  (0 <= i < 4294967295)%Z -> parseIndex (Str.ofZ i) = Some i.
Proof.
  intros Hi. unfold parseIndex.
  pose proof (digitsValue_ofZ i ltac:(lia)) as Hd.
  destruct (Str.ofZ i) eqn:E.
  { injection Hd as <-. discriminate E. }
  rewrite Hd. cbn [mbind option_bind].
  rewrite E, String.eqb_refl.
  destruct (Z.ltb_spec i 4294967295); [done|lia].
Qed.

Lemma ofZ_not_length (i : Z) : (0 <= i)%Z -> (Str.ofZ i =? "length")%string = false.
Proof.
  intros Hi. destruct (String.eqb_spec (Str.ofZ i) "length") as [E|]; [|done].
  pose proof (digitsValue_ofZ i Hi) as Hd. rewrite E in Hd. done.
Qed.

(** Reading an array at the decimal form of an index inside its bounds
    gives the item. *)
Lemma get_index hostInherited (items : list value) (i : Z) x :
  (0 <= i < 4294967295)%Z -> items !! Z.to_nat i = Some x ->
  get hostInherited (VArray items) (Str.ofZ i) = x.
Proof.
  intros Hi Hx. unfold get. cbn [getFrom].
  rewrite ofZ_not_length by lia. rewrite parseIndex_ofZ by done.
  unfold nthZ. apply lookup_lt_Some in Hx as Hlt.
  destruct (Z.leb_spec 0 i); [|lia].
  destruct (Z.ltb_spec i (Z.of_nat (length items))); [|lia].
  simpl. by rewrite Hx.
Qed.

End IndexFacts.

(* ================================================================== *)
(** * The evaluator of conditions *)
(* ================================================================== *)

Module EvaluatorFacts.
Import Js Evaluator Spec Pruning DangerousKeys ValidatorFacts UrlFacts IndexFacts.

Lemma securityOnly_flatMapE {A B} (f : A -> result (list B)) (xs : list A) :
  (forall x, x ∈ xs -> securityOnly (f x)) -> securityOnly (flatMapE f xs).
Proof.
  induction xs as [|x xs IH]; intros H; [done|].
  rewrite flatMapE_cons. apply securityOnly_bind; [apply H; by left|].
  intros ys. apply securityOnly_bind; [|done].
  apply IH. intros y Hy. apply H. by right.
Qed.

Section Evaluator.
Variable hostInherited : value -> string -> option value.
Variable jsep : string -> result node.
Variables looseEquals strictEquals : value -> value -> bool.
Variable lessThan : value -> value -> option bool.
Variables toNumber negate : value -> value.
Variable maxExpressionLength : Z.

Local Abbreviation eval n variables :=
  (evaluateASTNode hostInherited looseEquals strictEquals lessThan toNumber negate
     n variables).
Local Abbreviation condition c variables :=
  (evaluateCondition hostInherited jsep looseEquals strictEquals lessThan toNumber
     negate maxExpressionLength c variables).
Local Abbreviation evalElement variables :=
  (evaluateElement hostInherited jsep looseEquals strictEquals lessThan
     toNumber negate maxExpressionLength variables).
Local Abbreviation evalContent content variables :=
  (evaluateContent hostInherited jsep looseEquals strictEquals lessThan
     toNumber negate maxExpressionLength content variables).

(** ** Errors *)

Lemma evaluateCondition_securityOnly c variables :
  securityOnly (condition c variables).
Proof.
  unfold evaluateCondition. apply securityOnly_bind.
  - unfold validateConditionSecurity.
    apply securityOnly_bind; [by apply securityOnly_guard|]. intros _.
    apply securityOnly_forEach. intros p _. by apply securityOnly_guard.
  - intros _. unfold rethrow. by destruct (_ ≫= _).
Qed.

Lemma evaluateElement_securityOnly variables element :
  securityOnly (evalElement variables element).
Proof.
  induction element as [id text|id ty cfg|id c content else_ IHc IHe]
    using ContentElement_nested_ind; [done|done|].
  cbn [evaluateElement]. apply securityOnly_bind; [apply evaluateCondition_securityOnly|].
  intros [|].
  - apply securityOnly_flatMapE. intros x Hx.
    rewrite Forall_forall in IHc. by apply IHc.
  - destruct else_ as [e|]; [|done].
    apply securityOnly_flatMapE. intros x Hx.
    simpl in IHe. rewrite Forall_forall in IHe. by apply IHe.
Qed.

(** X10. Whatever goes wrong while the conditionals of a content are
    evaluated (a condition too long or on the deny-list, a parse error,
    an undefined variable, an index out of bounds, an unsupported
    node), [evaluateContent] raises a security error and nothing else. *)
Theorem evaluateContent_security_errors_only content variables :
  securityOnly (evaluateContent hostInherited jsep looseEquals strictEquals lessThan
                  toNumber negate maxExpressionLength content variables).
Proof.
  apply securityOnly_flatMapE. intros x _. apply evaluateElement_securityOnly.
Qed.

(** ** Member access *)

(** The property a member expression reads. *)
Local Abbreviation propertyOf computed property variables :=
  (if computed : bool then eval property variables else Ok (nodeName property)).

(** Past the two special cases of [length], a member expression is the
    check of the access followed by the read. *)
Lemma member_step (computed : bool) (object property : node) variables o p :
  eval object variables = Ok o ->
  propertyOf computed property variables = Ok p ->
  (forall items, o <> VArray items) -> (forall s, o <> VString s) ->
  o <> VNull -> o <> VUndefined ->
  eval (MemberExpression computed object property) variables =
  (validatePropertyAccess o p ;; getProperty hostInherited o p).
Proof.
  intros Ho Hp Harr Hstr Hnull Hundef. cbn [evaluateASTNode]. rewrite Ho.
  cbn [mbind result_bind].
  destruct o; try done; rewrite Hp; cbn [mbind result_bind];
    try (by exfalso; eapply Harr); try (by exfalso; eapply Hstr).
  all: destruct p as [| | | |s| | | |]; try reflexivity.
  all: repeat (destruct s as [|[[] [] [] [] [] [] [] []] s]; try reflexivity).
Qed.

(** X11. A member expression that names [constructor], [prototype],
    [__proto__] or one of the getter and setter hooks is refused with a
    security error on every value, written with a dot or computed from
    a string, whether or not the value holds such a property. *)
Theorem dangerous_member_blocked (computed : bool) (object property : node)
    variables o name :
  eval object variables = Ok o ->
  o <> VNull -> o <> VUndefined ->
  propertyOf computed property variables = Ok (VString name) ->
  name ∈ dangerousProperties ->
  eval (MemberExpression computed object property) variables =
  Throw (Security.securityError
           ("Access to dangerous property '" +:+ name +:+ "' is blocked")
           "property_access" "MALICIOUS_CONTENT").
Proof.
  intros Ho Hnull Hundef Hp Hname. cbn [evaluateASTNode]. rewrite Ho.
  cbn [mbind result_bind].
  unfold dangerousProperties in Hname.
  destruct o; try done; rewrite Hp; cbn [mbind result_bind];
    repeat (apply elem_of_cons in Hname as [->|Hname]; [reflexivity|]);
    by apply elem_of_nil in Hname.
Qed.

(** X12. No property of a function can be read: a member expression on
    a function value is refused with a security error, whatever the
    property. *)
Theorem function_member_blocked (computed : bool) (object property : node)
    variables f p :
  eval object variables = Ok (VFunction f) ->
  propertyOf computed property variables = Ok p ->
  exists e,
    eval (MemberExpression computed object property) variables = Throw e /\
    isSecurityError e = true.
Proof.
  intros Ho Hp. rewrite (member_step _ _ _ _ _ _ Ho Hp) by done.
  unfold validatePropertyAccess.
  destruct p as [| | | |s| | | |]; try (by eexists).
  destruct (Security.member s dangerousProperties); by eexists.
Qed.

(** ** Array indices *)

(** X13. A computed member expression with an index from 0 to the
    length of the array less one reads the item at that index. *)
Theorem index_in_range (object index : node) variables items i x :
  eval object variables = Ok (VArray items) ->
  eval index variables = Ok (VNum i) ->
  (0 <= i)%Z -> items !! Z.to_nat i = Some x ->
  (Z.of_nat (length items) < 4294967295)%Z ->
  eval (MemberExpression true object index) variables = Ok x.
Proof.
  intros Ho Hi Hpos Hx Hlen. cbn [evaluateASTNode]. rewrite Ho.
  cbn [mbind result_bind]. rewrite Hi. cbn [mbind result_bind].
  apply lookup_lt_Some in Hx as Hlt.
  unfold validatePropertyAccess. cbn [mbind result_bind].
  destruct (Z.ltb_spec i 0); [lia|].
  destruct (Z.geb_spec i (Z.of_nat (length items))); [lia|].
  cbn [mbind result_bind]. unfold getProperty. cbn [toStr mbind result_bind].
  by rewrite (get_index hostInherited items i x) by (done || lia).
Qed.

(** X14. A computed member expression with an index at or beyond the
    length of the array, or below minus the length, raises the
    out-of-bounds error: it never reads [undefined]. *)
Theorem index_out_of_range (object index : node) variables items i :
  eval object variables = Ok (VArray items) ->
  eval index variables = Ok (VNum i) ->
  (i < - Z.of_nat (length items) \/ Z.of_nat (length items) <= i)%Z ->
  eval (MemberExpression true object index) variables = Throw (outOfBounds i).
Proof.
  intros Ho Hi Hout. cbn [evaluateASTNode]. rewrite Ho.
  cbn [mbind result_bind]. rewrite Hi. cbn [mbind result_bind].
  by rewrite Expressions.validatePropertyAccess_out_of_range.
Qed.

(** ** Content without conditionals *)

Lemma evaluateContent_flat_identity content variables :
  Forall (fun e => isConditional e = false) content ->
  evalContent content variables = Ok content.
Proof.
  unfold evaluateContent. induction 1 as [|e rest He _ IH]; [done|].
  rewrite flatMapE_cons, IH. by destruct e.
Qed.

(** X15. Evaluating twice is evaluating once: what [evaluateContent]
    returns holds no conditional, and evaluating it again, over any
    variables, returns it unchanged. *)
Theorem evaluateContent_idempotent content variables variables' out :
  evaluateContent hostInherited jsep looseEquals strictEquals lessThan toNumber negate
    maxExpressionLength content variables = Ok out ->
  evaluateContent hostInherited jsep looseEquals strictEquals lessThan toNumber negate
    maxExpressionLength out variables' = Ok out.
Proof.
  intros H. apply evaluateContent_flat_identity.
  by eapply evaluateContent_flat.
Qed.

(** ** Checking a condition *)

(** X30. [validateCondition] reports nothing exactly when
    [evaluateCondition] evaluates the condition over the same
    variables; when it reports, it reports one message. *)
Theorem validateCondition_agrees c variables :
  (validateCondition hostInherited jsep looseEquals strictEquals lessThan toNumber
     negate maxExpressionLength c variables = [] <->
   is_ok (condition c variables) = true) /\
  length (validateCondition hostInherited jsep looseEquals strictEquals lessThan
            toNumber negate maxExpressionLength c variables) <= 1.
Proof.
  unfold validateCondition, evaluateCondition.
  destruct (validateConditionSecurity maxExpressionLength c) as [[]|e]; simpl.
  - destruct (jsep c) as [ast|e]; simpl.
    + destruct (eval ast variables) as [v|e]; simpl.
      * split; [done|lia].
      * destruct (isSecurityError e); split; (done || simpl; lia).
    + destruct (isSecurityError e); split; (done || simpl; lia).
  - destruct (isSecurityError e); split; (done || simpl; lia).
Qed.

End Evaluator.

Lemma dangerous_member_blocked_witness :
  Demo.eval (Identifier "user") Demo.account = Ok (ofObject Demo.profile) /\
  "constructor" ∈ dangerousProperties /\
  Demo.eval (MemberExpression false (Identifier "user") (Identifier "constructor"))
    Demo.account =
  Throw (Security.securityError "Access to dangerous property 'constructor' is blocked"
           "property_access" "MALICIOUS_CONTENT").
Proof.
  assert (H : "constructor" ∈ dangerousProperties) by apply list_elem_of_here.
  split; [reflexivity|]. split; [exact H|].
  exact (dangerous_member_blocked Demo.inherited Demo.equals Demo.equals Demo.lessThan
           Demo.toNumber Demo.toNumber false (Identifier "user") (Identifier "constructor")
           Demo.account (ofObject Demo.profile) "constructor" eq_refl
           ltac:(discriminate) ltac:(discriminate) eq_refl H).
Defined.

Lemma function_member_blocked_witness :
  Demo.eval (Identifier "valueOf") Demo.account = Ok (VFunction "valueOf") /\
  exists e,
    Demo.eval (MemberExpression false (Identifier "valueOf") (Identifier "name"))
      Demo.account = Throw e /\
    isSecurityError e = true.
Proof.
  split; [reflexivity|].
  exact (function_member_blocked Demo.inherited Demo.equals Demo.equals Demo.lessThan
           Demo.toNumber Demo.toNumber false (Identifier "valueOf") (Identifier "name")
           Demo.account "valueOf" (VString "name") eq_refl eq_refl).
Defined.

Lemma index_in_range_witness :
  Demo.eval (Identifier "items") Demo.shelf =
    Ok (VArray [VString "a"; VString "b"; VString "c"]) /\
  Demo.eval (MemberExpression true (Identifier "items") (Literal (VNum 1))) Demo.shelf =
    Ok (VString "b").
Proof.
  split; [reflexivity|].
  refine (index_in_range Demo.inherited Demo.equals Demo.equals Demo.lessThan
            Demo.toNumber Demo.toNumber (Identifier "items") (Literal (VNum 1))
            Demo.shelf [VString "a"; VString "b"; VString "c"] 1 (VString "b")
            eq_refl eq_refl _ eq_refl _); simpl; lia.
Defined.

Lemma index_out_of_range_witness :
  Demo.eval (Identifier "items") Demo.shelf =
    Ok (VArray [VString "a"; VString "b"; VString "c"]) /\
  Demo.eval (MemberExpression true (Identifier "items") (Literal (VNum 3))) Demo.shelf =
    Throw (outOfBounds 3).
Proof.
  split; [reflexivity|].
  refine (index_out_of_range Demo.inherited Demo.equals Demo.equals Demo.lessThan
            Demo.toNumber Demo.toNumber (Identifier "items") (Literal (VNum 3))
            Demo.shelf [VString "a"; VString "b"; VString "c"] 3 eq_refl eq_refl _).
  simpl. lia.
Defined.

Lemma evaluateContent_idempotent_witness :
  let out := [TextElement None "Items: "; TextElement None "many"] in
  Demo.evaluateContent Demo.sampleContent (literal [("count", VNum 5)]) = Ok out /\
  Demo.evaluateContent out (literal []) = Ok out.
Proof.
  intros out.
  assert (H : Demo.evaluateContent Demo.sampleContent (literal [("count", VNum 5)]) = Ok out)
    by (vm_compute; reflexivity).
  split; [exact H|].
  exact (evaluateContent_idempotent Demo.inherited Demo.jsep Demo.equals Demo.equals
           Demo.lessThan Demo.toNumber Demo.toNumber 500 Demo.sampleContent
           (literal [("count", VNum 5)]) (literal []) out H).
Defined.

End EvaluatorFacts.

(* ================================================================== *)
(** * The variable processor *)
(* ================================================================== *)

Module VariableFacts.
Import Variables Spec Interpolation UrlFacts.

(** Only [${] opens a reference. *)
Lemma matchVariableAt_none (s : string) :
  Str.startsWith "${" s = false -> matchVariableAt s = None.
Proof.
  intros H. unfold matchVariableAt.
  destruct s as [|c s]; [done|].
  destruct (Ascii.eqb_spec c "$") as [->|Hc];
    [|by destruct c as [[] [] [] [] [] [] [] []]; try done; destruct Hc].
  destruct s as [|d s]; [done|].
  destruct (Ascii.eqb_spec d "{") as [->|Hd];
    [done | by destruct d as [[] [] [] [] [] [] [] []]; try done; destruct Hd].
Qed.

Section Replace.
Variable callback : string -> result string.

Lemma replaceVariables_plain (text : string) :
  Str.includes "${" text = false ->
  replaceVariables (S (String.length text)) callback text = Ok text.
Proof.
  induction text as [|c text IH]; intros H; [done|].
  rewrite replaceVariables_step.
  simpl in H. apply orb_false_iff in H as [Hstart Hrest].
  rewrite matchVariableAt_none by done. by rewrite IH.
Qed.

End Replace.

(** What [new Set()] keeps of a list. *)
Lemma distinct_spec (seen xs : list string) :
  NoDup (distinct seen xs) /\
  forall x, x ∈ distinct seen xs <-> x ∈ xs /\ x ∉ seen.
Proof.
  revert seen. induction xs as [|y xs IH]; intros seen; simpl.
  - split; [constructor|]. intros x. split; [|by intros [? _]].
    intros Hx. by apply elem_of_nil in Hx.
  - destruct (Security.member y seen) eqn:E.
    + apply member_true in E. destruct (IH seen) as [Hnd Hin].
      split; [done|]. intros x. rewrite Hin, elem_of_cons. split.
      * intros [H1 H2]. auto.
      * intros [[->|H1] H2]; [done|auto].
    + apply member_spec in E. destruct (IH (y :: seen)) as [Hnd Hin].
      split.
      * constructor; [|done]. rewrite Hin, elem_of_cons. intros [_ H]. auto.
      * intros x. rewrite !elem_of_cons, Hin, elem_of_cons. split.
        -- intros [->|[H1 H2]]; [auto|]. split; [auto|]. intros H. auto.
        -- intros [[->|H1] H2]; [by left|].
           destruct (decide (x = y)) as [->|Hne]; [by left|].
           right. split; [done|]. by intros [?|?].
Qed.

Section Processor.
Variable hostInherited : Js.value -> string -> option Js.value.
Variable stringifyContent : list ContentElement -> string.

Local Abbreviation resolve varRef variables :=
  (resolveVariableReference hostInherited varRef variables).
Local Abbreviation process text variables :=
  (processString hostInherited text variables).
Local Abbreviation references content :=
  (findVariableReferences stringifyContent content).

(** X16. A text without [${] has nothing to interpolate: [processString]
    returns it as it is, whatever the variables. *)
Theorem processString_plain (text : string) variables :
  Str.includes "${" text = false -> process text variables = Ok text.
Proof. intros H. by apply replaceVariables_plain. Qed.

(** X17. A reference that begins with an underscore, or holds two dots
    or two underscores in a row, is refused as invalid syntax, with a
    variable error, before the variables are looked at: such a name
    cannot be interpolated even when it is defined. *)
Theorem private_reference_refused (pre name post : string) variables :
  Str.includes "${" pre = false -> name <> "" -> braceFree name ->
  Str.startsWith "_" (Str.trim name) = true \/
  Str.includes ".." (Str.trim name) = true \/
  Str.includes "__" (Str.trim name) = true ->
  process (pre +:+ "${" +:+ name +:+ "}" +:+ post) variables =
  Throw (variableError ("Invalid variable reference syntax: " +:+ Str.trim name)
           (Some (Str.trim name))).
Proof.
  intros Hpre Hname Hfree Hbad. unfold processString.
  rewrite replaceVariables_reference by done.
  assert (Hinvalid : isValidVariableReference (Str.trim name) = false).
  { unfold isValidVariableReference.
    destruct Hbad as [-> | [-> | ->]]; by rewrite ?orb_true_r. }
  unfold substitute, resolveVariableReference. by rewrite Hinvalid.
Qed.

Lemma mapE_strings (items : list string) :
  mapE (Js.toStr hostInherited) (map Js.VString items) = Ok items.
Proof.
  induction items as [|s items IH]; [done|].
  change (mapE (Js.toStr hostInherited) (map Js.VString (s :: items)))
    with (y ← Js.toStr hostInherited (Js.VString s);
          ys ← mapE (Js.toStr hostInherited) (map Js.VString items);
          Ok (y :: ys)).
  by rewrite IH.
Qed.

(** X26. A reference that resolves to a record is not interpolated by
    its content: the output holds [[Object with N properties]], [N]
    being the number of its enumerable own keys. One that resolves to
    an array of strings is replaced by the strings joined with a comma
    and a space. *)
Theorem composite_interpolation (pre name post : string) variables :
  Str.includes "${" pre = false -> name <> "" -> braceFree name ->
  (forall proto ps,
     resolve (Str.trim name) variables = Ok (Js.VObject proto ps) ->
     process (pre +:+ "${" +:+ name +:+ "}" +:+ post) variables =
     (tail ← process post variables;
      Ok (pre +:+ ("[Object with " +:+
                   Str.ofNat (length (Js.keys (Js.mkObject proto ps))) +:+
                   " properties]") +:+ tail))) /\
  (forall items,
     resolve (Str.trim name) variables = Ok (Js.VArray (map Js.VString items)) ->
     process (pre +:+ "${" +:+ name +:+ "}" +:+ post) variables =
     (tail ← process post variables; Ok (pre +:+ Str.join ", " items +:+ tail))).
Proof.
  intros Hpre Hname Hfree. split.
  - intros proto ps Hv. unfold processString.
    rewrite replaceVariables_reference by done.
    by rewrite (substitute_ok hostInherited variables name (Js.VObject proto ps) _ Hv eq_refl).
  - intros items Hv. unfold processString.
    rewrite replaceVariables_reference by done.
    rewrite (substitute_ok hostInherited variables name _ (Str.join ", " items) Hv); [done|].
    cbn [sanitiseResolvedValue]. by rewrite mapE_strings.
Qed.

(** X18. [findVariableReferences] lists every reference of the
    serialised content once: no reference twice, none left out, none
    made up. *)
Theorem findVariableReferences_distinct content :
  NoDup (references content) /\
  forall varRef,
    varRef ∈ references content <->
    varRef ∈ matchesIn (S (String.length (stringifyContent content)))
                       (stringifyContent content).
Proof.
  unfold findVariableReferences.
  destruct (distinct_spec [] (matchesIn (S (String.length (stringifyContent content)))
                                (stringifyContent content))) as [Hnd Hin].
  split; [done|]. intros varRef. rewrite Hin. split; [by intros [? _]|].
  intros H. split; [done|]. intros Hx. by apply elem_of_nil in Hx.
Qed.

(** X19. [validateVariables] reports nothing exactly when every
    reference of the content resolves against the variables. *)
Theorem validateVariables_empty content variables :
  validateVariables hostInherited stringifyContent content variables = [] <->
  forall varRef, varRef ∈ references content -> is_ok (resolve varRef variables) = true.
Proof.
  unfold validateVariables. generalize (references content). intros refs.
  induction refs as [|r refs IH]; simpl.
  - split; [|done]. intros _ x Hx. by apply elem_of_nil in Hx.
  - destruct (resolve r variables) as [v|e] eqn:E; simpl.
    + rewrite IH. split.
      * intros H x Hx. apply elem_of_cons in Hx as [->|Hx]; [by rewrite E|by apply H].
      * intros H x Hx. apply H. by right.
    + split.
      * by destruct (isVariableError e).
      * intros H. specialize (H r ltac:(by left)). by rewrite E in H.
Qed.

End Processor.

Lemma processString_plain_witness :
  Str.includes "${" "Costs $5 {net}" = false /\
  processString Demo.inherited "Costs $5 {net}" (Js.literal []) = Ok "Costs $5 {net}".
Proof.
  split; [reflexivity|]. by apply processString_plain.
Defined.

Lemma private_reference_refused_witness :
  processString Demo.inherited "Key: ${_secret}"
    (Js.literal [("_secret", Js.VString "x")]) =
  Throw (variableError "Invalid variable reference syntax: _secret" (Some "_secret")).
Proof.
  refine (private_reference_refused Demo.inherited "Key: " "_secret" ""
            (Js.literal [("_secret", Js.VString "x")]) eq_refl _ _ (or_introl eq_refl)).
  - discriminate.
  - intros c Hc. simpl in Hc.
    repeat (apply elem_of_cons in Hc as [->|Hc]; [discriminate|]).
    by apply elem_of_nil in Hc.
Defined.

Lemma composite_interpolation_witness :
  let variables := Js.literal [("user", Js.ofObject Demo.profile)] in
  (Str.includes "${" "For " = false /\ "user" <> "" /\ braceFree "user") /\
  processString Demo.inherited "For ${user}." variables =
    Ok "For [Object with 2 properties].".
Proof.
  intros variables.
  assert (H1 : Str.includes "${" "For " = false) by reflexivity.
  assert (H2 : "user" <> "") by discriminate.
  assert (H3 : braceFree "user").
  { intros c Hc. simpl in Hc.
    repeat (apply elem_of_cons in Hc as [->|Hc]; [discriminate|]).
    by apply elem_of_nil in Hc. }
  split; [auto|].
  exact (proj1 (composite_interpolation Demo.inherited "For " "user" "." variables
                  H1 H2 H3) _ _ eq_refl).
Defined.

End VariableFacts.

(* ================================================================== *)
(** * The schema loader *)
(* ================================================================== *)

Module LoaderFacts.
Import Js Security Loader Spec Cache ValidatorFacts DangerousKeys.

Lemma bind_inv {A B} (m : result A) (k : A -> result B) (b : B) :
  m ≫= k = Ok b -> exists a, m = Ok a /\ k a = Ok b.
Proof. destruct m as [a|e]; simpl; [eauto|done]. Qed.

Section Loader.
Variable hostInherited : value -> string -> option value.
Variable parseURL : string -> option URL.
Variable resolveRelative : string -> string -> option string.
Variable jsonParse : string -> result value.
Variable clock : nat -> Z.
Variable network : nat -> string -> fetchOutcome.
Variable cacheTTL : Z.
Variable securityConfig : SecurityConfig.
Variable timeout : Z.

Local Abbreviation load :=
  (loadSchema hostInherited parseURL resolveRelative jsonParse clock network
     cacheTTL securityConfig timeout).
Local Abbreviation resolved := (resolveUrl parseURL resolveRelative).
Local Abbreviation received k url :=
  (settle hostInherited jsonParse timeout (network k url)).

Local Opaque loadFromUrl.

(** ** Schemas that pass the checks *)

(** X20. A response is accepted as a schema only if its status is a
    success, its content type names JSON or text, its text is at most
    ten megabytes long and parses as JSON to an object, and every type
    under [instructionTypes] is an object with a string as its
    [template]. *)
Theorem accepted_response (response : Response) (schema : value) :
  readResponse hostInherited jsonParse response = Ok schema ->
  ok response = true /\
  (Str.includes "application/json" (default "" (contentType response)) = true \/
   Str.includes "text/" (default "" (contentType response)) = true) /\
  (len (text response) <= tenMegabytes)%Z /\
  jsonParse (text response) = Ok schema /\
  isObjectLike schema = true /\
  (hasProperty hostInherited "instructionTypes" schema = true ->
   forall name typeDef,
     (name, typeDef) ∈ entriesOfValue (get hostInherited schema "instructionTypes") ->
     isObjectLike typeDef = true /\
     exists template, get hostInherited typeDef "template" = VString template).
Proof.
  unfold readResponse. intros H.
  apply bind_inv in H as ([] & Hok & H). apply guard_ok in Hok.
  apply bind_inv in H as ([] & Htype & H). apply guard_ok in Htype.
  apply bind_inv in H as ([] & _ & H).
  apply bind_inv in H as ([] & Hsize & H). apply guard_ok in Hsize.
  destruct (jsonParse (text response)) as [parsed|] eqn:Hparse; [|done].
  cbn [mbind result_bind] in H.
  destruct (validateSchemaStructure hostInherited parsed) as [[]|] eqn:Hstructure; [|done].
  cbn [mbind result_bind] in H. injection H as <-.
  split; [by apply negb_false_iff in Hok|]. split.
  { apply andb_false_iff in Htype as [Ht|Ht]; apply negb_false_iff in Ht; auto. }
  split; [lia|]. split; [done|].
  unfold validateSchemaStructure in Hstructure.
  destruct (isObjectLike parsed) eqn:Hobject; [|done]. split; [done|].
  intros Hhas name typeDef Hin. rewrite Hhas in Hstructure. cbn [negb] in Hstructure.
  destruct (isObjectLike (get hostInherited parsed "instructionTypes")); [|done].
  cbn [negb] in Hstructure.
  apply (forEach_ok _ _ Hstructure) in Hin. cbn [fst snd] in Hin.
  unfold validateInstructionType in Hin.
  destruct (isObjectLike typeDef); [|done]. split; [done|]. cbn [negb] in Hin.
  destruct (hasProperty hostInherited "template" typeDef); [|done]. cbn [negb] in Hin.
  destruct (get hostInherited typeDef "template"); try done. eauto.
Qed.

(** ** Errors and the cache *)

(** X21. [loadSchema] fails with a security error and nothing else,
    and a load that fails stores nothing: every entry the cache holds
    afterwards it held before. *)
Theorem failed_load url baseUrl (w w' : World) e :
  load url baseUrl w = (Throw e, w') ->
  isSecurityError e = true /\ cache w' ⊆ cache w.
Proof.
  unfold loadSchema, mbind, St_bind, lift.
  pose proof (validateSchemaUrl_securityOnly parseURL securityConfig (resolved url baseUrl))
    as Hurl.
  destruct (validateSchemaUrl parseURL securityConfig (resolved url baseUrl)) as [[]|e0].
  2:{ intros [= <- <-]. done. }
  unfold getFromCache, mbind, St_bind, readCache, dateNow.
  destruct (cache w !! resolved url baseUrl) as [entry|] eqn:Hentry; simpl.
  - destruct (_ >? _)%Z; unfold deleteCache, mret, St_ret; simpl.
    + unfold rethrowSt, mbind, St_bind. rewrite loadFromUrl_spec. simpl.
      destruct (settle _ _ _ _) as [fresh|e1]; [done|].
      intros [= <- <-]. split; [done|]. simpl. apply delete_subseteq.
    + destruct (truthy (schema entry)); [done|].
      unfold rethrowSt, mbind, St_bind. rewrite loadFromUrl_spec. simpl.
      destruct (settle _ _ _ _) as [fresh|e1]; [done|].
      intros [= <- <-]. done.
  - unfold rethrowSt, mbind, St_bind. rewrite loadFromUrl_spec. simpl.
    destruct (settle _ _ _ _) as [fresh|e1]; [done|].
    intros [= <- <-]. done.
Qed.

(** A load that finds a live entry. *)
Lemma loadSchema_hit url baseUrl (w : World) (entry : CacheEntry) :
  validateSchemaUrl parseURL securityConfig (resolved url baseUrl) = Ok tt ->
  cache w !! resolved url baseUrl = Some entry ->
  truthy (schema entry) = true ->
  (clock (clockReads w) <= expiresAt entry)%Z ->
  load url baseUrl w =
  (Ok (schema entry), mkWorld (cache w) (S (clockReads w)) (requests w)).
Proof.
  intros Hvalid Hentry Htruthy Hnow.
  unfold loadSchema, mbind, St_bind, lift. rewrite Hvalid.
  unfold getFromCache, mbind, St_bind, readCache, dateNow. rewrite Hentry. simpl.
  destruct (Z.gtb_spec (clock (clockReads w)) (expiresAt entry)) as [|_]; [lia|].
  unfold mret, St_ret. by rewrite Htruthy.
Qed.

(** X22. What one load fetched the next load serves from the cache: a
    load that misses and receives a schema, followed by a load of the
    same URL before the clock passes the expiry, returns the same
    schema both times and sends a single request. *)
Theorem fetched_then_cached url baseUrl (w : World) fresh :
  validateSchemaUrl parseURL securityConfig (resolved url baseUrl) = Ok tt ->
  cache w !! resolved url baseUrl = None ->
  received (length (requests w)) (resolved url baseUrl) = Ok fresh ->
  (clock (S (S (clockReads w))) <= clock (S (clockReads w)) + cacheTTL)%Z ->
  exists w1 w2,
    load url baseUrl w = (Ok fresh, w1) /\
    load url baseUrl w1 = (Ok fresh, w2) /\
    requests w2 = requests w ++ [resolved url baseUrl].
Proof.
  intros Hvalid Hmiss Hfresh Hclock.
  pose proof (loadSchema_miss hostInherited parseURL resolveRelative jsonParse clock
                network cacheTTL securityConfig timeout url baseUrl w Hvalid Hmiss) as H1.
  cbv beta in H1. rewrite Hfresh in H1. eexists. eexists. split; [exact H1|].
  rewrite (loadSchema_hit url baseUrl _
             (mkEntry fresh (clock (clockReads w)) (clock (S (clockReads w)) + cacheTTL)));
    [split; reflexivity|done| | |done].
  - simpl. apply lookup_insert_eq.
  - simpl. by eapply received_truthy.
Qed.

(** X23. After [clearCache] nothing is served from the cache: the next
    load of a URL that passes the URL check sends a request, whatever
    the cache held before. *)
Theorem cleared_cache_refetches url baseUrl (w : World) :
  validateSchemaUrl parseURL securityConfig (resolved url baseUrl) = Ok tt ->
  cache (clearCache w).2 = ∅ /\
  requests (load url baseUrl (clearCache w).2).2 =
    requests w ++ [resolved url baseUrl].
Proof.
  intros Hvalid. split; [reflexivity|].
  rewrite (loadSchema_miss hostInherited parseURL resolveRelative jsonParse clock
             network cacheTTL securityConfig timeout url baseUrl _ Hvalid)
    by apply lookup_empty.
  cbv beta. by destruct (settle _ _ _ _).
Qed.

End Loader.

Lemma accepted_response_witness :
  readResponse Demo.inherited Demo.schemaParse Demo.responseA =
    Ok (schemaDefining "constructor" "From A: {description}") /\
  ok Demo.responseA = true /\
  Demo.schemaParse (text Demo.responseA) =
    Ok (schemaDefining "constructor" "From A: {description}").
Proof.
  assert (H : readResponse Demo.inherited Demo.schemaParse Demo.responseA =
              Ok (schemaDefining "constructor" "From A: {description}"))
    by (vm_compute; reflexivity).
  split; [exact H|].
  pose proof (accepted_response Demo.inherited Demo.schemaParse Demo.responseA _ H) as P.
  split; [exact (proj1 P) | exact (proj1 (proj2 (proj2 (proj2 P))))].
Defined.

Lemma failed_load_witness :
  exists e w',
    Demo.offlineLoad Demo.schemaUrl None Demo.world = (Throw e, w') /\
    isSecurityError e = true /\ cache w' ⊆ cache Demo.world.
Proof.
  eexists. eexists.
  assert (H : Demo.offlineLoad Demo.schemaUrl None Demo.world =
              (Throw (loadFailure Demo.schemaUrl (plainError "getaddrinfo ENOTFOUND")),
               mkWorld ∅ 0 [Demo.schemaUrl])) by reflexivity.
  split; [exact H|].
  exact (failed_load Demo.inherited Demo.acceptURL Demo.resolveRelative Demo.jsonParse
           Demo.clock Demo.network 3600000 DEFAULT_SECURITY_CONFIG 10000
           Demo.schemaUrl None Demo.world _ _ H).
Defined.

Lemma fetched_then_cached_witness :
  (validateSchemaUrl Demo.acceptURL DEFAULT_SECURITY_CONFIG Demo.urlA = Ok tt /\
   cache Demo.world !! Demo.urlA = None /\
   settle Demo.inherited Demo.schemaParse 10000 (Demo.schemaNetwork 0 Demo.urlA) =
     Ok (schemaDefining "constructor" "From A: {description}")) /\
  exists w1 w2,
    Demo.loadSchema Demo.urlA None Demo.world =
      (Ok (schemaDefining "constructor" "From A: {description}"), w1) /\
    Demo.loadSchema Demo.urlA None w1 =
      (Ok (schemaDefining "constructor" "From A: {description}"), w2) /\
    requests w2 = [Demo.urlA].
Proof.
  assert (H1 : validateSchemaUrl Demo.acceptURL DEFAULT_SECURITY_CONFIG Demo.urlA = Ok tt)
    by (vm_compute; reflexivity).
  assert (H2 : cache Demo.world !! Demo.urlA = None) by apply lookup_empty.
  assert (H3 : settle Demo.inherited Demo.schemaParse 10000
                 (Demo.schemaNetwork 0 Demo.urlA) =
               Ok (schemaDefining "constructor" "From A: {description}"))
    by (vm_compute; reflexivity).
  split; [auto|].
  refine (fetched_then_cached Demo.inherited Demo.acceptURL Demo.resolveRelative
            Demo.schemaParse Demo.clock Demo.schemaNetwork 3600000
            DEFAULT_SECURITY_CONFIG 10000 Demo.urlA None Demo.world _ H1 H2 H3 _).
  unfold Demo.clock. simpl. lia.
Defined.

Lemma cleared_cache_refetches_witness :
  validateSchemaUrl Demo.acceptURL DEFAULT_SECURITY_CONFIG Demo.schemaUrl = Ok tt /\
  cache (clearCache Demo.cachedWorld).2 = ∅ /\
  requests (Demo.loadSchema Demo.schemaUrl None (clearCache Demo.cachedWorld).2).2 =
    [Demo.schemaUrl].
Proof.
  assert (H1 : validateSchemaUrl Demo.acceptURL DEFAULT_SECURITY_CONFIG Demo.schemaUrl = Ok tt)
    by (vm_compute; reflexivity).
  split; [exact H1|].
  exact (cleared_cache_refetches Demo.inherited Demo.acceptURL Demo.resolveRelative
           Demo.schemaParse Demo.clock Demo.schemaNetwork 3600000
           DEFAULT_SECURITY_CONFIG 10000 Demo.schemaUrl None Demo.cachedWorld H1).
Defined.

End LoaderFacts.

(* ================================================================== *)
(** * The compiler *)
(* ================================================================== *)

Module CompilerFacts.
Import Js Security Spec Loader Compiler ValidatorFacts Pruning.

Lemma flatMapE_ok {A B} (f : A -> result (list B)) (xs : list A) (out : list B) :
  flatMapE f xs = Ok out -> forall x, x ∈ xs -> exists ys, f x = Ok ys.
Proof.
  revert out. induction xs as [|y xs IH]; intros out H x Hx; [by apply elem_of_nil in Hx|].
  rewrite flatMapE_cons in H.
  destruct (f y) as [ys|] eqn:Hy; [|done]. cbn [mbind result_bind] in H.
  destruct (flatMapE f xs) as [zs|] eqn:Hzs; [|done].
  apply elem_of_cons in Hx as [->|Hx]; [eauto|]. by eapply IH.
Qed.

Lemma omap_not_nil {A B} (f : A -> option B) (xs : list A) (x : A) :
  x ∈ xs -> is_Some (f x) -> omap f xs <> [].
Proof.
  intros Hx [y Hy] Hnil.
  assert (Hin : y ∈ omap f xs) by (apply list_elem_of_omap; eauto).
  rewrite Hnil in Hin. by apply elem_of_nil in Hin.
Qed.

Section Prompt.
Variable hostInherited : value -> string -> option value.

(** X24. A prompt is generated only when every placeholder of the
    content names an instruction type that [in] finds among the loaded
    types: one unknown type and there is no prompt at all. *)
Theorem prompt_needs_known_types content (instructionTypes : object) template prompt
    id typeName config :
  generatePrompt hostInherited content instructionTypes template = Ok prompt ->
  PlaceholderElement id typeName config ∈ content ->
  hasProperty hostInherited typeName (ofObject instructionTypes) = true.
Proof.
  unfold generatePrompt. intros H Hin.
  destruct (flatMapE _ content) as [pieces|] eqn:Hpieces; [|done].
  destruct (flatMapE_ok _ _ _ Hpieces _ Hin) as [ys Hys].
  cbn [renderElement] in Hys. unfold generateInstruction in Hys.
  by destruct (hasProperty hostInherited typeName (ofObject instructionTypes)).
Qed.

End Prompt.

Section Compile.
Variable hostInherited : value -> string -> option value.
Variable parseURL : string -> option URL.
Variable resolveRelative : string -> string -> option string.
Variable jsonParse : string -> result value.
Variable clock : nat -> Z.
Variable network : nat -> string -> fetchOutcome.
Variable jsonStringify : ITSTemplate -> string.
Variable stringifyContent : list ContentElement -> string.
Variable jsep : string -> result Evaluator.node.
Variables looseEquals strictEquals : value -> value -> bool.
Variable lessThan : value -> value -> option bool.
Variables toNumber negate : value -> value.
Variable securityConfig : SecurityConfig.

Local Abbreviation compileWith :=
  (compile hostInherited parseURL resolveRelative jsonParse clock network jsonStringify
     stringifyContent jsep looseEquals strictEquals lessThan toNumber negate
     securityConfig).
Local Abbreviation securityCheck :=
  (Security.validateTemplate hostInherited parseURL jsonStringify securityConfig).

(** X25. A template the security validation rejects is not compiled:
    [compile] throws, as a compilation error of the stage
    [compilation] that quotes the security error, before it loads a
    schema or touches the cache. *)
Theorem security_rejection_stops_compile template variables baseUrl (w : World) e :
  securityCheck template = Throw e ->
  compileWith template variables baseUrl w =
  (Throw (ITSCompilationError ("Compilation failed: " +:+ errorToString e)
            None None "compilation"), w).
Proof.
  intros H.
  pose proof (validateTemplate_securityOnly hostInherited parseURL jsonStringify
                securityConfig template) as Hsec.
  rewrite H in Hsec. simpl in Hsec.
  unfold compile, rethrowSt, compileSteps, mbind, St_bind, lift.
  unfold Compiler.validateTemplate. rewrite H. by destruct e.
Qed.

(** Whatever [compile] throws is a validation error or a compilation
    error: security errors and variable errors reach the caller
    wrapped in a compilation error. *)
Lemma compile_error_classes template variables baseUrl (w w' : World) e :
  compileWith template variables baseUrl w = (Throw e, w') ->
  match e with
  | ITSValidationError _ _ _ | ITSCompilationError _ _ _ _ => True
  | _ => False
  end.
Proof.
  unfold compile, rethrowSt.
  destruct (compileSteps _ _ _ _ _ _ _ _ _ _ _ _ _ _ _ _ _ _ _) as [[r|e0] w0];
    [done|].
  intros [= <- <-]. by destruct e0.
Qed.

(** X27. References are checked against the variables the template
    declares, before the caller's variables are merged in: a content
    with a reference that the declared variables do not resolve is
    refused with the validation error, whatever the caller supplies. *)
Theorem undeclared_reference_fails_compile template callerVariables baseUrl (w : World)
    varRef e :
  securityCheck template = Ok tt ->
  varRef ∈ Variables.findVariableReferences stringifyContent (content template) ->
  Variables.resolveVariableReference hostInherited varRef (templateVariables template)
    = Throw e ->
  exists errs issues w',
    compileWith template callerVariables baseUrl w =
      (Throw (ITSValidationError "Template validation failed" errs issues), w') /\
    errs <> [].
Proof.
  intros Hsec Href Hresolve.
  unfold compile, rethrowSt, compileSteps, mbind, St_bind, lift.
  unfold Compiler.validateTemplate. rewrite Hsec.
  unfold validate. unfold Compiler.validateTemplate. rewrite Hsec.
  destruct (loadInstructionTypes _ _ _ _ _ _ _ _ _ _) as [loaded w0].
  set (varErrors := Variables.validateVariables _ _ _ _).
  assert (Hvar : varErrors <> []).
  { unfold varErrors, Variables.validateVariables.
    apply (omap_not_nil _ _ varRef Href). rewrite Hresolve.
    by destruct (isVariableError e). }
  match goal with
  | |- context [mkValidation (bool_decide (?errs = []) && _) _ _ _] =>
      assert (Herrs : errs <> [])
  end.
  { intros Hnil. apply app_eq_nil in Hnil as [_ Hnil].
    apply app_eq_nil in Hnil as [_ Hnil]. by apply app_eq_nil in Hnil as [_ Hnil]. }
  cbn [isValid errors securityIssues].
  rewrite (bool_decide_false _ Herrs). cbn [andb negb].
  unfold raise. eexists. eexists. eexists. split; [reflexivity|exact Herrs].
Qed.

End Compile.

Lemma prompt_needs_known_types_witness :
  exists prompt,
    generatePrompt Demo.inherited Demo.listing Demo.sampleTypes Demo.parenthesised
      = Ok prompt /\
    hasProperty Demo.inherited "list" (ofObject Demo.sampleTypes) = true.
Proof.
  destruct (generatePrompt Demo.inherited Demo.listing Demo.sampleTypes Demo.parenthesised)
    as [prompt|e] eqn:H; [|vm_compute in H; discriminate].
  exists prompt. split; [reflexivity|].
  refine (prompt_needs_known_types Demo.inherited Demo.listing Demo.sampleTypes
            Demo.parenthesised prompt None "list" Demo.sampleConfig H _).
  apply list_elem_of_further, list_elem_of_here.
Defined.

Lemma security_rejection_stops_compile_witness :
  Demo.securityCheck Demo.hostile = Throw (maliciousText "javascript:alert(1)") /\
  Demo.compile Demo.hostile None None Demo.world =
  (Throw (ITSCompilationError
            "Compilation failed: ITSSecurityError: Malicious content detected in text"
            None None "compilation"), Demo.world).
Proof.
  assert (H : Demo.securityCheck Demo.hostile = Throw (maliciousText "javascript:alert(1)"))
    by (vm_compute; reflexivity).
  split; [exact H|].
  exact (security_rejection_stops_compile Demo.inherited Demo.parseURL Demo.resolveRelative
           Demo.jsonParse Demo.clock Demo.network Demo.stringifyTemplate Demo.textsOf
           Demo.jsep Demo.equals Demo.equals Demo.lessThan Demo.toNumber Demo.toNumber
           DEFAULT_SECURITY_CONFIG Demo.hostile None None Demo.world _ H).
Defined.

Lemma undeclared_reference_fails_compile_witness :
  (Demo.securityCheck Demo.greeting = Ok tt /\
   "name" ∈ Variables.findVariableReferences Demo.textsOf (content Demo.greeting)) /\
  exists errs issues w',
    Demo.compile Demo.greeting (Some (literal [("name", VString "Ann")])) None Demo.world =
      (Throw (ITSValidationError "Template validation failed" errs issues), w') /\
    errs <> [].
Proof.
  assert (H1 : Demo.securityCheck Demo.greeting = Ok tt) by (vm_compute; reflexivity).
  assert (H2 : "name" ∈ Variables.findVariableReferences Demo.textsOf
                          (content Demo.greeting)) by apply list_elem_of_here.
  split; [auto|].
  exact (undeclared_reference_fails_compile Demo.inherited Demo.parseURL
           Demo.resolveRelative Demo.jsonParse Demo.clock Demo.network
           Demo.stringifyTemplate Demo.textsOf Demo.jsep Demo.equals Demo.equals
           Demo.lessThan Demo.toNumber Demo.toNumber DEFAULT_SECURITY_CONFIG
           Demo.greeting (Some (literal [("name", VString "Ann")])) None Demo.world
           "name" _ H1 H2 eq_refl).
Defined.

End CompilerFacts.

(* ================================================================== *)
(** * Instructions and their wrapper *)
(* ================================================================== *)

Module FormatFacts.
Import Js Spec Compiler Interpolation.

(** ** [replace] with a literal pattern *)

Lemma lacks_cons c x s : lacks c (String x s) -> x <> c /\ lacks c s.
Proof.
  intros H. split; [apply H; by left|]. intros y Hy. apply H. by right.
Qed.

(** Without a dollar sign the replacement stands for itself. *)
Lemma expand_plain (replacement matched before after : string) :
  lacks "$" replacement -> expand replacement matched before after = replacement.
Proof.
  induction replacement as [|c r IH]; intros H; [done|].
  apply lacks_cons in H as [Hc Hr]. simpl.
  destruct (Ascii.eqb_spec c "$") as [->|_]; [done|].
  rewrite IH by done.
  by destruct c as [[] [] [] [] [] [] [] []].
Qed.

Lemma append_empty (s : string) : s +:+ "" = s.
Proof. induction s as [|c s IH]; [done|]. by rewrite append_cons, IH. Qed.

Lemma startsWith_app (p s : string) : Str.startsWith p (p +:+ s) = true.
Proof. induction p as [|c p IH]; [done|]. simpl. by rewrite Ascii.eqb_refl. Qed.

Lemma dropChars_app (p s : string) : dropChars (String.length p) (p +:+ s) = s.
Proof. induction p as [|c p IH]; [by destruct s|]. exact IH. Qed.

Section Replace.
Variable all : bool.
Variables (h : ascii) (tail replacement : string).

Local Abbreviation pat := (String h tail).

(** A subject without the first character of the pattern is left as it is. *)
Lemma replaceFrom_plain fuel (before s : string) :
  lacks h s -> replaceFrom fuel all pat replacement before s = s.
Proof.
  revert fuel before. induction s as [|c s IH]; intros [|fuel] before H; try done.
  apply lacks_cons in H as [Hc Hs]. simpl.
  destruct (Ascii.eqb_spec h c) as [->|_]; [done|]. simpl. by rewrite IH.
Qed.

(** The first occurrence, behind a stretch without the first character
    of the pattern. *)
Lemma replaceFrom_first fuel (before a b : string) :
  lacks h a -> String.length a < fuel ->
  replaceFrom fuel all pat replacement before (a +:+ pat +:+ b) =
  a +:+ expand replacement pat (before +:+ a) b +:+
  (if all
   then replaceFrom (fuel - S (String.length a)) all pat replacement
          (before +:+ a +:+ pat) b
   else b).
Proof.
  revert fuel before. induction a as [|c a IH]; intros fuel before H Hfuel.
  - destruct fuel as [|fuel]; [simpl in Hfuel; lia|].
    rewrite !append_nil. cbn [replaceFrom].
    change (String h tail +:+ b) with (pat +:+ b).
    rewrite startsWith_app, dropChars_app, append_empty.
    by replace (S fuel - S (String.length "")) with fuel by (simpl; lia).
  - destruct fuel as [|fuel]; [simpl in Hfuel; lia|].
    apply lacks_cons in H as [Hc Ha].
    rewrite append_cons. cbn [replaceFrom].
    assert (Hstart : Str.startsWith pat (String c (a +:+ pat +:+ b)) = false).
    { simpl. by destruct (Ascii.eqb_spec h c) as [->|_]. }
    rewrite Hstart, IH by (done || simpl in Hfuel; lia).
    rewrite !append_cons.
    replace ((before +:+ String c "") +:+ a) with (before +:+ String c a)
      by (by rewrite append_assoc).
    replace ((before +:+ String c "") +:+ a +:+ pat) with (before +:+ String c a +:+ pat)
      by (by rewrite append_assoc).
    reflexivity.
Qed.

(** One occurrence, a replacement without dollar sign. *)
Lemma replace_once (a b : string) :
  lacks h a -> lacks h b -> lacks "$" replacement ->
  replaceFrom (S (String.length (a +:+ pat +:+ b))) all pat replacement ""
    (a +:+ pat +:+ b) = a +:+ replacement +:+ b.
Proof.
  intros Ha Hb Hr. rewrite replaceFrom_first.
  - rewrite expand_plain, replaceFrom_plain by done. by destruct all.
  - done.
  - rewrite length_append. lia.
Qed.

End Replace.

Section Instructions.
Variable hostInherited : value -> string -> option value.

(** X28. An instruction is the template of its type with the
    description of the placeholder in the place of [{description}]:
    for a template with one such token and no other brace, and a
    description without dollar sign, what stands before and after the
    token is kept and the description is put between. *)
Theorem description_substituted id typeName (instructionTypes : object)
    (a b desc : string) :
  hasProperty hostInherited typeName (ofObject instructionTypes) = true ->
  get hostInherited (get hostInherited (ofObject instructionTypes) typeName) "template" =
    VString (a +:+ "{description}" +:+ b) ->
  lacks "{" a -> lacks "{" b -> lacks "$" desc ->
  generateInstruction hostInherited id typeName
    (literal [("description", VString desc)]) instructionTypes =
  Ok (a +:+ desc +:+ b).
Proof.
  intros Hknown Htemplate Ha Hb Hdesc.
  unfold generateInstruction. rewrite Hknown. cbn [negb].
  unfold formatInstruction. rewrite Htemplate.
  change (get hostInherited (ofObject (literal [("description", VString desc)]))
            "description") with (VString desc).
  assert (Hd : (if truthy (VString desc) then toStr hostInherited (VString desc)
                else Ok "") = Ok desc) by (destruct desc; reflexivity).
  rewrite Hd. cbn [mbind result_bind].
  change (entries (literal [("description", VString desc)]))
    with [("description", VString desc)].
  cbn [negb String.eqb Ascii.eqb Bool.eqb andb rethrow].
  unfold replaceAll.
  by rewrite (replace_once true "{" "description}" desc a b).
Qed.

(** X29. An instruction that is not bracketed already is put into the
    wrapper in the place of [{instruction}]: with the default wrapper
    it stands between [<<] and [>>]. *)
Theorem instruction_wrapped (template : ITSTemplate) instructionTypes id typeName config
    (instruction pre post : string) :
  generateInstruction hostInherited id typeName config instructionTypes = Ok instruction ->
  bracketed instruction = false ->
  lacks "$" instruction ->
  wrapperOf template = pre +:+ "{instruction}" +:+ post -> lacks "{" pre ->
  renderElement hostInherited (wrapperOf template) instructionTypes
    (PlaceholderElement id typeName config) = Ok [pre +:+ instruction +:+ post].
Proof.
  intros Hgen Hbracketed Hplain Hwrapper Hpre.
  cbn [renderElement]. rewrite Hgen. cbn [mbind result_bind]. rewrite Hbracketed.
  rewrite Hwrapper. unfold replaceFirst.
  rewrite (replaceFrom_first false "{" "instruction}" instruction)
    by (done || rewrite length_append; lia).
  by rewrite expand_plain.
Qed.

End Instructions.

Lemma description_substituted_witness :
  let types := literal [("list", typeDefinition "List: {description}.")] in
  (hasProperty Demo.inherited "list" (ofObject types) = true /\
   lacks "{" "List: " /\ lacks "{" "." /\ lacks "$" "three fruits") /\
  generateInstruction Demo.inherited None "list"
    (literal [("description", VString "three fruits")]) types =
  Ok "List: three fruits.".
Proof.
  intros types.
  assert (Hlacks : forall c s,
            forallb (fun x => negb (Ascii.eqb x c)) (list_ascii_of_string s) = true ->
            lacks c s).
  { intros c s H x Hx. rewrite forallb_forall in H.
    apply list_elem_of_In, H in Hx. apply negb_true_iff in Hx.
    by apply Ascii.eqb_neq in Hx. }
  assert (H2 : lacks "{" "List: ") by (by apply Hlacks).
  assert (H3 : lacks "{" ".") by (by apply Hlacks).
  assert (H4 : lacks "$" "three fruits") by (by apply Hlacks).
  split; [auto|].
  exact (description_substituted Demo.inherited None "list" types "List: " "."
           "three fruits" eq_refl eq_refl H2 H3 H4).
Defined.

Lemma instruction_wrapped_witness :
  generateInstruction Demo.inherited None "list"
    (literal [("description", VString "three fruits")])
    (literal [("list", typeDefinition "List: {description}.")]) =
    Ok "List: three fruits." /\
  renderElement Demo.inherited (wrapperOf mockTemplate)
    (literal [("list", typeDefinition "List: {description}.")])
    (PlaceholderElement None "list" (literal [("description", VString "three fruits")])) =
  Ok ["<<List: three fruits.>>"].
Proof.
  assert (H : generateInstruction Demo.inherited None "list"
                (literal [("description", VString "three fruits")])
                (literal [("list", typeDefinition "List: {description}.")]) =
              Ok "List: three fruits.") by (vm_compute; reflexivity).
  split; [exact H|].
  refine (instruction_wrapped Demo.inherited mockTemplate _ None "list" _
            "List: three fruits." "<<" ">>" H eq_refl _ eq_refl _).
  - intros x Hx. simpl in Hx.
    repeat (apply elem_of_cons in Hx as [->|Hx]; [discriminate|]).
    by apply elem_of_nil in Hx.
  - intros x Hx. simpl in Hx.
    repeat (apply elem_of_cons in Hx as [->|Hx]; [discriminate|]).
    by apply elem_of_nil in Hx.
Defined.

End FormatFacts.
